(** * The WebSocket connection manager of dost-ai

    A shallow embedding of [src/app/services/websocket_manager.py]
    (class [WebSocketManager]) and the properties of its registry, its
    dispatcher, its offline queue and its cleanup sweep.

    Conventions of the embedding.
    - A coroutine is run to completion: the statements of one method are
      not interleaved with those of another task.
    - The manager's dictionaries are Python dictionaries.  The registry
      [active_connections] is iterated by [broadcast_to_all] while it is
      being changed, so it is kept as an insertion-ordered association
      list; the other dictionaries are finite maps.
    - Message dictionaries are objects on a heap and are passed around by
      reference, as in Python: the offline queue holds references.
    - Transports (the FastAPI [WebSocket] objects), the clock and the
      uuid generator are the environment.  Whether [accept] or a send
      succeeds is decided by an oracle that sees the whole history of
      the environment. *)

From stdpp Require Import gmap strings list fin_maps.
From Stdlib Require Import ZArith.

(** ** Python values and dictionaries *)

Abbreviation UserId := Z (only parsing).
Abbreviation WebSocket := nat (only parsing).
Abbreviation loc := nat (only parsing).

(** [VIso t] is the string [datetime.isoformat()] of the instant [t]
    (microseconds), [VRef l] a reference to the dictionary at [l]. *)
Inductive value :=
| VNone
| VBool (b : bool)
| VInt (z : Z)
| VStr (s : string)
| VIso (t : Z)
| VList (l : list value)
| VDict (d : list (string * value))
| VRef (l : loc).

Abbreviation PyDict := (list (string * value)) (only parsing).

(** Insertion-ordered dictionaries: [d[k]], [d[k] = v], [del d[k]]. *)
Section dict.
Context {K V : Type} `{EqDecision K}.

Fixpoint dict_get (k : K) (d : list (K * V)) : option V :=
  match d with
  | [] => None
  | (k', v) :: r => if decide (k = k') then Some v else dict_get k r
  end.

Fixpoint dict_set (k : K) (v : V) (d : list (K * V)) : list (K * V) :=
  match d with
  | [] => [(k, v)]
  | (k', v') :: r =>
      if decide (k = k') then (k, v) :: r else (k', v') :: dict_set k v r
  end.

Fixpoint dict_del (k : K) (d : list (K * V)) : list (K * V) :=
  match d with
  | [] => []
  | (k', v') :: r =>
      if decide (k = k') then dict_del k r else (k', v') :: dict_del k r
  end.

Definition dict_keys (d : list (K * V)) : list K := d.*1.

Definition dict_has (k : K) (d : list (K * V)) : bool :=
  bool_decide (is_Some (dict_get k d)).
End dict.

(** ** The manager's records *)

Record Metadata := {
  md_user_id : UserId;
  md_connected_at : Z;
  md_session_id : string;
  md_session_data : PyDict
}.

Record Session := {
  us_user_id : UserId;
  us_last_activity : Z;
  us_active_connections : nat;
  us_session_data : PyDict;
  us_status : option value
}.

Record Stats := {
  total_connections : nat;
  stat_active_connections : nat;
  messages_sent : nat;
  messages_received : nat
}.

(** The environment as the manager sees it: the clock (microseconds),
    the frames that transports took, the transports closed and accepted
    so far, and the number of calls made to the environment. *)
Record World := {
  clock : Z;
  wire : list (WebSocket * PyDict);
  closed : list WebSocket;
  accepted : list WebSocket;
  io_calls : nat
}.

Record Env := {
  accept_ok : World → WebSocket → bool;
  send_ok : World → WebSocket → PyDict → bool;
  uuid4 : nat → string;
  json_loads : string → option value
}.

Record State := {
  active_connections : list (UserId * gset WebSocket);
  connection_metadata : gmap WebSocket Metadata;
  user_sessions : gmap UserId Session;
  offline_messages : gmap UserId (list loc);
  connection_stats : Stats;
  heap : list PyDict;
  world : World
}.

Definition init_world : World :=
  {| clock := 0; wire := []; closed := []; accepted := []; io_calls := 0 |}.

(** [WebSocketManager.__init__] *)
Definition init : State :=
  {| active_connections := [];
     connection_metadata := ∅;
     user_sessions := ∅;
     offline_messages := ∅;
     connection_stats :=
       {| total_connections := 0; stat_active_connections := 0;
          messages_sent := 0; messages_received := 0 |};
     heap := [];
     world := init_world |}.

Definition set_active (f : list (UserId * gset WebSocket) → list (UserId * gset WebSocket))
    (s : State) : State :=
  {| active_connections := f (active_connections s);
     connection_metadata := connection_metadata s;
     user_sessions := user_sessions s;
     offline_messages := offline_messages s;
     connection_stats := connection_stats s;
     heap := heap s;
     world := world s |}.

Definition set_metadata (f : gmap WebSocket Metadata → gmap WebSocket Metadata)
    (s : State) : State :=
  {| active_connections := active_connections s;
     connection_metadata := f (connection_metadata s);
     user_sessions := user_sessions s;
     offline_messages := offline_messages s;
     connection_stats := connection_stats s;
     heap := heap s;
     world := world s |}.

Definition set_sessions (f : gmap UserId Session → gmap UserId Session)
    (s : State) : State :=
  {| active_connections := active_connections s;
     connection_metadata := connection_metadata s;
     user_sessions := f (user_sessions s);
     offline_messages := offline_messages s;
     connection_stats := connection_stats s;
     heap := heap s;
     world := world s |}.

Definition set_offline (f : gmap UserId (list loc) → gmap UserId (list loc))
    (s : State) : State :=
  {| active_connections := active_connections s;
     connection_metadata := connection_metadata s;
     user_sessions := user_sessions s;
     offline_messages := f (offline_messages s);
     connection_stats := connection_stats s;
     heap := heap s;
     world := world s |}.

Definition set_stats (f : Stats → Stats) (s : State) : State :=
  {| active_connections := active_connections s;
     connection_metadata := connection_metadata s;
     user_sessions := user_sessions s;
     offline_messages := offline_messages s;
     connection_stats := f (connection_stats s);
     heap := heap s;
     world := world s |}.

Definition set_heap (f : list PyDict → list PyDict) (s : State) : State :=
  {| active_connections := active_connections s;
     connection_metadata := connection_metadata s;
     user_sessions := user_sessions s;
     offline_messages := offline_messages s;
     connection_stats := connection_stats s;
     heap := f (heap s);
     world := world s |}.

Definition set_world (f : World → World) (s : State) : State :=
  {| active_connections := active_connections s;
     connection_metadata := connection_metadata s;
     user_sessions := user_sessions s;
     offline_messages := offline_messages s;
     connection_stats := connection_stats s;
     heap := heap s;
     world := f (world s) |}.

(** ** Statements: state and exceptions *)

Inductive Exn := WebSocketDisconnect | RuntimeError | TypeError | OtherError.

Inductive Res (A : Type) :=
| Ok (a : A)
| Raise (e : Exn).
Arguments Ok {A} a.
Arguments Raise {A} e.

(** A statement runs on a state and either returns or raises; what it
    changed before it raised stays changed. *)
Definition M (A : Type) : Type := State → Res A * State.

Definition ret {A} (a : A) : M A := λ s, (Ok a, s).

Definition bind {A B} (m : M A) (k : A → M B) : M B := λ s,
  match m s with
  | (Ok a, s') => k a s'
  | (Raise e, s') => (Raise e, s')
  end.

Definition raise {A} (e : Exn) : M A := λ s, (Raise e, s).

(** [try: body except Exception as e: handler] *)
Definition try_except {A} (body : M A) (handler : Exn → M A) : M A := λ s,
  match body s with
  | (Ok a, s') => (Ok a, s')
  | (Raise e, s') => handler e s'
  end.

Definition get_state : M State := λ s, (Ok s, s).
Definition modify (f : State → State) : M unit := λ s, (Ok (), f s).

Notation "'let!' x := m 'in' k" := (bind m (λ x, k))
  (at level 10, x name, m at level 100, k at level 200).
Notation "m >> k" := (bind m (λ _, k))
  (at level 65, right associativity).

(** [for x in l: body x] *)
Fixpoint for_each {A} (l : list A) (body : A → M unit) : M unit :=
  match l with
  | [] => ret ()
  | x :: r => body x >> for_each r body
  end.

Definition when (b : bool) (m : M unit) : M unit := if b then m else ret ().

(** What a statement leaves behind and what it returns. *)
Definition exec {A} (m : M A) (s : State) : State := (m s).2.
Definition result {A} (m : M A) (s : State) : Res A := (m s).1.

(** ** The environment's calls *)

Definition world_io (w : World) : World :=
  {| clock := clock w; wire := wire w; closed := closed w;
     accepted := accepted w; io_calls := S (io_calls w) |}.

Definition world_accept (websocket : WebSocket) (w : World) : World :=
  {| clock := clock w; wire := wire w; closed := closed w;
     accepted := accepted w ++ [websocket]; io_calls := S (io_calls w) |}.

Definition world_send (websocket : WebSocket) (payload : PyDict) (w : World) : World :=
  {| clock := clock w; wire := wire w ++ [(websocket, payload)]; closed := closed w;
     accepted := accepted w; io_calls := S (io_calls w) |}.

Definition world_close (websocket : WebSocket) (w : World) : World :=
  {| clock := clock w; wire := wire w; closed := closed w ++ [websocket];
     accepted := accepted w; io_calls := S (io_calls w) |}.

(** Time passes between two calls of the manager. *)
Definition world_tick (dt : Z) (w : World) : World :=
  {| clock := clock w + dt; wire := wire w; closed := closed w;
     accepted := accepted w; io_calls := io_calls w |}.

(** One hour, the age after which the sweep takes a connection, in the
    clock's unit: [total_seconds() > 3600]. *)
Definition one_hour : Z := 3600 * 1000000.

(** [lst[-n:]] for a positive [n] *)
Definition last_n {A} (n : nat) (l : list A) : list A := drop (length l - n) l.

(** [session_data or {}] *)
Definition or_empty (d : option PyDict) : PyDict := default [] d.

(** A user id in a condition: [if user_id], [if exclude_user and ...];
    [None] and [0] are false. *)
Definition truthy (user_id : option UserId) : bool :=
  match user_id with
  | Some z => bool_decide (z ≠ 0%Z)
  | None => false
  end.

(** [self.active_connections.get(user_id, set())] *)
Definition conns_of (s : State) (user_id : UserId) : gset WebSocket :=
  default ∅ (dict_get user_id (active_connections s)).

(** [self.offline_messages.get(user_id, [])] *)
Definition queue_of (s : State) (user_id : UserId) : list loc :=
  default [] (offline_messages s !! user_id).

(** [sum(len(connections) for connections in self.active_connections.values())] *)
Definition count_connections (s : State) : nat :=
  sum_list (size <$> (active_connections s).*2).

Definition stats_connected (n : nat) (st : Stats) : Stats :=
  {| total_connections := S (total_connections st);
     stat_active_connections := n;
     messages_sent := messages_sent st;
     messages_received := messages_received st |}.

Definition stats_active (n : nat) (st : Stats) : Stats :=
  {| total_connections := total_connections st;
     stat_active_connections := n;
     messages_sent := messages_sent st;
     messages_received := messages_received st |}.

Definition stats_sent (st : Stats) : Stats :=
  {| total_connections := total_connections st;
     stat_active_connections := stat_active_connections st;
     messages_sent := S (messages_sent st);
     messages_received := messages_received st |}.

Definition stats_received (st : Stats) : Stats :=
  {| total_connections := total_connections st;
     stat_active_connections := stat_active_connections st;
     messages_sent := messages_sent st;
     messages_received := S (messages_received st) |}.

Definition session_count (n : nat) (u : Session) : Session :=
  {| us_user_id := us_user_id u; us_last_activity := us_last_activity u;
     us_active_connections := n; us_session_data := us_session_data u;
     us_status := us_status u |}.

Definition session_activity (t : Z) (u : Session) : Session :=
  {| us_user_id := us_user_id u; us_last_activity := t;
     us_active_connections := us_active_connections u;
     us_session_data := us_session_data u; us_status := us_status u |}.

Definition session_status (v : value) (t : Z) (u : Session) : Session :=
  {| us_user_id := us_user_id u; us_last_activity := t;
     us_active_connections := us_active_connections u;
     us_session_data := us_session_data u; us_status := Some v |}.

(** ** The methods of [WebSocketManager] *)

Section manager.
Variable env : Env.

(** [datetime.now()]: one method call reads one instant. *)
Definition datetime_now : M Z := λ s, (Ok (clock (world s)), s).

(** [str(uuid.uuid4())] *)
Definition new_uuid : M string := λ s,
  (Ok (uuid4 env (io_calls (world s))), set_world world_io s).

(** [await websocket.accept()] *)
Definition ws_accept (websocket : WebSocket) : M unit := λ s,
  if accept_ok env (world s) websocket
  then (Ok (), set_world (world_accept websocket) s)
  else (Raise OtherError, set_world world_io s).

(** [await websocket.send_text(payload)] *)
Definition ws_send_text (websocket : WebSocket) (payload : PyDict) : M unit := λ s,
  if send_ok env (world s) websocket payload
  then (Ok (), set_world (world_send websocket payload) s)
  else (Raise WebSocketDisconnect, set_world world_io s).

(** [await websocket.close()]; both callers swallow what it raises. *)
Definition ws_close (websocket : WebSocket) : M unit := λ s,
  (Ok (), set_world (world_close websocket) s).

(** A dictionary display [{...}] makes a new object. *)
Definition new_dict (d : PyDict) : M loc := λ s,
  (Ok (length (heap s)), set_heap (λ h, h ++ [d]) s).

(** [message[k] = v]; an argument that is no dictionary raises. *)
Definition dict_setitem (message : loc) (k : string) (v : value) : M unit := λ s,
  match heap s !! message with
  | Some d => (Ok (), set_heap (<[message := dict_set k v d]>) s)
  | None => (Raise TypeError, s)
  end.

(** [json.dumps(message, default=str)]: the dictionary as it is now. *)
Definition json_dumps (message : loc) : M PyDict := λ s,
  match heap s !! message with
  | Some d => (Ok d, s)
  | None => (Raise TypeError, s)
  end.

(** [self.active_connections[user_id]] on a [defaultdict(set)]: a
    missing key is inserted with an empty set. *)
Definition active_getitem (user_id : UserId) : M (gset WebSocket) := λ s,
  match dict_get user_id (active_connections s) with
  | Some c => (Ok c, s)
  | None => (Ok ∅, set_active (dict_set user_id ∅) s)
  end.

Definition update_session_on_disconnect (user_id : UserId) (s : State) : State :=
  match user_sessions s !! user_id with
  | Some u =>
      let s1 := set_sessions (<[user_id := session_count (size (conns_of s user_id)) u]>) s in
      if bool_decide (conns_of s1 user_id = ∅)
      then set_sessions (delete user_id) s1
      else s1
  | None => s
  end.

Definition disconnect (user_id : UserId) (websocket : option WebSocket) : M unit :=
  try_except
    (match websocket with
     | Some ws =>
         (let! connections := active_getitem user_id in
          when (bool_decide (ws ∈ connections))
            (modify (set_active (dict_set user_id (connections ∖ {[ws]}))))) >>
         modify (set_metadata (delete ws)) >>
         try_except (ws_close ws) (λ _, ret ())
     | None =>
         let! connections_to_close := active_getitem user_id in
         for_each (elements connections_to_close) (λ conn,
           try_except (ws_close conn) (λ _, ret ()) >>
           modify (set_metadata (delete conn))) >>
         modify (set_active (dict_set user_id ∅))
     end >>
     (let! connections := active_getitem user_id in
      when (bool_decide (connections = ∅))
        (modify (set_active (dict_del user_id)))) >>
     modify (update_session_on_disconnect user_id) >>
     modify (λ s, set_stats (stats_active (count_connections s)) s))
    (λ _, ret ()).

Definition _send_to_connection (websocket : WebSocket) (message : loc) : M unit :=
  try_except
    (let! message_json := json_dumps message in
     ws_send_text websocket message_json)
    (λ e, raise e).

Definition max_queue_size : nat := 100.

Definition _queue_offline_message (user_id : UserId) (message : loc) : M unit :=
  try_except
    (modify (set_offline (λ q, <[user_id := default [] (q !! user_id) ++ [message]]> q)) >>
     let! s := get_state in
     when (bool_decide (max_queue_size < length (queue_of s user_id)))
       (modify (set_offline (<[user_id := last_n max_queue_size (queue_of s user_id)]>))))
    (λ _, ret ()).

(** The loop of [send_to_user] over the copy of the user's set. *)
Fixpoint send_each (user_id : UserId) (message : loc)
    (connections : list WebSocket) (sent_successfully : bool) : M bool :=
  match connections with
  | [] => ret sent_successfully
  | websocket :: rest =>
      let! sent :=
        try_except
          (_send_to_connection websocket message >> ret true)
          (λ e, match e with
                | WebSocketDisconnect =>
                    disconnect user_id (Some websocket) >> ret sent_successfully
                | _ =>
                    disconnect user_id (Some websocket) >> ret sent_successfully
                end) in
      send_each user_id message rest sent
  end.

Definition send_to_user (user_id : UserId) (message : loc) : M bool :=
  try_except
    (let! now := datetime_now in
     dict_setitem message "timestamp" (VIso now) >>
     let! s := get_state in
     if dict_has user_id (active_connections s) then
       let! connections := active_getitem user_id in
       let! sent_successfully := send_each user_id message (elements connections) false in
       if sent_successfully : bool then
         modify (set_stats stats_sent) >> ret true
       else
         _queue_offline_message user_id message >> ret false
     else
       _queue_offline_message user_id message >> ret false)
    (λ _, ret false).

Definition offline_wrapper (message : loc) : PyDict :=
  [("type", VStr "offline_message"); ("data", VRef message)].

Definition _send_offline_messages (user_id : UserId) : M unit :=
  try_except
    (let! s := get_state in
     match offline_messages s !! user_id with
     | Some messages =>
         for_each messages (λ message,
           let! wrapper := new_dict (offline_wrapper message) in
           let! _ := send_to_user user_id wrapper in
           ret ()) >>
         modify (set_offline (<[user_id := []]>))
     | None => ret ()
     end)
    (λ _, ret ()).

Definition connection_confirmed (user_id : UserId) (session_id : string) (now : Z) : PyDict :=
  [("type", VStr "connection_confirmed");
   ("data", VDict [("user_id", VInt user_id);
                   ("session_id", VStr session_id);
                   ("timestamp", VIso now)])].

Definition connect (websocket : WebSocket) (user_id : UserId)
    (session_data : option PyDict) : M unit :=
  try_except
    (ws_accept websocket >>
     (let! connections := active_getitem user_id in
      modify (set_active (dict_set user_id ({[websocket]} ∪ connections)))) >>
     let! now := datetime_now in
     let! session_id := new_uuid in
     modify (set_metadata (<[websocket :=
       {| md_user_id := user_id; md_connected_at := now;
          md_session_id := session_id;
          md_session_data := or_empty session_data |}]>)) >>
     modify (λ s, set_sessions (<[user_id :=
       {| us_user_id := user_id; us_last_activity := now;
          us_active_connections := size (conns_of s user_id);
          us_session_data := or_empty session_data;
          us_status := None |}]>) s) >>
     modify (λ s, set_stats (stats_connected (count_connections s)) s) >>
     let! confirmation := new_dict (connection_confirmed user_id session_id now) in
     _send_to_connection websocket confirmation >>
     _send_offline_messages user_id)
    (λ _, disconnect user_id (Some websocket)).

(** The inner loop of [broadcast_to_all] over the copy of one set. *)
Definition broadcast_each (user_id : UserId) (message : loc)
    (connections_copy : list WebSocket) : M unit :=
  for_each connections_copy (λ websocket,
    try_except
      (_send_to_connection websocket message >> modify (set_stats stats_sent))
      (λ e, match e with
            | WebSocketDisconnect => disconnect user_id (Some websocket)
            | _ => disconnect user_id (Some websocket)
            end)).

(** Each step of a dictionary iterator first compares the size of
    the dictionary with the size it had when the loop began. *)
Definition check_dict_size (used : nat) : M unit := λ s,
  if bool_decide (length (active_connections s) = used)
  then (Ok (), s)
  else (Raise RuntimeError, s).

(** [for user_id, connections in self.active_connections.items()].
    The body for one user changes that user's entry only, so the
    entries still to come are those of the dictionary as the loop
    found it; [used] is its size then. *)
Fixpoint broadcast_items (used : nat) (items : list (UserId * gset WebSocket))
    (message : loc) (exclude_user : option UserId) : M unit :=
  check_dict_size used >>
  match items with
  | [] => ret ()
  | (user_id, connections) :: rest =>
      if truthy exclude_user && bool_decide (exclude_user = Some user_id)
      then broadcast_items used rest message exclude_user
      else
        broadcast_each user_id message (elements connections) >>
        broadcast_items used rest message exclude_user
  end.

Definition broadcast_to_all (message : loc) (exclude_user : option UserId) : M unit :=
  try_except
    (let! now := datetime_now in
     dict_setitem message "timestamp" (VIso now) >>
     let! s := get_state in
     broadcast_items (length (active_connections s)) (active_connections s)
       message exclude_user)
    (λ _, ret ()).

Definition broadcast_to_user (user_id : UserId) (message : loc) : M unit :=
  let! _ := send_to_user user_id message in ret ().

Definition pong (now : Z) : PyDict :=
  [("type", VStr "pong"); ("timestamp", VIso now)].

Definition _handle_ping (websocket : WebSocket) (data : PyDict) : M unit :=
  try_except
    (let! now := datetime_now in
     let! reply := new_dict (pong now) in
     _send_to_connection websocket reply)
    (λ _, ret ()).

Definition _handle_typing (user_id : UserId) (data : PyDict) : M unit :=
  try_except
    (let! now := datetime_now in
     let! typing_message := new_dict
       [("type", VStr "typing_status");
        ("data", VDict [("user_id", VInt user_id);
                        ("is_typing", default (VBool false) (dict_get "is_typing" data));
                        ("timestamp", VIso now)])] in
     ret ())
    (λ _, ret ()).

Definition voice_received (now : Z) : PyDict :=
  [("type", VStr "voice_received");
   ("data", VDict [("status", VStr "processing"); ("timestamp", VIso now)])].

Definition _handle_voice_data (user_id : UserId) (data : PyDict) : M unit :=
  try_except
    (let! now := datetime_now in
     let! message := new_dict (voice_received now) in
     let! _ := send_to_user user_id message in
     ret ())
    (λ _, ret ()).

Definition _handle_user_status (user_id : UserId) (data : PyDict) : M unit :=
  try_except
    (let! now := datetime_now in
     modify (set_sessions (alter
       (session_status (default (VStr "online") (dict_get "status" data)) now)
       user_id)))
    (λ _, ret ()).

(** [json.loads] is the environment's; what is no JSON raises, and
    so does [data.get] on what is no object. *)
Definition handle_message (websocket : WebSocket) (message : string) : M unit :=
  try_except
    (match json_loads env message with
     | None => raise OtherError
     | Some data =>
         let! s := get_state in
         match connection_metadata s !! websocket with
         | None => ret ()
         | Some connection_info =>
             let user_id := md_user_id connection_info in
             modify (set_stats stats_received) >>
             let! now := datetime_now in
             modify (set_sessions (alter (session_activity now) user_id)) >>
             match data with
             | VDict d =>
                 match dict_get "type" d with
                 | Some (VStr message_type) =>
                     if String.eqb message_type "ping" then _handle_ping websocket d
                     else if String.eqb message_type "typing" then _handle_typing user_id d
                     else if String.eqb message_type "voice_data" then _handle_voice_data user_id d
                     else if String.eqb message_type "user_status" then _handle_user_status user_id d
                     else ret ()
                 | _ => ret ()
                 end
             | _ => raise TypeError
             end
         end
     end)
    (λ _, ret ()).

Definition get_active_users (s : State) : list UserId :=
  dict_keys (active_connections s).

Definition get_user_connection_count (user_id : UserId) (s : State) : nat :=
  size (conns_of s user_id).

Definition get_user_session (user_id : UserId) (s : State) : option Session :=
  user_sessions s !! user_id.

Definition system_notification (message : string) (now : Z) : PyDict :=
  [("type", VStr "system_notification");
   ("data", VDict [("message", VStr message);
                   ("timestamp", VIso now);
                   ("severity", VStr "info")])].

Definition send_system_notification (message : string) (user_id : option UserId) : M unit :=
  let! now := datetime_now in
  let! notification := new_dict (system_notification message now) in
  match user_id with
  | Some u =>
      if truthy user_id
      then let! _ := send_to_user u notification in ret ()
      else broadcast_to_all notification None
  | None => broadcast_to_all notification None
  end.

Definition ai_response (response : string) (context : option PyDict) (now : Z) : PyDict :=
  [("type", VStr "ai_response");
   ("data", VDict [("response", VStr response);
                   ("context", VDict (or_empty context));
                   ("timestamp", VIso now)])].

Definition send_ai_response (user_id : UserId) (response : string)
    (context : option PyDict) : M unit :=
  let! now := datetime_now in
  let! message := new_dict (ai_response response context now) in
  let! _ := send_to_user user_id message in
  ret ().

Definition task_notification (task_data : PyDict) (now : Z) : PyDict :=
  [("type", VStr "task_notification");
   ("data", VDict (dict_set "timestamp" (VIso now) task_data))].

Definition send_task_notification (user_id : UserId) (task_data : PyDict) : M unit :=
  let! now := datetime_now in
  let! message := new_dict (task_notification task_data now) in
  let! _ := send_to_user user_id message in
  ret ().

Definition calendar_reminder (event_data : PyDict) (now : Z) : PyDict :=
  [("type", VStr "calendar_reminder");
   ("data", VDict (dict_set "timestamp" (VIso now) event_data))].

Definition send_calendar_reminder (user_id : UserId) (event_data : PyDict) : M unit :=
  let! now := datetime_now in
  let! message := new_dict (calendar_reminder event_data now) in
  let! _ := send_to_user user_id message in
  ret ().

(** The connections the sweep takes: those whose metadata says they
    were established more than an hour before [current_time]. *)
Definition inactive (current_time : Z) (metadata : Metadata) : bool :=
  bool_decide (one_hour < current_time - md_connected_at metadata)%Z.

Definition inactive_connections (current_time : Z)
    (m : gmap WebSocket Metadata) : list (WebSocket * UserId) :=
  (λ p, (p.1, md_user_id p.2)) <$>
    filter (λ p, inactive current_time p.2 = true) (map_to_list m).

Definition cleanup_inactive_connections : M unit :=
  try_except
    (let! current_time := datetime_now in
     let! s := get_state in
     for_each (inactive_connections current_time (connection_metadata s))
       (λ p, disconnect p.2 (Some p.1)))
    (λ _, ret ()).

Definition shutdown : M unit :=
  try_except
    (let! s := get_state in
     for_each (dict_keys (active_connections s)) (λ user_id, disconnect user_id None) >>
     modify (set_active (λ _, [])) >>
     modify (set_metadata (λ _, ∅)) >>
     modify (set_sessions (λ _, ∅)) >>
     modify (set_offline (λ _, ∅)))
    (λ _, ret ()).
End manager.

(** ** Sequences of calls *)

(** What the manager's callers and the environment can do. *)
Inductive op :=
| Connect (websocket : WebSocket) (user_id : UserId) (session_data : option PyDict)
| Disconnect (user_id : UserId) (websocket : option WebSocket)
| SendToUser (user_id : UserId) (message : loc)
| BroadcastToAll (message : loc) (exclude_user : option UserId)
| BroadcastToUser (user_id : UserId) (message : loc)
| HandleMessage (websocket : WebSocket) (message : string)
| SendSystemNotification (message : string) (user_id : option UserId)
| SendAiResponse (user_id : UserId) (response : string) (context : option PyDict)
| SendTaskNotification (user_id : UserId) (task_data : PyDict)
| SendCalendarReminder (user_id : UserId) (event_data : PyDict)
| CleanupInactiveConnections
| Shutdown
| NewDict (d : PyDict)
| SetItem (message : loc) (k : string) (v : value)
| Tick (dt : Z).

Definition step (env : Env) (o : op) (s : State) : State :=
  match o with
  | Connect websocket user_id session_data =>
      exec (connect env websocket user_id session_data) s
  | Disconnect user_id websocket => exec (disconnect user_id websocket) s
  | SendToUser user_id message => exec (send_to_user env user_id message) s
  | BroadcastToAll message exclude_user =>
      exec (broadcast_to_all env message exclude_user) s
  | BroadcastToUser user_id message => exec (broadcast_to_user env user_id message) s
  | HandleMessage websocket message => exec (handle_message env websocket message) s
  | SendSystemNotification message user_id =>
      exec (send_system_notification env message user_id) s
  | SendAiResponse user_id response context =>
      exec (send_ai_response env user_id response context) s
  | SendTaskNotification user_id task_data =>
      exec (send_task_notification env user_id task_data) s
  | SendCalendarReminder user_id event_data =>
      exec (send_calendar_reminder env user_id event_data) s
  | CleanupInactiveConnections => exec (cleanup_inactive_connections) s
  | Shutdown => exec shutdown s
  | NewDict d => exec (new_dict d) s
  | SetItem message k v => exec (dict_setitem message k v) s
  | Tick dt => set_world (world_tick dt) s
  end.

Definition run_ops (env : Env) (ops : list op) (s : State) : State :=
  foldl (λ s o, step env o s) s ops.

(** The frames that went out between two states. *)
Definition frames_since (s s' : State) : list (WebSocket * PyDict) :=
  drop (length (wire (world s))) (wire (world s')).

(** ** Vocabulary of the properties *)

(** A statement keeps [P] when every run from a state in [P] ends in [P],
    whether it returns or raises. *)
Definition preserves {A} (P : State → Prop) (m : M A) : Prop :=
  ∀ s, P s → P (exec m s).

(** A property that looks only at the heap, the offline queues, the
    clock and the frames sent. *)
Definition delivery_only (P : State → Prop) : Prop :=
  ∀ s s', heap s' = heap s → offline_messages s' = offline_messages s →
    clock (world s') = clock (world s) → wire (world s') = wire (world s) →
    P s → P s'.

(** The registry after [self.active_connections[user_id]] was read. *)
Definition touch (user_id : UserId) (s : State) : State :=
  match dict_get user_id (active_connections s) with
  | Some _ => s
  | None => set_active (dict_set user_id ∅) s
  end.

(** The connections [disconnect] leaves to the user. *)
Definition remaining (s : State) (user_id : UserId) (websocket : option WebSocket)
    : gset WebSocket :=
  match websocket with
  | Some ws => conns_of s user_id ∖ {[ws]}
  | None => ∅
  end.

(** The invariant of the registry: no user is registered with an empty
    set, and the sessions are those of the registered users. *)
Definition registry_inv (s : State) : Prop :=
  (∀ u c, dict_get u (active_connections s) = Some c → c ≠ ∅) ∧
  (∀ u, is_Some (user_sessions s !! u) ↔ is_Some (dict_get u (active_connections s))).

(** A statement that returns from every state. *)
Definition succeeds {A} (m : M A) : Prop :=
  ∀ s, ∃ a, result m s = Ok a.

(** The blocks of [disconnect], named: the branch on [websocket], and
    the clean-up of an empty set. *)
Definition disconnect_branch (user_id : UserId) (websocket : option WebSocket) : M unit :=
  match websocket with
  | Some ws =>
      (let! connections := active_getitem user_id in
       when (bool_decide (ws ∈ connections))
         (modify (set_active (dict_set user_id (connections ∖ {[ws]}))))) >>
      modify (set_metadata (delete ws)) >>
      try_except (ws_close ws) (λ _, ret ())
  | None =>
      let! connections_to_close := active_getitem user_id in
      for_each (elements connections_to_close) (λ conn,
        try_except (ws_close conn) (λ _, ret ()) >>
        modify (set_metadata (delete conn))) >>
      modify (set_active (dict_set user_id ∅))
  end.

Definition drop_empty (user_id : UserId) : M unit :=
  let! connections := active_getitem user_id in
  when (bool_decide (connections = ∅)) (modify (set_active (dict_del user_id))).

(** A property that looks only at the registry and the sessions. *)
Definition registry_only (P : State → Prop) : Prop :=
  ∀ s s', active_connections s' = active_connections s →
    user_sessions s' = user_sessions s → P s → P s'.

(** The queue after [_queue_offline_message]: the message is appended
    and, beyond [max_queue_size] entries, the last [max_queue_size] are
    kept. *)
Definition enqueue (q : list loc) (message : loc) : list loc :=
  if bool_decide (max_queue_size < length (q ++ [message]))
  then last_n max_queue_size (q ++ [message])
  else q ++ [message].

(** The environment after the transports took the frames [fs]. *)
Definition sent_frames (fs : list (WebSocket * PyDict)) (w : World) : World :=
  foldl (λ w f, world_send f.1 f.2 w) w fs.

(** [message] with the stamp of [send_to_user] and [broadcast_to_all]. *)
Definition stamped (now : Z) (message : PyDict) : PyDict :=
  dict_set "timestamp" (VIso now) message.

(** While [broadcast_to_all] loops, the heap stays as the stamp left
    it and every frame sent carries the stamped dictionary. *)
Definition carrying (h : list PyDict) (w0 : list (WebSocket * PyDict)) (d : PyDict)
    (s : State) : Prop :=
  heap s = h ∧ ∃ fs, wire (world s) = w0 ++ fs ∧ Forall (λ f, f.2 = d) fs.

(** From [s] to [s'] the dictionary at [message], which held [d], was
    stamped in place: it now holds [d] with ["timestamp"] set to the
    instant of [s], its other keys and all other objects are untouched,
    and the frames sent in between carry the stamped dictionary. *)
Definition stamped_in_place (message : loc) (d : PyDict) (s s' : State) : Prop :=
  let now := clock (world s) in
  heap s' !! message = Some (stamped now d) ∧
  dict_get "timestamp" (stamped now d) = Some (VIso now) ∧
  (∀ k, k ≠ "timestamp" → dict_get k (stamped now d) = dict_get k d) ∧
  (∀ l, l ≠ message → heap s' !! l = heap s !! l) ∧
  Forall (λ f, f.2 = stamped now d) (frames_since s s').

(** The body of the loop of [_send_offline_messages]. *)
Definition replay (env : Env) (user_id : UserId) (message : loc) : M unit :=
  let! wrapper := new_dict (offline_wrapper message) in
  let! _ := send_to_user env user_id wrapper in
  ret ().

(** A frame that replays a queued message, and the queued message it
    replays: the object its ["data"] refers to. *)
Definition is_offline_frame (f : WebSocket * PyDict) : Prop :=
  dict_get "type" f.2 = Some (VStr "offline_message").

Definition replayed_message (d : PyDict) : option loc :=
  match dict_get "data" d with
  | Some (VRef l) => Some l
  | _ => None
  end.

(** The queued messages replayed to [websocket] by the frames [fs], in
    the order of the frames. *)
Definition replayed_to (websocket : WebSocket) (fs : list (WebSocket * PyDict)) : list loc :=
  omap (λ f, if decide (f.1 = websocket) then replayed_message f.2 else None) fs.

(** Transports that take every frame, and transports that accept every
    handshake. *)
Definition healthy (env : Env) : Prop := ∀ W w d, send_ok env W w d = true.
Definition accepting (env : Env) : Prop := ∀ W w, accept_ok env W w = true.

(** The frames one message dictionary makes on the connections [ws]. *)
Definition frames_to (ws : list WebSocket) (d : PyDict) : list (WebSocket * PyDict) :=
  (λ w, (w, d)) <$> ws.

(** The state after the frames of [d] went to the connections [ws] in
    the loop of [broadcast_to_all], which counts each one. *)
Definition delivered (d : PyDict) (ws : list WebSocket) (s : State) : State :=
  foldl (λ s w, set_stats stats_sent (set_world (world_send w d) s)) s ws.

(** The connections [broadcast_to_all] sends to: those of every entry
    of the registry that its test does not skip. *)
Definition recipients (exclude_user : option UserId)
    (items : list (UserId * gset WebSocket)) : list WebSocket :=
  flat_map (λ p, if truthy exclude_user && bool_decide (exclude_user = Some p.1)
                 then [] else elements p.2) items.

(** No frame sent from [s] to [s'] went to a connection that [user_id]
    had in [s]. *)
Definition excluded_from (user_id : UserId) (s s' : State) : Prop :=
  ∀ w d, w ∈ conns_of s user_id → (w, d) ∉ frames_since s s'.

(** The shape [{type: string, data: object, timestamp: ISO-8601
    string}] of a frame, at its top level.  A reference stands for the
    dictionary it refers to. *)
Definition is_object (v : value) : bool :=
  match v with
  | VDict _ | VRef _ => true
  | _ => false
  end.

Definition has_shape (d : PyDict) : bool :=
  match dict_get "type" d, dict_get "data" d, dict_get "timestamp" d with
  | Some (VStr _), Some v, Some (VIso _) => is_object v
  | _, _, _ => false
  end.

(** Every frame sent from [s] to [s'] has the shape. *)
Definition all_shaped (s s' : State) : Prop :=
  forallb (λ f, has_shape f.2) (frames_since s s') = true.

(** The age of a connection: the time since the establishment that its
    metadata records. *)
Definition age (s : State) (websocket : WebSocket) : option Z :=
  (λ md, clock (world s) - md_connected_at md)%Z <$> connection_metadata s !! websocket.

(** From [s] to [s'] every registered connection older than
    [threshold] was unregistered. *)
Definition sweeps_older_than (threshold : Z) (s s' : State) : Prop :=
  ∀ u w a, w ∈ conns_of s u → age s w = Some a → (threshold < a)%Z →
    w ∉ conns_of s' u.

(** ** Scenarios *)

(** An environment in which every transport accepts and takes every
    frame. *)
Definition quiet_env : Env :=
  {| accept_ok := λ _ _, true;
     send_ok := λ _ _ _, true;
     uuid4 := λ _, "00000000-0000-4000-8000-000000000000";
     json_loads := λ _, None |}.

(** A caller's message [{"type": "note"}] at location 0 and nobody
    connected. *)
Definition one_message : State := exec (new_dict [("type", VStr "note")]) init.


(** Users 0 and 5 are connected, on the transports 7 and 8, and a caller
    has built the message [{"type": "note"}], which is object 2. *)
Definition two_users : State :=
  run_ops quiet_env
    [Connect 7 0 None; Connect 8 5 None; NewDict [("type", VStr "note")]] init.

(** The transport 7 takes the first frame ever sent and then fails. *)
Definition dying_env : Env :=
  {| accept_ok := λ _ _, true;
     send_ok := λ W w _, bool_decide (w ≠ 7 ∨ wire W = []);
     uuid4 := λ _, "00000000-0000-4000-8000-000000000000";
     json_loads := λ _, None |}.

(** Users 1 and 2 are connected, on the transports 7 and 8, in this
    order, and a caller has built a message, object 2. *)
Definition dead_first : State :=
  run_ops dying_env
    [Connect 7 1 None; Connect 8 2 None; NewDict [("type", VStr "note")]] init.


(** User 42 is connected on the transport 7. *)
Definition one_user : State := exec (connect quiet_env 7 42 None) init.

(** Ten seconds after user 42 connected. *)
Definition ten_seconds_later : State := set_world (world_tick 10000000) one_user.


(** ** The report of the statistics and the sessions *)

(** [self.connection_stats], the dictionary. *)
Definition stats_dict (st : Stats) : PyDict :=
  [("total_connections", VInt (Z.of_nat (total_connections st)));
   ("active_connections", VInt (Z.of_nat (stat_active_connections st)));
   ("messages_sent", VInt (Z.of_nat (messages_sent st)));
   ("messages_received", VInt (Z.of_nat (messages_received st)))].

(** [sum(len(messages) for messages in self.offline_messages.values())] *)
Definition count_queued (s : State) : nat :=
  sum_list (length <$> (map_to_list (offline_messages s)).*2).

(** [{**self.connection_stats, 'active_users': ..., ...}] *)
Definition get_connection_stats (s : State) : PyDict :=
  stats_dict (connection_stats s) ++
  [("active_users", VInt (Z.of_nat (length (active_connections s))));
   ("total_active_connections", VInt (Z.of_nat (count_connections s)));
   ("offline_message_queues", VInt (Z.of_nat (size (offline_messages s))));
   ("total_offline_messages", VInt (Z.of_nat (count_queued s)))].

Definition get_all_user_sessions (s : State) : gmap UserId Session :=
  user_sessions s.

(** ** The endpoint of [src/main.py] *)

Section endpoint.
Variable env : Env.

(** [json.dumps({"type": "pong"})] and [json.dumps({"type": "voice_ready"})],
    the replies that the endpoint sends itself. *)
Definition endpoint_reply (message_data : PyDict) : option PyDict :=
  match dict_get "type" message_data with
  | Some (VStr t) =>
      if String.eqb t "ping" then Some [("type", VStr "pong")]
      else if String.eqb t "voice_start" then Some [("type", VStr "voice_ready")]
      else None
  | _ => None
  end.

(** A transport that was accepted and not closed since. *)
Definition ws_open (w : World) (websocket : WebSocket) : bool :=
  bool_decide (websocket ∈ accepted w) && bool_decide (websocket ∉ closed w).

(** [await websocket.receive_text()].  [next] is the text that the
    client sends next, or nothing when the client is gone: then the
    call raises [WebSocketDisconnect].  On a transport that was not
    accepted, or was closed, the call raises at once. *)
Definition ws_receive_text (websocket : WebSocket) (next : option string) : M string := λ s,
  if ws_open (world s) websocket then
    match next with
    | Some data => (Ok data, set_world world_io s)
    | None => (Raise WebSocketDisconnect, set_world world_io s)
    end
  else (Raise OtherError, set_world world_io s).

(** The loop [while True: data = await websocket.receive_text() ...] for
    a client that sends the texts [incoming] and is then gone.  What is
    no JSON raises, and so does [message_data.get] on what is no
    object (an [AttributeError]). *)
Fixpoint receive_loop (websocket : WebSocket) (incoming : list string) : M unit :=
  match incoming with
  | [] => let! _ := ws_receive_text websocket None in ret ()
  | text :: rest =>
      let! data := ws_receive_text websocket (Some text) in
      match json_loads env data with
      | None => raise OtherError
      | Some (VDict message_data) =>
          match endpoint_reply message_data with
          | Some reply => ws_send_text env websocket reply
          | None => ret ()
          end >>
          receive_loop websocket rest
      | Some _ => raise OtherError
      end
  end.

(** [websocket_endpoint(websocket, user_id)] *)
Definition websocket_endpoint (websocket : WebSocket) (user_id : UserId)
    (incoming : list string) : M unit :=
  connect env websocket user_id None >>
  try_except
    (receive_loop websocket incoming)
    (λ e, match e with
          | WebSocketDisconnect => disconnect user_id None
          | _ => disconnect user_id None
          end).
End endpoint.

(** ** Vocabulary of the further properties *)

(** The blocks of [connect], named: the registration that follows the
    handshake, and the confirmation with the replay of the queue. *)
Definition register (env : Env) (websocket : WebSocket) (user_id : UserId)
    (session_data : option PyDict) : M (Z * string) :=
  (let! connections := active_getitem user_id in
   modify (set_active (dict_set user_id ({[websocket]} ∪ connections)))) >>
  let! now := datetime_now in
  let! session_id := new_uuid env in
  modify (set_metadata (<[websocket :=
    {| md_user_id := user_id; md_connected_at := now;
       md_session_id := session_id;
       md_session_data := or_empty session_data |}]>)) >>
  modify (λ s, set_sessions (<[user_id :=
    {| us_user_id := user_id; us_last_activity := now;
       us_active_connections := size (conns_of s user_id);
       us_session_data := or_empty session_data;
       us_status := None |}]>) s) >>
  modify (λ s, set_stats (stats_connected (count_connections s)) s) >>
  ret (now, session_id).

Definition confirm_and_flush (env : Env) (websocket : WebSocket) (user_id : UserId)
    (p : Z * string) : M unit :=
  let! confirmation := new_dict (connection_confirmed user_id p.2 p.1) in
  _send_to_connection env websocket confirmation >>
  _send_offline_messages env user_id.

(** What [shutdown] clears at its end. *)
Definition cleared (s : State) : State :=
  set_offline (λ _, ∅) (set_sessions (λ _, ∅) (set_metadata (λ _, ∅)
    (set_active (λ _, []) s))).

(** The statistic [active_connections] is the number of registered
    connections. *)
Definition stats_accurate (s : State) : Prop :=
  stat_active_connections (connection_stats s) = count_connections s.

(** The statistic [total_connections] is the number of handshakes that
    transports accepted. *)
Definition handshakes_counted (s : State) : Prop :=
  total_connections (connection_stats s) = length (accepted (world s)).

(** No offline queue is longer than [max_queue_size]. *)
Definition queues_bounded (s : State) : Prop :=
  ∀ u q, offline_messages s !! u = Some q → length q ≤ max_queue_size.

(** A connection that has metadata is registered for the user that its
    metadata names. *)
Definition metadata_registered (s : State) : Prop :=
  ∀ w md, connection_metadata s !! w = Some md → w ∈ conns_of s (md_user_id md).

(** A session names its user and counts the user's connections. *)
Definition sessions_accurate (s : State) : Prop :=
  ∀ u x, user_sessions s !! u = Some x →
    us_user_id x = u ∧ us_active_connections x = size (conns_of s u).

(** Messages wait only for the users that have no connection. *)
Definition queues_of_offline (s : State) : Prop :=
  ∀ u, conns_of s u ≠ ∅ → queue_of s u = [].

(** Every frame sent since the wire was [w0] went to one of the
    connections [allowed]. *)
Definition aimed_at (w0 : list (WebSocket * PyDict)) (allowed : list WebSocket)
    (s : State) : Prop :=
  ∃ fs, wire (world s) = w0 ++ fs ∧ Forall (λ f, f.1 ∈ allowed) fs.

(** A property that does not look at what [disconnect] changes: the
    registry, the metadata, the sessions, the statistic
    [active_connections] and the transports closed. *)
Definition disconnect_blind (P : State → Prop) : Prop :=
  ∀ s s', heap s' = heap s → offline_messages s' = offline_messages s →
    clock (world s') = clock (world s) → wire (world s') = wire (world s) →
    accepted (world s') = accepted (world s) →
    total_connections (connection_stats s') = total_connections (connection_stats s) →
    messages_sent (connection_stats s') = messages_sent (connection_stats s) →
    messages_received (connection_stats s') = messages_received (connection_stats s) →
    P s → P s'.

(** From [s] to [s'] the statistic [messages_sent] grew by the number
    of frames sent. *)
Definition frames_counted (s s' : State) : Prop :=
  messages_sent (connection_stats s') + length (wire (world s)) =
  messages_sent (connection_stats s) + length (wire (world s')).

(** The texts that the loop of the endpoint reads as JSON objects: all
    those before the first text that is none. *)
Fixpoint objects_read (env : Env) (incoming : list string) : list PyDict :=
  match incoming with
  | [] => []
  | data :: rest =>
      match json_loads env data with
      | Some (VDict message_data) => message_data :: objects_read env rest
      | _ => []
      end
  end.

(** The frames with which the endpoint answers them. *)
Definition endpoint_answers (env : Env) (websocket : WebSocket)
    (incoming : list string) : list (WebSocket * PyDict) :=
  omap (λ message_data, (λ reply, (websocket, reply)) <$> endpoint_reply message_data)
    (objects_read env incoming).

(** A number of the report. *)
Definition stat (k : string) (s : State) : Z :=
  match dict_get k (get_connection_stats s) with
  | Some (VInt n) => n
  | _ => 0%Z
  end.

(** ** Further scenarios *)

(** Transports that accept the handshake and take no frame. *)
Definition deaf_env : Env :=
  {| accept_ok := λ _ _, true;
     send_ok := λ _ _ _, false;
     uuid4 := λ _, "00000000-0000-4000-8000-000000000000";
     json_loads := λ _, None |}.

(** Transports that refuse the handshake. *)
Definition refusing_env : Env :=
  {| accept_ok := λ _ _, false;
     send_ok := λ _ _ _, true;
     uuid4 := λ _, "00000000-0000-4000-8000-000000000000";
     json_loads := λ _, None |}.

(** An environment whose parser reads a text as the object whose
    ["type"] is that text. *)
Definition tagged_env : Env :=
  {| accept_ok := λ _ _, true;
     send_ok := λ _ _ _, true;
     uuid4 := λ _, "00000000-0000-4000-8000-000000000000";
     json_loads := λ m, Some (VDict [("type", VStr m)]) |}.
(** * Properties *)

(** ** Dictionaries *)

Section dict_facts.
Context {K V : Type} `{EqDecision K}.
Implicit Types (k : K) (v : V) (d : list (K * V)).

Lemma dict_get_set_eq k v d : dict_get k (dict_set k v d) = Some v.
Proof.
  induction d as [|[k' v'] r IH]; simpl.
  - by rewrite decide_True.
  - destruct (decide (k = k')) as [->|Hne]; simpl.
    + by rewrite decide_True.
    + by rewrite decide_False.
Qed.

Lemma dict_get_set_ne k k' v d :
  k ≠ k' → dict_get k' (dict_set k v d) = dict_get k' d.
Proof.
  intros Hne. induction d as [|[k0 v0] r IH]; simpl.
  - by rewrite decide_False.
  - destruct (decide (k = k0)) as [->|Hne0]; simpl.
    + by rewrite !decide_False.
    + by rewrite IH.
Qed.

Lemma dict_get_del_eq k d : dict_get k (dict_del k d) = None.
Proof.
  induction d as [|[k' v'] r IH]; simpl; [done|].
  destruct (decide (k = k')) as [->|Hne]; simpl; [done|].
  by rewrite decide_False.
Qed.

Lemma dict_get_del_ne k k' d :
  k ≠ k' → dict_get k' (dict_del k d) = dict_get k' d.
Proof.
  intros Hne. induction d as [|[k0 v0] r IH]; simpl; [done|].
  destruct (decide (k = k0)) as [->|Hne0]; simpl.
  - by rewrite decide_False.
  - by rewrite IH.
Qed.

Lemma dict_get_set k k' v d :
  dict_get k' (dict_set k v d) = if decide (k = k') then Some v else dict_get k' d.
Proof.
  destruct (decide (k = k')) as [->|Hne].
  - apply dict_get_set_eq.
  - by apply dict_get_set_ne.
Qed.

Lemma dict_get_del k k' d :
  dict_get k' (dict_del k d) = if decide (k = k') then None else dict_get k' d.
Proof.
  destruct (decide (k = k')) as [->|Hne].
  - apply dict_get_del_eq.
  - by apply dict_get_del_ne.
Qed.

Lemma dict_keys_get k d : k ∈ dict_keys d ↔ is_Some (dict_get k d).
Proof.
  unfold dict_keys. induction d as [|[k' v'] r IH]; simpl.
  - split; [by intros ?%elem_of_nil | by intros [? ?]].
  - rewrite elem_of_cons, IH. destruct (decide (k = k')) as [->|Hne].
    + split; eauto.
    + split; [by intros [?|?] | by right].
Qed.

Lemma dict_has_get k d : dict_has k d = true ↔ is_Some (dict_get k d).
Proof. unfold dict_has. apply bool_decide_eq_true. Qed.

Lemma dict_set_length_get k v d :
  is_Some (dict_get k d) → length (dict_set k v d) = length d.
Proof.
  induction d as [|[k' v'] r IH]; simpl.
  - by intros [? ?].
  - destruct (decide (k = k')); simpl; [done|]. intros ?. by rewrite IH.
Qed.

Lemma dict_set_same k v d : dict_get k d = Some v → dict_set k v d = d.
Proof.
  induction d as [|[k' v'] r IH]; simpl; [done|].
  destruct (decide (k = k')) as [->|Hne].
  - by intros [= ->].
  - intros ?. by rewrite IH.
Qed.
End dict_facts.

(** ** What a statement keeps *)

Section preserves.
Context (P : State → Prop).

Lemma preserves_ret {A} (a : A) : preserves P (ret a).
Proof. by intros s. Qed.

Lemma preserves_raise {A} e : preserves P (@raise A e).
Proof. by intros s. Qed.

Lemma preserves_get_state : preserves P get_state.
Proof. by intros s. Qed.

Lemma preserves_datetime_now : preserves P datetime_now.
Proof. by intros s. Qed.

Lemma preserves_modify f : (∀ s, P s → P (f s)) → preserves P (modify f).
Proof. intros Hf s. apply Hf. Qed.

Lemma preserves_bind {A B} (m : M A) (k : A → M B) :
  preserves P m → (∀ a, preserves P (k a)) → preserves P (bind m k).
Proof.
  intros Hm Hk s Hs. specialize (Hm s Hs). unfold exec, bind in *.
  destruct (m s) as [[a|e] s']; simpl in *; [by apply Hk | done].
Qed.

Lemma preserves_try_except {A} (m : M A) (h : Exn → M A) :
  preserves P m → (∀ e, preserves P (h e)) → preserves P (try_except m h).
Proof.
  intros Hm Hh s Hs. specialize (Hm s Hs). unfold exec, try_except in *.
  destruct (m s) as [[a|e] s']; simpl in *; [done | by apply Hh].
Qed.

Lemma preserves_when b (m : M unit) : preserves P m → preserves P (when b m).
Proof. intros Hm. destruct b; [done | apply preserves_ret]. Qed.

Lemma preserves_for_each {A} (l : list A) (body : A → M unit) :
  (∀ x, preserves P (body x)) → preserves P (for_each l body).
Proof.
  intros Hb. induction l as [|x r IH]; simpl.
  - apply preserves_ret.
  - apply preserves_bind; [apply Hb | by intros _].
Qed.
End preserves.

(** Structural steps, then the primitives by computation. *)
Ltac pres_struct :=
  repeat first
    [ apply preserves_ret
    | apply preserves_raise
    | apply preserves_get_state
    | apply preserves_datetime_now
    | apply preserves_bind; [| intros ?]
    | apply preserves_try_except; [| intros ?]
    | apply preserves_when
    | apply preserves_for_each; intros ? ].

Ltac pres_prim :=
  let s := fresh "s" in
  let H := fresh "H" in
  intros s H;
  unfold exec, modify, ws_close, ws_accept, ws_send_text, new_uuid, new_dict,
    dict_setitem, json_dumps, active_getitem, check_dict_size;
  simpl; repeat case_match; simpl; try done.

(** ** Frame of [disconnect]: it touches the registry, the metadata, the
    sessions, the statistics and the transports it closes. *)

Section frames.
Context (env : Env).

Lemma disconnect_delivery_only P user_id websocket :
  delivery_only P → preserves P (disconnect user_id websocket).
Proof.
  intros HP. unfold disconnect.
  destruct websocket as [ws|]; pres_struct;
    try (pres_prim; eapply HP; [..|eassumption]; done).
  all: intros s Hs; unfold exec, modify; simpl;
    eapply HP; [..|eassumption]; try done.
  all: unfold update_session_on_disconnect; repeat case_match; done.
Qed.
End frames.

(** ** Statements that never raise *)

Section succeeds.
Lemma succeeds_ret {A} (a : A) : succeeds (ret a).
Proof. intros s. by exists a. Qed.

Lemma succeeds_get_state : succeeds get_state.
Proof. intros s. by exists s. Qed.

Lemma succeeds_datetime_now : succeeds datetime_now.
Proof. intros s. by eexists. Qed.

Lemma succeeds_modify f : succeeds (modify f).
Proof. intros s. by exists (). Qed.

Lemma succeeds_ws_close ws : succeeds (ws_close ws).
Proof. intros s. by exists (). Qed.

Lemma succeeds_new_dict d : succeeds (new_dict d).
Proof. intros s. by eexists. Qed.

Lemma succeeds_new_uuid env : succeeds (new_uuid env).
Proof. intros s. by eexists. Qed.

Lemma succeeds_active_getitem u : succeeds (active_getitem u).
Proof. intros s. unfold result, active_getitem. case_match; by eexists. Qed.

Lemma succeeds_bind {A B} (m : M A) (k : A → M B) :
  succeeds m → (∀ a, succeeds (k a)) → succeeds (bind m k).
Proof.
  intros Hm Hk s. destruct (Hm s) as [a Ha]. unfold result, bind in *.
  destruct (m s) as [r s']; simpl in *; subst r. apply Hk.
Qed.

Lemma succeeds_try_except {A} (m : M A) (h : Exn → M A) :
  (∀ e, succeeds (h e)) → succeeds (try_except m h).
Proof.
  intros Hh s. unfold result, try_except.
  destruct (m s) as [[a|e] s']; simpl; [by eexists | apply Hh].
Qed.

Lemma succeeds_when b (m : M unit) : succeeds m → succeeds (when b m).
Proof. intros Hm. destruct b; [done | apply succeeds_ret]. Qed.

Lemma succeeds_for_each {A} (l : list A) (body : A → M unit) :
  (∀ x, succeeds (body x)) → succeeds (for_each l body).
Proof.
  intros Hb. induction l as [|x r IH]; simpl.
  - apply succeeds_ret.
  - apply succeeds_bind; [apply Hb | by intros _].
Qed.

(** Running a sequence whose first part returns. *)
Lemma exec_seq {A B} (m : M A) (k : M B) s :
  succeeds m → exec (m >> k) s = exec k (exec m s).
Proof.
  intros Hm. destruct (Hm s) as [a Ha]. unfold exec, result, bind in *.
  destruct (m s) as [r s']; simpl in *. by subst r.
Qed.

Lemma result_seq {A B} (m : M A) (k : M B) s :
  succeeds m → result (m >> k) s = result k (exec m s).
Proof.
  intros Hm. destruct (Hm s) as [a Ha]. unfold exec, result, bind in *.
  destruct (m s) as [r s']; simpl in *. by subst r.
Qed.

Lemma exec_try_succeeds {A} (m : M A) h s :
  succeeds m → exec (try_except m h) s = exec m s.
Proof.
  intros Hm. destruct (Hm s) as [a Ha]. unfold exec, result, try_except in *.
  destruct (m s) as [r s']; simpl in *. by subst r.
Qed.

Lemma exec_modify f s : exec (modify f) s = f s.
Proof. done. Qed.

Lemma exec_bind_ok {A B} (m : M A) (k : A → M B) s a s' :
  m s = (Ok a, s') → exec (bind m k) s = exec (k a) s'.
Proof. intros E. unfold exec, bind. by rewrite E. Qed.

Lemma result_bind_ok {A B} (m : M A) (k : A → M B) s a s' :
  m s = (Ok a, s') → result (bind m k) s = result (k a) s'.
Proof. intros E. unfold result, bind. by rewrite E. Qed.

Lemma exec_bind_raise {A B} (m : M A) (k : A → M B) s e s' :
  m s = (Raise e, s') → exec (bind m k) s = s'.
Proof. intros E. unfold exec, bind. by rewrite E. Qed.

Lemma run_eq {A} (m : M A) s : m s = (result m s, exec m s).
Proof. unfold result, exec. by destruct (m s). Qed.
End succeeds.

Ltac succ_struct :=
  repeat first
    [ apply succeeds_ret
    | apply succeeds_get_state
    | apply succeeds_datetime_now
    | apply succeeds_modify
    | apply succeeds_ws_close
    | apply succeeds_new_dict
    | apply succeeds_new_uuid
    | apply succeeds_active_getitem
    | apply succeeds_bind; [| intros ?]
    | apply succeeds_try_except; intros ?
    | apply succeeds_when
    | apply succeeds_for_each; intros ? ].

Arguments disconnect_branch : simpl never.
Arguments drop_empty : simpl never.

Section registry.
Context (env : Env).

Lemma active_getitem_touch user_id s :
  active_getitem user_id s = (Ok (conns_of s user_id), touch user_id s).
Proof.
  unfold active_getitem, touch, conns_of.
  by destruct (dict_get user_id (active_connections s)).
Qed.

Lemma touch_get user_id u s :
  dict_get u (active_connections (touch user_id s)) =
    if decide (user_id = u) then Some (conns_of s user_id)
    else dict_get u (active_connections s).
Proof.
  unfold touch, conns_of.
  destruct (dict_get user_id (active_connections s)) as [c|] eqn:E; simpl.
  - case_decide; [by subst | done].
  - rewrite dict_get_set. by case_decide.
Qed.

Lemma touch_sessions user_id s : user_sessions (touch user_id s) = user_sessions s.
Proof. unfold touch. by case_match. Qed.

Lemma touch_conns user_id u s : conns_of (touch user_id s) u = conns_of s u.
Proof.
  unfold conns_of at 1. rewrite touch_get. case_decide; [by subst|done].
Qed.

Lemma drop_empty_succeeds user_id : succeeds (drop_empty user_id).
Proof. unfold drop_empty. succ_struct. Qed.

Lemma drop_empty_get user_id u s :
  dict_get u (active_connections (exec (drop_empty user_id) s)) =
    if decide (user_id = u)
    then (if decide (conns_of s user_id = ∅) then None else Some (conns_of s user_id))
    else dict_get u (active_connections s).
Proof.
  unfold drop_empty, exec, bind. rewrite active_getitem_touch.
  destruct (decide (conns_of s user_id = ∅)) as [He|He].
  - rewrite bool_decide_eq_true_2 by done. simpl.
    rewrite dict_get_del, touch_get. by case_decide.
  - rewrite bool_decide_eq_false_2 by done. simpl. apply touch_get.
Qed.

Lemma disconnect_unfold user_id websocket :
  disconnect user_id websocket =
    try_except
      (disconnect_branch user_id websocket >>
       drop_empty user_id >>
       modify (update_session_on_disconnect user_id) >>
       modify (λ s, set_stats (stats_active (count_connections s)) s))
      (λ _, ret ()).
Proof. by destruct websocket. Qed.

Lemma disconnect_branch_succeeds user_id websocket :
  succeeds (disconnect_branch user_id websocket).
Proof. destruct websocket; unfold disconnect_branch; succ_struct. Qed.

Lemma disconnect_succeeds user_id websocket :
  succeeds (disconnect user_id websocket).
Proof. unfold disconnect. succ_struct. Qed.

Lemma disconnect_result user_id websocket s :
  result (disconnect user_id websocket) s = Ok ().
Proof. destruct (disconnect_succeeds user_id websocket s) as [[] ?]. done. Qed.

Lemma disconnect_exec user_id websocket s :
  exec (disconnect user_id websocket) s =
    (λ s, set_stats (stats_active (count_connections s)) s)
      (update_session_on_disconnect user_id
         (exec (drop_empty user_id) (exec (disconnect_branch user_id websocket) s))).
Proof.
  rewrite disconnect_unfold.
  rewrite exec_try_succeeds.
  2:{ apply succeeds_bind; [apply disconnect_branch_succeeds | intros _].
      apply succeeds_bind; [apply drop_empty_succeeds | intros _].
      apply succeeds_bind; [apply succeeds_modify | intros _].
      apply succeeds_modify. }
  rewrite exec_seq by apply disconnect_branch_succeeds.
  rewrite exec_seq by apply drop_empty_succeeds.
  rewrite exec_seq by apply succeeds_modify.
  done.
Qed.

Lemma loop_keeps_active (l : list WebSocket) s :
  active_connections (exec (for_each l (λ conn,
      try_except (ws_close conn) (λ _, ret ()) >>
      modify (set_metadata (delete conn)))) s) = active_connections s
  ∧ user_sessions (exec (for_each l (λ conn,
      try_except (ws_close conn) (λ _, ret ()) >>
      modify (set_metadata (delete conn)))) s) = user_sessions s.
Proof.
  pose (P := λ s' : State, active_connections s' = active_connections s
               ∧ user_sessions s' = user_sessions s).
  assert (preserves P (for_each l (λ conn,
      try_except (ws_close conn) (λ _, ret ()) >>
      modify (set_metadata (delete conn))))) as HP.
  { pres_struct; by pres_prim. }
  by apply HP.
Qed.

Lemma close_loop_succeeds (l : list WebSocket) :
  succeeds (for_each l (λ conn,
    try_except (ws_close conn) (λ _, ret ()) >>
    modify (set_metadata (delete conn)))).
Proof. succ_struct. Qed.

Lemma disconnect_branch_none user_id s :
  exec (disconnect_branch user_id None) s =
    set_active (dict_set user_id ∅)
      (exec (for_each (elements (conns_of s user_id)) (λ conn,
         try_except (ws_close conn) (λ _, ret ()) >>
         modify (set_metadata (delete conn)))) (touch user_id s)).
Proof.
  unfold disconnect_branch. erewrite exec_bind_ok by apply active_getitem_touch.
  by rewrite exec_seq by apply close_loop_succeeds.
Qed.

Lemma disconnect_branch_some user_id ws s :
  exec (disconnect_branch user_id (Some ws)) s =
    set_world (world_close ws) (set_metadata (delete ws)
      (if bool_decide (ws ∈ conns_of s user_id)
       then set_active (dict_set user_id (conns_of s user_id ∖ {[ws]})) (touch user_id s)
       else touch user_id s)).
Proof.
  unfold disconnect_branch, exec, bind, try_except. rewrite active_getitem_touch.
  by destruct (bool_decide (ws ∈ conns_of s user_id)).
Qed.

Lemma disconnect_branch_conns user_id websocket s :
  conns_of (exec (disconnect_branch user_id websocket) s) user_id =
    remaining s user_id websocket.
Proof.
  destruct websocket as [ws|].
  - rewrite disconnect_branch_some. unfold conns_of at 1. simpl.
    destruct (bool_decide (ws ∈ conns_of s user_id)) eqn:Hin; simpl.
    + by rewrite dict_get_set_eq.
    + apply bool_decide_eq_false in Hin.
      rewrite touch_get, decide_True by done. simpl. set_solver.
  - rewrite disconnect_branch_none. unfold conns_of at 1. simpl.
    by rewrite dict_get_set_eq.
Qed.

Lemma disconnect_branch_get_ne user_id websocket u s :
  user_id ≠ u →
  dict_get u (active_connections (exec (disconnect_branch user_id websocket) s)) =
    dict_get u (active_connections s).
Proof.
  intros Hne. destruct websocket as [ws|].
  - rewrite disconnect_branch_some. simpl.
    destruct (bool_decide (ws ∈ conns_of s user_id)); simpl.
    + by rewrite dict_get_set_ne, touch_get, decide_False.
    + by rewrite touch_get, decide_False.
  - rewrite disconnect_branch_none. simpl.
    destruct (loop_keeps_active (elements (conns_of s user_id)) (touch user_id s))
      as [Ha _].
    by rewrite dict_get_set_ne, Ha, touch_get, decide_False.
Qed.

Lemma disconnect_branch_sessions user_id websocket s :
  user_sessions (exec (disconnect_branch user_id websocket) s) = user_sessions s.
Proof.
  destruct websocket as [ws|].
  - rewrite disconnect_branch_some. simpl.
    destruct (bool_decide (ws ∈ conns_of s user_id)); simpl; apply touch_sessions.
  - rewrite disconnect_branch_none. simpl.
    destruct (loop_keeps_active (elements (conns_of s user_id)) (touch user_id s))
      as [_ Ha].
    by rewrite Ha, touch_sessions.
Qed.

Lemma disconnect_branch_metadata user_id ws s :
  connection_metadata (exec (disconnect_branch user_id (Some ws)) s) =
    delete ws (connection_metadata s).
Proof.
  rewrite disconnect_branch_some. simpl.
  destruct (bool_decide (ws ∈ conns_of s user_id)); simpl;
    unfold touch; by case_match.
Qed.

Lemma drop_empty_sessions user_id s :
  user_sessions (exec (drop_empty user_id) s) = user_sessions s.
Proof.
  unfold drop_empty, exec, bind. rewrite active_getitem_touch.
  destruct (bool_decide (conns_of s user_id = ∅)); simpl; apply touch_sessions.
Qed.

Lemma drop_empty_metadata user_id s :
  connection_metadata (exec (drop_empty user_id) s) = connection_metadata s.
Proof.
  unfold drop_empty, exec, bind. rewrite active_getitem_touch.
  destruct (bool_decide (conns_of s user_id = ∅)); simpl;
    unfold touch; by case_match.
Qed.

Lemma update_session_active user_id s :
  active_connections (update_session_on_disconnect user_id s) = active_connections s.
Proof. unfold update_session_on_disconnect. by repeat case_match. Qed.

Lemma update_session_metadata user_id s :
  connection_metadata (update_session_on_disconnect user_id s) = connection_metadata s.
Proof. unfold update_session_on_disconnect. by repeat case_match. Qed.

Lemma update_session_lookup user_id u s :
  user_sessions (update_session_on_disconnect user_id s) !! u =
    if decide (user_id = u)
    then (if decide (conns_of s user_id = ∅) then None
          else session_count (size (conns_of s user_id)) <$> user_sessions s !! user_id)
    else user_sessions s !! u.
Proof.
  unfold update_session_on_disconnect.
  destruct (user_sessions s !! user_id) as [x|] eqn:E.
  - change (conns_of (set_sessions _ s) user_id) with (conns_of s user_id).
    destruct (decide (conns_of s user_id = ∅)) as [He|He].
    + rewrite bool_decide_eq_true_2 by done. simpl.
      destruct (decide (user_id = u)) as [<-|Hne].
      * by rewrite lookup_delete_eq.
      * by rewrite lookup_delete_ne, lookup_insert_ne.
    + rewrite bool_decide_eq_false_2 by done. simpl.
      destruct (decide (user_id = u)) as [<-|Hne].
      * by rewrite lookup_insert_eq.
      * by rewrite lookup_insert_ne.
  - destruct (decide (user_id = u)) as [<-|Hne]; [|done].
    rewrite E. by case_decide.
Qed.

(** What [disconnect] leaves in the registry. *)
Lemma disconnect_get user_id websocket u s :
  dict_get u (active_connections (exec (disconnect user_id websocket) s)) =
    if decide (user_id = u)
    then (if decide (remaining s user_id websocket = ∅) then None
          else Some (remaining s user_id websocket))
    else dict_get u (active_connections s).
Proof.
  rewrite disconnect_exec. simpl. rewrite update_session_active, drop_empty_get.
  rewrite disconnect_branch_conns.
  case_decide; [done|]. by apply disconnect_branch_get_ne.
Qed.

Lemma disconnect_conns user_id websocket u s :
  conns_of (exec (disconnect user_id websocket) s) u =
    if decide (user_id = u) then remaining s user_id websocket else conns_of s u.
Proof.
  unfold conns_of at 1. rewrite disconnect_get.
  repeat case_decide; simpl; done.
Qed.

Lemma disconnect_sessions user_id websocket u s :
  user_sessions (exec (disconnect user_id websocket) s) !! u =
    if decide (user_id = u)
    then (if decide (remaining s user_id websocket = ∅) then None
          else session_count (size (remaining s user_id websocket))
                 <$> user_sessions s !! user_id)
    else user_sessions s !! u.
Proof.
  rewrite disconnect_exec. simpl. rewrite update_session_lookup.
  assert (conns_of (exec (drop_empty user_id)
            (exec (disconnect_branch user_id websocket) s)) user_id
          = remaining s user_id websocket) as Hc.
  { unfold conns_of at 1. rewrite drop_empty_get, decide_True by done.
    rewrite disconnect_branch_conns. by case_decide. }
  rewrite Hc, drop_empty_sessions, disconnect_branch_sessions. done.
Qed.

Lemma disconnect_metadata user_id ws s :
  connection_metadata (exec (disconnect user_id (Some ws)) s) =
    delete ws (connection_metadata s).
Proof.
  rewrite disconnect_exec. simpl.
  by rewrite update_session_metadata, drop_empty_metadata, disconnect_branch_metadata.
Qed.

Lemma disconnect_inv user_id websocket :
  preserves registry_inv (disconnect user_id websocket).
Proof.
  intros s [Hne Hsess]. split.
  - intros u c. rewrite disconnect_get.
    repeat case_decide; try done; [by intros [= <-] | apply Hne].
  - intros u. rewrite disconnect_sessions, disconnect_get.
    destruct (decide (user_id = u)) as [<-|]; [|apply Hsess].
    destruct (decide (remaining s user_id websocket = ∅)) as [He|He].
    + split; by intros [? ?].
    + rewrite fmap_is_Some, Hsess. split; [eauto|]. intros _.
      destruct (dict_get user_id (active_connections s)) as [c|] eqn:E; [eauto|].
      exfalso. apply He. unfold remaining, conns_of. rewrite E.
      destruct websocket; simpl; set_solver.
Qed.

Lemma preserves_get_state_bind {A} P (k : State → M A) :
  (∀ s, P s → P (exec (k s) s)) → preserves P (bind get_state k).
Proof. intros Hk s Hs. by apply Hk. Qed.

Lemma touch_present user_id s :
  is_Some (dict_get user_id (active_connections s)) → touch user_id s = s.
Proof. intros [c Hc]. unfold touch. by rewrite Hc. Qed.

Lemma registry_inv_registry_only : registry_only registry_inv.
Proof. intros s s' Ha Hu. unfold registry_inv. by rewrite Ha, Hu. Qed.

Section registry_only.
Context (P : State → Prop) (HP : registry_only P).

Ltac leaf := pres_prim; (eapply HP; [..|eassumption]; done).

Lemma send_to_connection_registry websocket message :
  preserves P (_send_to_connection env websocket message).
Proof. unfold _send_to_connection. pres_struct; leaf. Qed.

Lemma queue_offline_registry user_id message :
  preserves P (_queue_offline_message user_id message).
Proof.
  unfold _queue_offline_message. pres_struct;
    try (intros s Hs; unfold exec, modify; simpl; (eapply HP; [..|eassumption]; done)).
Qed.

Lemma new_dict_registry d : preserves P (new_dict d).
Proof. leaf. Qed.

Lemma dict_setitem_registry message k v : preserves P (dict_setitem message k v).
Proof. leaf. Qed.

Lemma ws_accept_registry websocket : preserves P (ws_accept env websocket).
Proof. leaf. Qed.

Lemma new_uuid_registry : preserves P (new_uuid env).
Proof. leaf. Qed.
End registry_only.

Lemma send_each_inv user_id message connections sent :
  preserves registry_inv (send_each env user_id message connections sent).
Proof.
  revert sent. induction connections as [|ws rest IH]; intros sent; simpl.
  - apply preserves_ret.
  - apply preserves_bind; [|intros ?; apply IH].
    apply preserves_try_except.
    + apply preserves_bind; [|intros; apply preserves_ret].
      apply send_to_connection_registry, registry_inv_registry_only.
    + intros e. destruct e;
        (apply preserves_bind; [apply disconnect_inv | intros; apply preserves_ret]).
Qed.

Lemma send_to_user_inv user_id message :
  preserves registry_inv (send_to_user env user_id message).
Proof.
  pose proof registry_inv_registry_only as HR.
  unfold send_to_user.
  apply preserves_try_except; [|intros; apply preserves_ret].
  apply preserves_bind; [apply preserves_datetime_now | intros now].
  apply preserves_bind; [by apply dict_setitem_registry | intros _].
  apply preserves_get_state_bind. intros s Hs.
  assert (preserves registry_inv
            (_queue_offline_message user_id message >> ret false)) as Hq.
  { apply preserves_bind; [by apply queue_offline_registry | intros; apply preserves_ret]. }
  destruct (dict_has user_id (active_connections s)) eqn:Hhas; [|by apply Hq].
  apply dict_has_get in Hhas.
  erewrite exec_bind_ok
    by (rewrite active_getitem_touch, touch_present by done; reflexivity).
  revert s Hs Hhas.
  match goal with |- ∀ s, _ → _ → registry_inv (exec ?m s) =>
    cut (∀ c : gset nat, preserves registry_inv
      (let! sent_successfully := send_each env user_id message (elements c) false in
       if sent_successfully : bool
       then modify (set_stats stats_sent) >> ret true
       else _queue_offline_message user_id message >> ret false))
  end.
  { intros Hc s Hs _. by apply Hc. }
  intros c. apply preserves_bind; [apply send_each_inv | intros [|]]; [|done].
  apply preserves_bind; [|intros; apply preserves_ret].
  apply preserves_modify. intros s Hs. by eapply HR; [..|eassumption].
Qed.

Lemma exec_try_bind_ok {A B} (m : M A) (k : A → M B) h s a s' :
  m s = (Ok a, s') →
  exec (try_except (bind m k) h) s = exec (try_except (k a) h) s'.
Proof. intros E. unfold exec, try_except, bind. by rewrite E. Qed.

Lemma exec_try_bind_raise {A B} (m : M A) (k : A → M B) h s e s' :
  m s = (Raise e, s') →
  exec (try_except (bind m k) h) s = exec (h e) s'.
Proof. intros E. unfold exec, try_except, bind. by rewrite E. Qed.

Lemma send_offline_messages_inv user_id :
  preserves registry_inv (_send_offline_messages env user_id).
Proof.
  pose proof registry_inv_registry_only as HR.
  unfold _send_offline_messages.
  apply preserves_try_except; [|intros; apply preserves_ret].
  apply preserves_bind; [apply preserves_get_state | intros s0].
  destruct (offline_messages s0 !! user_id) as [messages|]; [|apply preserves_ret].
  apply preserves_bind.
  - apply preserves_for_each. intros message.
    apply preserves_bind; [by apply new_dict_registry | intros wrapper].
    apply preserves_bind; [apply send_to_user_inv | intros; apply preserves_ret].
  - intros _. apply preserves_modify. intros s Hs. by eapply HR; [..|eassumption].
Qed.

(** The state in which [connect] has registered the connection. *)
Lemma registered_inv websocket user_id (f : State → Session) s :
  registry_inv s →
  registry_inv
    (set_sessions (λ m, <[user_id := f s]> m)
       (set_active (dict_set user_id ({[websocket]} ∪ conns_of s user_id))
          (touch user_id s))).
Proof.
  intros [Hne Hsess]. split; simpl.
  - intros u c. rewrite dict_get_set. case_decide.
    + intros [= <-]. set_solver.
    + rewrite touch_get, decide_False by done. apply Hne.
  - intros u. rewrite dict_get_set, touch_sessions.
    destruct (decide (user_id = u)) as [<-|Hu].
    + rewrite lookup_insert_eq. split; eauto.
    + rewrite lookup_insert_ne, touch_get, decide_False by done. apply Hsess.
Qed.

Lemma connect_inv websocket user_id session_data :
  preserves registry_inv (connect env websocket user_id session_data).
Proof.
  pose proof registry_inv_registry_only as HR.
  intros s Hs. unfold connect.
  destruct (accept_ok env (world s) websocket) eqn:Hacc.
  - erewrite exec_try_bind_ok by (unfold ws_accept; rewrite Hacc; reflexivity).
    erewrite exec_try_bind_ok
      by (unfold bind; rewrite active_getitem_touch; reflexivity).
    erewrite exec_try_bind_ok by reflexivity.
    erewrite exec_try_bind_ok by reflexivity.
    erewrite exec_try_bind_ok by reflexivity.
    erewrite exec_try_bind_ok by reflexivity.
    erewrite exec_try_bind_ok by reflexivity.
    apply preserves_try_except.
    + apply preserves_bind; [by apply new_dict_registry | intros confirmation].
      apply preserves_bind; [by apply send_to_connection_registry | intros _].
      apply send_offline_messages_inv.
    + intros _. apply disconnect_inv.
    + assert (registry_inv (set_world (world_accept websocket) s)) as Hs'
        by (by eapply HR; [..|eassumption]).
      eapply HR; [| |apply (registered_inv websocket user_id
        (λ s0, {| us_user_id := user_id; us_last_activity := clock (world s);
                 us_active_connections := size ({[websocket]} ∪ conns_of s0 user_id);
                 us_session_data := or_empty session_data;
                 us_status := None |}) _ Hs')]; simpl.
      * done.
      * unfold conns_of at 1. simpl. rewrite dict_get_set_eq. simpl.
        unfold touch. by case_match.
  - erewrite exec_try_bind_raise by (unfold ws_accept; rewrite Hacc; reflexivity).
    apply disconnect_inv. by eapply HR; [..|eassumption].
Qed.

Lemma broadcast_each_inv user_id message connections_copy :
  preserves registry_inv (broadcast_each env user_id message connections_copy).
Proof.
  pose proof registry_inv_registry_only as HR.
  unfold broadcast_each. apply preserves_for_each. intros websocket.
  apply preserves_try_except.
  - apply preserves_bind; [by apply send_to_connection_registry | intros _].
    apply preserves_modify. intros s Hs. by eapply HR; [..|eassumption].
  - intros e. destruct e; apply disconnect_inv.
Qed.

Lemma broadcast_items_inv used items message exclude_user :
  preserves registry_inv (broadcast_items env used items message exclude_user).
Proof.
  induction items as [|[user_id connections] rest IH]; simpl.
  - apply preserves_bind; [by pres_prim | intros; apply preserves_ret].
  - apply preserves_bind; [by pres_prim | intros _].
    destruct (truthy exclude_user && bool_decide (exclude_user = Some user_id));
      [apply IH|].
    apply preserves_bind; [apply broadcast_each_inv | intros _; apply IH].
Qed.

Lemma broadcast_to_all_inv message exclude_user :
  preserves registry_inv (broadcast_to_all env message exclude_user).
Proof.
  pose proof registry_inv_registry_only as HR.
  unfold broadcast_to_all.
  apply preserves_try_except; [|intros; apply preserves_ret].
  apply preserves_bind; [apply preserves_datetime_now | intros now].
  apply preserves_bind; [by apply dict_setitem_registry | intros _].
  apply preserves_bind; [apply preserves_get_state | intros s0].
  apply broadcast_items_inv.
Qed.

Lemma cleanup_inv : preserves registry_inv cleanup_inactive_connections.
Proof.
  unfold cleanup_inactive_connections.
  apply preserves_try_except; [|intros; apply preserves_ret].
  apply preserves_bind; [apply preserves_datetime_now | intros now].
  apply preserves_bind; [apply preserves_get_state | intros s0].
  apply preserves_for_each. intros p. apply disconnect_inv.
Qed.

Lemma alter_session_inv (f : Session → Session) user_id s :
  registry_inv s → registry_inv (set_sessions (alter f user_id) s).
Proof.
  intros [Hne Hsess]. split; simpl; [done|].
  intros u. rewrite <- Hsess, lookup_alter.
  case_decide; [subst; by rewrite fmap_is_Some | done].
Qed.

Lemma handle_ping_inv websocket data :
  preserves registry_inv (_handle_ping env websocket data).
Proof.
  pose proof registry_inv_registry_only as HR. unfold _handle_ping.
  apply preserves_try_except; [|intros; apply preserves_ret].
  apply preserves_bind; [apply preserves_datetime_now | intros now].
  apply preserves_bind; [by apply new_dict_registry | intros reply].
  by apply send_to_connection_registry.
Qed.

Lemma handle_typing_inv user_id data :
  preserves registry_inv (_handle_typing user_id data).
Proof.
  pose proof registry_inv_registry_only as HR. unfold _handle_typing.
  apply preserves_try_except; [|intros; apply preserves_ret].
  apply preserves_bind; [apply preserves_datetime_now | intros now].
  apply preserves_bind; [by apply new_dict_registry | intros; apply preserves_ret].
Qed.

Lemma handle_voice_data_inv user_id data :
  preserves registry_inv (_handle_voice_data env user_id data).
Proof.
  pose proof registry_inv_registry_only as HR. unfold _handle_voice_data.
  apply preserves_try_except; [|intros; apply preserves_ret].
  apply preserves_bind; [apply preserves_datetime_now | intros now].
  apply preserves_bind; [by apply new_dict_registry | intros message].
  apply preserves_bind; [apply send_to_user_inv | intros; apply preserves_ret].
Qed.

Lemma handle_user_status_inv user_id data :
  preserves registry_inv (_handle_user_status user_id data).
Proof.
  unfold _handle_user_status.
  apply preserves_try_except; [|intros; apply preserves_ret].
  apply preserves_bind; [apply preserves_datetime_now | intros now].
  apply preserves_modify. intros s. apply alter_session_inv.
Qed.

Lemma handle_message_inv websocket message :
  preserves registry_inv (handle_message env websocket message).
Proof.
  pose proof registry_inv_registry_only as HR. unfold handle_message.
  apply preserves_try_except; [|intros; apply preserves_ret].
  destruct (json_loads env message) as [data|]; [|apply preserves_raise].
  apply preserves_bind; [apply preserves_get_state | intros s0].
  destruct (connection_metadata s0 !! websocket) as [connection_info|];
    [|apply preserves_ret].
  apply preserves_bind.
  { apply preserves_modify. intros s Hs. by eapply HR; [..|eassumption]. }
  intros _. apply preserves_bind; [apply preserves_datetime_now | intros now].
  apply preserves_bind.
  { apply preserves_modify. intros s. apply alter_session_inv. }
  intros _. destruct data; try apply preserves_raise.
  destruct (dict_get "type" d) as [[]|]; try apply preserves_ret.
  repeat case_match; auto using handle_ping_inv, handle_typing_inv,
    handle_voice_data_inv, handle_user_status_inv, preserves_ret.
Qed.

Lemma send_system_notification_inv message user_id :
  preserves registry_inv (send_system_notification env message user_id).
Proof.
  pose proof registry_inv_registry_only as HR. unfold send_system_notification.
  apply preserves_bind; [apply preserves_datetime_now | intros now].
  apply preserves_bind; [by apply new_dict_registry | intros notification].
  destruct user_id as [u|]; [destruct (truthy (Some u))|];
    try apply broadcast_to_all_inv.
  apply preserves_bind; [apply send_to_user_inv | intros; apply preserves_ret].
Qed.

Lemma send_ai_response_inv user_id response context :
  preserves registry_inv (send_ai_response env user_id response context).
Proof.
  pose proof registry_inv_registry_only as HR. unfold send_ai_response.
  apply preserves_bind; [apply preserves_datetime_now | intros now].
  apply preserves_bind; [by apply new_dict_registry | intros message].
  apply preserves_bind; [apply send_to_user_inv | intros; apply preserves_ret].
Qed.

Lemma send_task_notification_inv user_id task_data :
  preserves registry_inv (send_task_notification env user_id task_data).
Proof.
  pose proof registry_inv_registry_only as HR. unfold send_task_notification.
  apply preserves_bind; [apply preserves_datetime_now | intros now].
  apply preserves_bind; [by apply new_dict_registry | intros message].
  apply preserves_bind; [apply send_to_user_inv | intros; apply preserves_ret].
Qed.

Lemma send_calendar_reminder_inv user_id event_data :
  preserves registry_inv (send_calendar_reminder env user_id event_data).
Proof.
  pose proof registry_inv_registry_only as HR. unfold send_calendar_reminder.
  apply preserves_bind; [apply preserves_datetime_now | intros now].
  apply preserves_bind; [by apply new_dict_registry | intros message].
  apply preserves_bind; [apply send_to_user_inv | intros; apply preserves_ret].
Qed.

Lemma shutdown_inv : preserves registry_inv shutdown.
Proof.
  intros s _. unfold shutdown.
  rewrite exec_try_succeeds.
  2:{ apply succeeds_bind; [apply succeeds_get_state | intros s0].
      apply succeeds_bind; [|intros _; succ_struct].
      apply succeeds_for_each. intros u. apply disconnect_succeeds. }
  erewrite exec_bind_ok by reflexivity.
  rewrite exec_seq
    by (apply succeeds_for_each; intros u; apply disconnect_succeeds).
  rewrite !exec_seq by apply succeeds_modify.
  split; simpl.
  - by intros u c.
  - intros u. rewrite lookup_empty. split; by intros [? ?].
Qed.

Lemma init_inv : registry_inv init.
Proof.
  split; simpl.
  - by intros u c.
  - intros u. rewrite lookup_empty. split; by intros [? ?].
Qed.

Lemma step_inv o s : registry_inv s → registry_inv (step env o s).
Proof.
  pose proof registry_inv_registry_only as HR.
  destruct o; simpl.
  - apply connect_inv.
  - apply disconnect_inv.
  - apply send_to_user_inv.
  - apply broadcast_to_all_inv.
  - unfold broadcast_to_user.
    apply preserves_bind; [apply send_to_user_inv | intros; apply preserves_ret].
  - apply handle_message_inv.
  - apply send_system_notification_inv.
  - apply send_ai_response_inv.
  - apply send_task_notification_inv.
  - apply send_calendar_reminder_inv.
  - apply cleanup_inv.
  - apply shutdown_inv.
  - by apply new_dict_registry.
  - by apply dict_setitem_registry.
  - intros Hs. by eapply HR; [..|eassumption].
Qed.

Lemma run_ops_inv ops s : registry_inv s → registry_inv (run_ops env ops s).
Proof.
  revert s. induction ops as [|o ops IH]; intros s Hs; simpl; [done|].
  apply IH, step_inv, Hs.
Qed.

Lemma inv_active_count s u :
  registry_inv s →
  u ∈ get_active_users s ↔ 0 < get_user_connection_count u s.
Proof.
  intros [Hne _]. unfold get_active_users, get_user_connection_count, conns_of.
  rewrite dict_keys_get.
  destruct (dict_get u (active_connections s)) as [c|] eqn:E.
  - simpl. split; [intros _ | eauto].
    specialize (Hne u c E).
    assert (size c ≠ 0) by (apply size_non_empty_iff; by intros ?%leibniz_equiv). lia.
  - replace (default ∅ None) with (∅ : gset nat) by done. rewrite size_empty.
    split; [by intros [? ?] | lia].
Qed.

Lemma inv_session_count s u :
  registry_inv s →
  is_Some (get_user_session u s) ↔ 0 < get_user_connection_count u s.
Proof.
  intros Hs. rewrite <- (inv_active_count s u Hs).
  destruct Hs as [_ Hsess]. unfold get_user_session, get_active_users.
  by rewrite dict_keys_get.
Qed.
End registry.

(** C1. After every sequence of calls (connect, disconnect, send_to_user,
    broadcast_to_all, the cleanup sweep and every other method of the
    manager, with time passing and callers building and changing their
    messages in between) and whatever the transports do, a user id is
    among [get_active_users()] if and only if its
    [get_user_connection_count] is positive, and it has a session entry
    if and only if it has at least one registered connection. *)
Theorem C1_registry_mirrors_live_connections (env : Env) (ops : list op) (u : UserId) :
  let s := run_ops env ops init in
  (u ∈ get_active_users s ↔ 0 < get_user_connection_count u s) ∧
  (is_Some (get_user_session u s) ↔ 0 < get_user_connection_count u s).
Proof.
  intros s.
  assert (registry_inv s) as Hs by apply run_ops_inv, init_inv.
  split; [by apply inv_active_count | by apply inv_session_count].
Qed.

(** ** Delivery *)

Section delivery.
Context (env : Env).

Lemma disconnect_heap user_id websocket s :
  heap (exec (disconnect user_id websocket) s) = heap s.
Proof.
  apply (disconnect_delivery_only (λ s', heap s' = heap s)); [|done].
  intros s1 s2 Hh _ _ _. by rewrite Hh.
Qed.

Lemma disconnect_offline user_id websocket s :
  offline_messages (exec (disconnect user_id websocket) s) = offline_messages s.
Proof.
  apply (disconnect_delivery_only (λ s', offline_messages s' = offline_messages s)); [|done].
  intros s1 s2 _ Hh _ _. by rewrite Hh.
Qed.

Lemma disconnect_clock user_id websocket s :
  clock (world (exec (disconnect user_id websocket) s)) = clock (world s).
Proof.
  apply (disconnect_delivery_only (λ s', clock (world s') = clock (world s))); [|done].
  intros s1 s2 _ _ Hh _. by rewrite Hh.
Qed.

Lemma disconnect_wire user_id websocket s :
  wire (world (exec (disconnect user_id websocket) s)) = wire (world s).
Proof.
  apply (disconnect_delivery_only (λ s', wire (world s') = wire (world s))); [|done].
  intros s1 s2 _ _ _ Hh. by rewrite Hh.
Qed.

Lemma disconnect_run user_id websocket s :
  disconnect user_id websocket s = (Ok (), exec (disconnect user_id websocket) s).
Proof. by rewrite (run_eq (disconnect _ _)), disconnect_result. Qed.

Lemma send_to_connection_ok websocket message d s :
  heap s !! message = Some d →
  send_ok env (world s) websocket d = true →
  _send_to_connection env websocket message s =
    (Ok (), set_world (world_send websocket d) s).
Proof.
  intros Hd Hok. unfold _send_to_connection, try_except, bind, json_dumps, ws_send_text.
  by rewrite Hd, Hok.
Qed.

Lemma send_to_connection_fail websocket message d s :
  heap s !! message = Some d →
  send_ok env (world s) websocket d = false →
  _send_to_connection env websocket message s =
    (Raise WebSocketDisconnect, set_world world_io s).
Proof.
  intros Hd Hok. unfold _send_to_connection, try_except, bind, json_dumps, ws_send_text.
  by rewrite Hd, Hok.
Qed.

Lemma queue_offline_run user_id message s :
  _queue_offline_message user_id message s =
    (Ok (), set_offline (<[user_id := enqueue (queue_of s user_id) message]>) s).
Proof.
  set (f := set_offline (λ q, <[user_id := default [] (q !! user_id) ++ [message]]> q)).
  assert (queue_of (f s) user_id = queue_of s user_id ++ [message]) as Hq.
  { unfold f, queue_of. simpl. by rewrite lookup_insert_eq. }
  unfold _queue_offline_message, try_except, bind, modify, get_state.
  fold f. cbv beta iota. rewrite Hq. unfold enqueue, when, ret.
  destruct (bool_decide (max_queue_size < length (queue_of s user_id ++ [message]))).
  - unfold f, set_offline. simpl. by rewrite insert_insert_eq.
  - unfold f, set_offline, queue_of. simpl. done.
Qed.

Lemma send_each_cons_ok user_id message d ws rest sent s :
  heap s !! message = Some d →
  send_ok env (world s) ws d = true →
  send_each env user_id message (ws :: rest) sent s =
    send_each env user_id message rest true (set_world (world_send ws d) s).
Proof.
  intros Hd Hok. simpl. unfold bind at 1, try_except, bind at 1.
  by rewrite (send_to_connection_ok ws message d s Hd Hok).
Qed.

Lemma send_each_cons_fail user_id message d ws rest sent s :
  heap s !! message = Some d →
  send_ok env (world s) ws d = false →
  send_each env user_id message (ws :: rest) sent s =
    send_each env user_id message rest sent
      (exec (disconnect user_id (Some ws)) (set_world world_io s)).
Proof.
  intros Hd Hok. simpl. unfold bind at 1, try_except, bind at 1.
  rewrite (send_to_connection_fail ws message d s Hd Hok). simpl.
  unfold bind at 1. by rewrite disconnect_run.
Qed.

(** The loop of [send_to_user]: the frames go to a part of the
    copied set, in its order, and the flag says whether there is
    one. *)
Lemma send_each_spec user_id message d connections sent s :
  heap s !! message = Some d →
  ∃ oks,
    sublist oks connections ∧
    result (send_each env user_id message connections sent) s
      = Ok (sent || bool_decide (oks ≠ [])) ∧
    wire (world (exec (send_each env user_id message connections sent) s))
      = wire (world s) ++ ((λ w, (w, d)) <$> oks) ∧
    heap (exec (send_each env user_id message connections sent) s) = heap s ∧
    offline_messages (exec (send_each env user_id message connections sent) s)
      = offline_messages s ∧
    clock (world (exec (send_each env user_id message connections sent) s))
      = clock (world s).
Proof.
  revert sent s. induction connections as [|ws rest IH]; intros sent s Hd.
  - exists []. simpl. rewrite orb_false_r, app_nil_r. by repeat split.
  - destruct (send_ok env (world s) ws d) eqn:Hok.
    + destruct (IH true (set_world (world_send ws d) s) Hd)
        as (oks & Hsub & Hres & Hwire & Hheap & Hoff & Hclock).
      exists (ws :: oks). unfold result, exec in *.
      rewrite (send_each_cons_ok user_id message d ws rest sent s Hd Hok).
      rewrite Hres, Hwire, Hheap, Hoff, Hclock. simpl.
      rewrite orb_true_r, <- app_assoc.
      repeat split; try done. by apply sublist_skip.
    + pose proof (disconnect_heap user_id (Some ws) (set_world world_io s)) as Hh1.
      pose proof (disconnect_wire user_id (Some ws) (set_world world_io s)) as Hw1.
      pose proof (disconnect_offline user_id (Some ws) (set_world world_io s)) as Ho1.
      pose proof (disconnect_clock user_id (Some ws) (set_world world_io s)) as Hc1.
      simpl in Hh1, Hw1, Ho1, Hc1.
      remember (exec (disconnect user_id (Some ws)) (set_world world_io s)) as s1 eqn:Hs1.
      assert (heap s1 !! message = Some d) as Hd1 by (by rewrite Hh1).
      destruct (IH sent s1 Hd1)
        as (oks & Hsub & Hres & Hwire & Hheap & Hoff & Hclock).
      exists oks. unfold result, exec in Hres, Hwire, Hheap, Hoff, Hclock |- *.
      rewrite (send_each_cons_fail user_id message d ws rest sent s Hd Hok).
      rewrite <- Hs1, Hres, Hwire, Hheap, Hoff, Hclock, Hh1, Hw1, Ho1, Hc1.
      repeat split; try done. by apply sublist_cons.
Qed.

Lemma elements_empty_conns s user_id :
  dict_has user_id (active_connections s) = false →
  elements (conns_of s user_id) = [].
Proof.
  intros Hhas. unfold conns_of.
  destruct (dict_get user_id (active_connections s)) as [c|] eqn:E.
  - assert (dict_has user_id (active_connections s) = true)
      by (apply dict_has_get; rewrite E; eauto).
    congruence.
  - simpl. apply elements_empty.
Qed.

(** [send_to_user] on a dictionary, one step after the other. *)
Lemma send_to_user_run user_id message d s :
  heap s !! message = Some d →
  send_to_user env user_id message s =
    let s0 := set_heap (<[message := stamped (clock (world s)) d]>) s in
    match send_each env user_id message (elements (conns_of s user_id)) false s0 with
    | (Ok true, s1) => (Ok true, set_stats stats_sent s1)
    | (Ok false, s1) =>
        (Ok false, set_offline (<[user_id := enqueue (queue_of s1 user_id) message]>) s1)
    | (Raise e, s1) => (Ok false, s1)
    end.
Proof.
  intros Hd. unfold send_to_user, try_except.
  unfold bind at 1, datetime_now. unfold bind at 1, dict_setitem. rewrite Hd.
  unfold bind at 1, get_state. fold (stamped (clock (world s)) d).
  set (s0 := set_heap _ s). cbv zeta.
  change (active_connections s0) with (active_connections s).
  destruct (dict_has user_id (active_connections s)) eqn:Hhas.
  - apply dict_has_get in Hhas.
    unfold bind at 1. rewrite active_getitem_touch.
    rewrite touch_present by done.
    change (conns_of s0 user_id) with (conns_of s user_id).
    unfold bind at 1.
    destruct (send_each env user_id message (elements (conns_of s user_id)) false s0)
      as [[[|]|e] s1]; try done.
    unfold bind. by rewrite queue_offline_run.
  - rewrite (elements_empty_conns s user_id Hhas). simpl.
    unfold bind. by rewrite queue_offline_run.
Qed.

(** What [send_to_user] does: the stamp, the frames, the answer, the
    queue. *)
Lemma send_to_user_spec user_id message d s :
  heap s !! message = Some d →
  let d' := stamped (clock (world s)) d in
  let s' := exec (send_to_user env user_id message) s in
  ∃ oks,
    sublist oks (elements (conns_of s user_id)) ∧
    result (send_to_user env user_id message) s = Ok (bool_decide (oks ≠ [])) ∧
    wire (world s') = wire (world s) ++ ((λ w, (w, d')) <$> oks) ∧
    heap s' = <[message := d']> (heap s) ∧
    offline_messages s' =
      (if bool_decide (oks ≠ []) then offline_messages s
       else <[user_id := enqueue (queue_of s user_id) message]> (offline_messages s)) ∧
    clock (world s') = clock (world s).
Proof.
  intros Hd d' s'.
  set (s0 := set_heap (<[message := d']>) s).
  assert (heap s0 !! message = Some d') as Hd0.
  { unfold s0. simpl. apply list_lookup_insert_eq. by eapply lookup_lt_Some. }
  destruct (send_each_spec user_id message d' (elements (conns_of s user_id)) false s0 Hd0)
    as (oks & Hsub & Hres & Hwire & Hheap & Hoff & Hclock).
  exists oks. split; [done|].
  unfold s', result, exec in *. rewrite (send_to_user_run user_id message d s Hd).
  fold d'. fold s0. cbv zeta.
  destruct (send_each env user_id message (elements (conns_of s user_id)) false s0)
    as [r s1].
  simpl in Hres, Hwire, Hheap, Hoff, Hclock. subst r.
  destruct (bool_decide (oks ≠ [])); simpl.
  - by rewrite Hwire, Hheap, Hoff, Hclock.
  - rewrite Hwire, Hheap, Hoff, Hclock. repeat split; try done.
    unfold queue_of. by rewrite Hoff.
Qed.

Lemma frames_since_app s s' fs :
  wire (world s') = wire (world s) ++ fs → frames_since s s' = fs.
Proof. intros E. unfold frames_since. rewrite E. apply drop_app_length. Qed.

Lemma enqueue_suffix q message :
  ∃ kept, kept `suffix_of` q ∧ enqueue q message = kept ++ [message] ∧
    (length q < max_queue_size → kept = q) ∧
    length (enqueue q message) ≤ max_queue_size.
Proof.
  unfold enqueue, last_n, max_queue_size. rewrite length_app. simpl.
  case_bool_decide as Hlen.
  - exists (drop (length q + 1 - 100) q). split; [apply suffix_drop|].
    split; [|split; [lia|]].
    + rewrite drop_app_le by lia. done.
    + rewrite length_drop, length_app. simpl. lia.
  - exists q. repeat split; try done. rewrite length_app. simpl. lia.
Qed.

Lemma stamped_timestamp now d : dict_get "timestamp" (stamped now d) = Some (VIso now).
Proof. apply dict_get_set_eq. Qed.

Lemma stamped_other now d k :
  k ≠ "timestamp" → dict_get k (stamped now d) = dict_get k d.
Proof. intros Hk. apply dict_get_set_ne. congruence. Qed.
Lemma frames_since_same s1 s2 s' :
  wire (world s1) = wire (world s2) → frames_since s1 s' = frames_since s2 s'.
Proof. intros E. unfold frames_since. by rewrite E. Qed.

(** Each connection of the loop is asked once, in the world that the
    frames sent before its turn left, and the frame goes to it exactly
    when its transport takes the frame then. *)
Lemma send_each_asked user_id message d connections sent s w :
  heap s !! message = Some d →
  NoDup connections →
  w ∈ connections →
  ∃ W before,
    before `prefix_of`
      frames_since s (exec (send_each env user_id message connections sent) s) ∧
    wire W = wire (world s) ++ before ∧
    clock W = clock (world s) ∧
    ((w, d) ∈ frames_since s (exec (send_each env user_id message connections sent) s)
     ↔ send_ok env W w d = true).
Proof.
  revert sent s. induction connections as [|ws rest IH]; intros sent s Hd Hnd Hw.
  - by apply elem_of_nil in Hw.
  - apply NoDup_cons in Hnd as [Hws Hnd].
    destruct (send_ok env (world s) ws d) eqn:Hok.
    + set (s1 := set_world (world_send ws d) s).
      assert (heap s1 !! message = Some d) as Hd1 by done.
      destruct (send_each_spec user_id message d rest true s1 Hd1)
        as (oks & Hsub & _ & Hwire & _).
      unfold exec in Hwire |- *.
      rewrite (send_each_cons_ok user_id message d ws rest sent s Hd Hok). fold s1.
      set (s' := (send_each env user_id message rest true s1).2) in *.
      assert (frames_since s s' = (ws, d) :: frames_since s1 s') as HF.
      { rewrite (frames_since_app s1 s' _ Hwire). apply frames_since_app.
        rewrite Hwire. simpl. by rewrite <- app_assoc. }
      rewrite HF. apply elem_of_cons in Hw as [->|Hw].
      * exists (world s), []. split; [apply prefix_nil|].
        split; [by rewrite app_nil_r|]. split; [done|].
        split; [done | intros _; left].
      * destruct (IH true s1 Hd1 Hnd Hw) as (W & before & Hpre & HW & Hc & Hiff).
        fold s' in Hpre, Hiff.
        exists W, ((ws, d) :: before). split; [by apply prefix_cons|].
        split; [rewrite HW; simpl; by rewrite <- app_assoc|]. split; [done|].
        rewrite <- Hiff, elem_of_cons. split; [|by right].
        intros [[= ->]|H]; [done | exact H].
    + pose proof (disconnect_heap user_id (Some ws) (set_world world_io s)) as Hh1.
      pose proof (disconnect_wire user_id (Some ws) (set_world world_io s)) as Hw1.
      pose proof (disconnect_clock user_id (Some ws) (set_world world_io s)) as Hc1.
      simpl in Hh1, Hw1, Hc1.
      remember (exec (disconnect user_id (Some ws)) (set_world world_io s)) as s1 eqn:Hs1.
      assert (heap s1 !! message = Some d) as Hd1 by (by rewrite Hh1).
      destruct (send_each_spec user_id message d rest sent s1 Hd1)
        as (oks & Hsub & _ & Hwire & _).
      unfold exec in Hwire |- *.
      rewrite (send_each_cons_fail user_id message d ws rest sent s Hd Hok).
      rewrite <- Hs1.
      set (s' := (send_each env user_id message rest sent s1).2) in *.
      rewrite <- (frames_since_same s1 s s' Hw1).
      apply elem_of_cons in Hw as [->|Hw].
      * exists (world s), []. split; [apply prefix_nil|].
        split; [by rewrite app_nil_r|]. split; [done|].
        rewrite Hok, (frames_since_app s1 s' _ Hwire). split; [|done].
        intros (w0 & [= <-] & Hin)%list_elem_of_fmap.
        exfalso. apply Hws. by eapply elem_of_sublist.
      * destruct (IH sent s1 Hd1 Hnd Hw) as (W & before & Hpre & HW & Hc & Hiff).
        fold s' in Hpre, Hiff.
        exists W, before. split; [done|]. split; [by rewrite HW, Hw1|].
        split; [by rewrite Hc, Hc1 | done].
Qed.

(** The same for [send_to_user] and the connections the user has at
    the call. *)
Lemma send_to_user_asked user_id message d s w :
  heap s !! message = Some d →
  w ∈ conns_of s user_id →
  ∃ W before,
    before `prefix_of` frames_since s (exec (send_to_user env user_id message) s) ∧
    wire W = wire (world s) ++ before ∧
    clock W = clock (world s) ∧
    ((w, stamped (clock (world s)) d)
       ∈ frames_since s (exec (send_to_user env user_id message) s)
     ↔ send_ok env W w (stamped (clock (world s)) d) = true).
Proof.
  intros Hd Hw.
  set (d' := stamped (clock (world s)) d).
  set (s0 := set_heap (<[message := d']>) s).
  assert (heap s0 !! message = Some d') as Hd0.
  { unfold s0. simpl. apply list_lookup_insert_eq. by eapply lookup_lt_Some. }
  assert (frames_since s (exec (send_to_user env user_id message) s) =
          frames_since s0
            (exec (send_each env user_id message (elements (conns_of s user_id)) false) s0))
    as ->.
  { unfold exec. rewrite (send_to_user_run user_id message d s Hd). cbv zeta.
    fold d'. fold s0.
    by destruct (send_each env user_id message (elements (conns_of s user_id)) false s0)
      as [[[|]|e] s1]. }
  apply (send_each_asked user_id message d' (elements (conns_of s user_id)) false s0 w Hd0).
  - apply NoDup_elements.
  - by apply elem_of_elements.
Qed.
End delivery.

(** C5. [send_to_user] on a message dictionary returns true exactly when
    one of the connections the user had at the call took the (stamped)
    message.  Every such connection is asked once, in the world that the
    frames sent before its turn left, and the frame goes to it exactly
    when its transport takes the frame then: so a connection whose
    transport takes the frame in any case gets it and makes the answer
    true, and the answer is false when no transport of the user takes
    it.  For a user with no connection at the call the answer is false
    and the message has gone through the offline queue of that user. *)
Theorem C5_send_to_user_result (env : Env) (user_id : UserId) (message : loc)
    (d : PyDict) (s : State) :
  heap s !! message = Some d →
  let s' := exec (send_to_user env user_id message) s in
  let d' := stamped (clock (world s)) d in
  (∃ b, result (send_to_user env user_id message) s = Ok b) ∧
  (result (send_to_user env user_id message) s = Ok true ↔
     ∃ w, w ∈ conns_of s user_id ∧ (w, d') ∈ frames_since s s') ∧
  (∀ w, w ∈ conns_of s user_id →
     ∃ W before,
       before `prefix_of` frames_since s s' ∧
       wire W = wire (world s) ++ before ∧
       clock W = clock (world s) ∧
       ((w, d') ∈ frames_since s s' ↔ send_ok env W w d' = true)) ∧
  (∀ w, w ∈ conns_of s user_id → (∀ W, send_ok env W w d' = true) →
     result (send_to_user env user_id message) s = Ok true ∧
     (w, d') ∈ frames_since s s') ∧
  ((∀ w W, w ∈ conns_of s user_id → send_ok env W w d' = false) →
     result (send_to_user env user_id message) s = Ok false ∧
     frames_since s s' = []) ∧
  (conns_of s user_id = ∅ →
     result (send_to_user env user_id message) s = Ok false ∧
     queue_of s' user_id = enqueue (queue_of s user_id) message).
Proof.
  intros Hd s' d'.
  destruct (send_to_user_spec env user_id message d s Hd)
    as (oks & Hsub & Hres & Hwire & Hheap & Hoff & Hclock).
  fold s' in Hwire, Hheap, Hoff, Hclock. fold d' in Hwire, Hheap.
  pose proof (λ w, send_to_user_asked env user_id message d s w Hd) as Hasked.
  fold s' d' in Hasked.
  rewrite (frames_since_app s s' _ Hwire) in Hasked |- *. rewrite Hres.
  assert (Ok (bool_decide (oks ≠ [])) = Ok true ↔
          ∃ w, w ∈ conns_of s user_id ∧ (w, d') ∈ (λ w, (w, d')) <$> oks) as Hiff.
  { split.
    - intros [= Hb]. apply bool_decide_eq_true in Hb.
      destruct oks as [|w oks']; [done|]. exists w. split.
      + apply elem_of_elements. eapply elem_of_sublist; [|exact Hsub]. set_solver.
      + set_solver.
    - intros (w & _ & Hw). f_equal. apply bool_decide_eq_true.
      intros ->. by apply elem_of_nil in Hw. }
  split; [eauto|]. split; [exact Hiff|]. split; [exact Hasked|]. split; [|split].
  - intros w Hw Htakes.
    destruct (Hasked w Hw) as (W & before & _ & _ & _ & Hin).
    assert ((w, d') ∈ (λ w, (w, d')) <$> oks) as Hgot by (apply Hin, Htakes).
    split; [|done]. apply Hiff. eauto.
  - intros Hdead.
    assert (oks = []) as ->; [|done].
    destruct oks as [|w oks']; [done|]. exfalso.
    assert (w ∈ conns_of s user_id) as Hw.
    { apply elem_of_elements. eapply elem_of_sublist; [|exact Hsub]. set_solver. }
    destruct (Hasked w Hw) as (W & before & _ & _ & _ & Hin).
    rewrite (Hdead w W Hw) in Hin. assert (false = true) as Hf; [|done].
    apply Hin. set_solver.
  - intros Hempty. rewrite Hempty, elements_empty in Hsub.
    apply sublist_nil_r in Hsub. subst oks. split; [done|].
    unfold queue_of at 1. rewrite Hoff. simpl. by rewrite lookup_insert_eq.
Qed.

Lemma C5_send_to_user_result_witness :
  let s' := exec (send_to_user quiet_env 5 2) two_users in
  let d' := stamped (clock (world two_users)) [("type", VStr "note")] in
  (conns_of two_users 5 = {[8]} ∧
   result (send_to_user quiet_env 5 2) two_users = Ok true ∧
   frames_since two_users s' = [(8, d')]) ∧
  (∃ b, result (send_to_user quiet_env 5 2) two_users = Ok b) ∧
  (result (send_to_user quiet_env 5 2) two_users = Ok true ↔
     ∃ w, w ∈ conns_of two_users 5 ∧ (w, d') ∈ frames_since two_users s') ∧
  (∀ w, w ∈ conns_of two_users 5 →
     ∃ W before,
       before `prefix_of` frames_since two_users s' ∧
       wire W = wire (world two_users) ++ before ∧
       clock W = clock (world two_users) ∧
       ((w, d') ∈ frames_since two_users s' ↔ send_ok quiet_env W w d' = true)) ∧
  (∀ w, w ∈ conns_of two_users 5 → (∀ W, send_ok quiet_env W w d' = true) →
     result (send_to_user quiet_env 5 2) two_users = Ok true ∧
     (w, d') ∈ frames_since two_users s') ∧
  ((∀ w W, w ∈ conns_of two_users 5 → send_ok quiet_env W w d' = false) →
     result (send_to_user quiet_env 5 2) two_users = Ok false ∧
     frames_since two_users s' = []) ∧
  (conns_of two_users 5 = ∅ →
     result (send_to_user quiet_env 5 2) two_users = Ok false ∧
     queue_of s' 5 = enqueue (queue_of two_users 5) 2).
Proof.
  split; [by vm_compute|].
  apply (C5_send_to_user_result quiet_env 5 2 [("type", VStr "note")] two_users).
  reflexivity.
Defined.

(** C6. [send_to_user] for a user with no connection, on any message
    dictionary: the call returns (it does not raise), the answer is
    false, no frame goes out, and the user's queue is the old queue
    (without its oldest entries once it is full) followed by this one
    message; the queues of the other users are as before. *)
Theorem C6_send_to_offline_user (env : Env) (user_id : UserId) (message : loc)
    (d : PyDict) (s : State) :
  heap s !! message = Some d →
  conns_of s user_id = ∅ →
  let s' := exec (send_to_user env user_id message) s in
  result (send_to_user env user_id message) s = Ok false ∧
  frames_since s s' = [] ∧
  (∃ kept, kept `suffix_of` queue_of s user_id ∧
     queue_of s' user_id = kept ++ [message] ∧
     (length (queue_of s user_id) < max_queue_size → kept = queue_of s user_id)) ∧
  (∀ u, u ≠ user_id → queue_of s' u = queue_of s u).
Proof.
  intros Hd Hempty s'.
  destruct (send_to_user_spec env user_id message d s Hd)
    as (oks & Hsub & Hres & Hwire & Hheap & Hoff & Hclock).
  fold s' in Hwire, Hheap, Hoff, Hclock.
  rewrite Hempty, elements_empty in Hsub. apply sublist_nil_r in Hsub. subst oks.
  simpl in Hwire, Hoff. rewrite app_nil_r in Hwire.
  split; [done|]. split.
  { unfold frames_since. rewrite Hwire. apply drop_all. }
  split.
  - destruct (enqueue_suffix (queue_of s user_id) message)
      as (kept & Hsuf & Heq & Hfull & _).
    exists kept. repeat split; try done.
    unfold queue_of at 1. rewrite Hoff, lookup_insert_eq. done.
  - intros u Hu. unfold queue_of. by rewrite Hoff, lookup_insert_ne.
Qed.

Lemma C6_send_to_offline_user_witness :
  let s' := exec (send_to_user quiet_env 42 0) one_message in
  result (send_to_user quiet_env 42 0) one_message = Ok false ∧
  frames_since one_message s' = [] ∧
  (∃ kept, kept `suffix_of` queue_of one_message 42 ∧
     queue_of s' 42 = kept ++ [0] ∧
     (length (queue_of one_message 42) < max_queue_size → kept = queue_of one_message 42)) ∧
  (∀ u, u ≠ 42%Z → queue_of s' u = queue_of one_message u).
Proof.
  apply (C6_send_to_offline_user quiet_env 42 0 [("type", VStr "note")] one_message);
    reflexivity.
Defined.

(** ** The stamp of [broadcast_to_all] *)

Section broadcast.
Context (env : Env).

Lemma carrying_delivery_only h w0 d : delivery_only (carrying h w0 d).
Proof.
  intros s s' Hh _ _ Hw [H1 (fs & H2 & H3)]. split; [congruence|].
  exists fs. split; [congruence | done].
Qed.

Lemma send_to_connection_carrying h w0 d websocket message :
  h !! message = Some d →
  preserves (carrying h w0 d) (_send_to_connection env websocket message).
Proof.
  intros Hd s [Hh (fs & Hw & Hfs)].
  assert (heap s !! message = Some d) as Hd' by (by rewrite Hh).
  unfold exec. destruct (send_ok env (world s) websocket d) eqn:Hok.
  - rewrite (send_to_connection_ok env websocket message d s Hd' Hok).
    unfold carrying. simpl.
    split; [done|]. exists (fs ++ [(websocket, d)]). rewrite Hw, app_assoc.
    split; [done|]. apply Forall_app. split; [done|]. by apply Forall_singleton.
  - rewrite (send_to_connection_fail env websocket message d s Hd' Hok).
    unfold carrying. simpl.
    split; [done|]. by exists fs.
Qed.

Lemma broadcast_each_carrying h w0 d user_id message connections_copy :
  h !! message = Some d →
  preserves (carrying h w0 d) (broadcast_each env user_id message connections_copy).
Proof.
  intros Hd. unfold broadcast_each. apply preserves_for_each. intros websocket.
  apply preserves_try_except.
  - apply preserves_bind; [by apply send_to_connection_carrying | intros _].
    apply preserves_modify. intros s Hs.
    by eapply (carrying_delivery_only h w0 d); [..|exact Hs].
  - intros e. destruct e;
      apply disconnect_delivery_only, carrying_delivery_only.
Qed.

Lemma broadcast_items_carrying h w0 d used items message exclude_user :
  h !! message = Some d →
  preserves (carrying h w0 d) (broadcast_items env used items message exclude_user).
Proof.
  intros Hd. induction items as [|[user_id connections] rest IH]; simpl.
  - apply preserves_bind; [by pres_prim | intros; apply preserves_ret].
  - apply preserves_bind; [by pres_prim | intros _].
    destruct (truthy exclude_user && bool_decide (exclude_user = Some user_id));
      [apply IH|].
    apply preserves_bind; [by apply broadcast_each_carrying | intros _; apply IH].
Qed.

Lemma broadcast_to_all_unfold message exclude_user d s :
  heap s !! message = Some d →
  exec (broadcast_to_all env message exclude_user) s =
    let s0 := set_heap (<[message := stamped (clock (world s)) d]>) s in
    exec (try_except
            (broadcast_items env (length (active_connections s))
               (active_connections s) message exclude_user)
            (λ _, ret ())) s0.
Proof.
  intros Hd. unfold broadcast_to_all.
  erewrite exec_try_bind_ok by reflexivity.
  erewrite exec_try_bind_ok by (unfold dict_setitem; rewrite Hd; reflexivity).
  erewrite exec_try_bind_ok by reflexivity.
  done.
Qed.

Lemma broadcast_to_all_spec message exclude_user d s :
  heap s !! message = Some d →
  let d' := stamped (clock (world s)) d in
  let s' := exec (broadcast_to_all env message exclude_user) s in
  heap s' = <[message := d']> (heap s) ∧
  ∃ fs, wire (world s') = wire (world s) ++ fs ∧ Forall (λ f, f.2 = d') fs.
Proof.
  intros Hd d' s'. unfold s'.
  rewrite (broadcast_to_all_unfold message exclude_user d s Hd). cbv zeta. fold d'.
  set (s0 := set_heap (<[message := d']>) s).
  assert (heap s0 !! message = Some d') as Hd0.
  { unfold s0. simpl. apply list_lookup_insert_eq. by eapply lookup_lt_Some. }
  apply (preserves_try_except (carrying (heap s0) (wire (world s)) d')).
  - by apply broadcast_items_carrying.
  - intros _. apply preserves_ret.
  - split; [done|]. exists []. by rewrite app_nil_r.
Qed.
End broadcast.

(** C9. [send_to_user] and [broadcast_to_all] change the caller's
    message dictionary in place: after the call the object holds the
    caller's dictionary with ["timestamp"] set to the instant of the call
    (an old ["timestamp"] is overwritten), every other key of it and
    every other object are as before, and each frame sent in the call
    already carries the stamp. *)
Theorem C9_message_stamped_in_place (env : Env) (user_id : UserId)
    (exclude_user : option UserId) (message : loc) (d : PyDict) (s : State) :
  heap s !! message = Some d →
  stamped_in_place message d s (exec (send_to_user env user_id message) s) ∧
  stamped_in_place message d s (exec (broadcast_to_all env message exclude_user) s).
Proof.
  intros Hd.
  assert (∀ s', (heap s' = <[message := stamped (clock (world s)) d]> (heap s) ∧
            ∃ fs, wire (world s') = wire (world s) ++ fs ∧
                  Forall (λ f, f.2 = stamped (clock (world s)) d) fs) →
          stamped_in_place message d s s') as Hgen.
  { intros s' [Hheap (fs & Hwire & Hfs)]. unfold stamped_in_place.
    rewrite (frames_since_app s s' fs Hwire), Hheap.
    split; [apply list_lookup_insert_eq; by eapply lookup_lt_Some|].
    split; [apply stamped_timestamp|].
    split; [intros k; apply stamped_other|].
    split; [|done].
    intros l Hl. by apply list_lookup_insert_ne. }
  split; apply Hgen.
  - destruct (send_to_user_spec env user_id message d s Hd)
      as (oks & _ & _ & Hwire & Hheap & _).
    split; [done|]. eexists. split; [exact Hwire|].
    apply Forall_fmap, Forall_forall. by intros w _.
  - apply (broadcast_to_all_spec env message exclude_user d s Hd).
Qed.

Lemma C9_message_stamped_in_place_witness :
  stamped_in_place 0 [("type", VStr "note")] one_message
    (exec (send_to_user quiet_env 42 0) one_message) ∧
  stamped_in_place 0 [("type", VStr "note")] one_message
    (exec (broadcast_to_all quiet_env 0 None) one_message).
Proof.
  apply (C9_message_stamped_in_place quiet_env 42 None 0 [("type", VStr "note")] one_message).
  reflexivity.
Defined.

(** ** Replaying the offline queue *)

Section flush.
Context (env : Env).

Lemma send_to_user_succeeds user_id message : succeeds (send_to_user env user_id message).
Proof. unfold send_to_user. apply succeeds_try_except. intros _. apply succeeds_ret. Qed.

Lemma replay_succeeds user_id message : succeeds (replay env user_id message).
Proof.
  unfold replay. apply succeeds_bind; [apply succeeds_new_dict | intros wrapper].
  apply succeeds_bind; [apply send_to_user_succeeds | intros; apply succeeds_ret].
Qed.

Lemma exec_bind_ret {A} (m : M A) s : exec (let! _ := m in ret ()) s = exec m s.
Proof. unfold exec, bind, ret. by destruct (m s) as [[a|e] s']. Qed.

Lemma replay_exec user_id message s :
  exec (replay env user_id message) s =
    exec (send_to_user env user_id (length (heap s)))
      (set_heap (λ h, h ++ [offline_wrapper message]) s).
Proof.
  unfold replay. erewrite exec_bind_ok by reflexivity. apply exec_bind_ret.
Qed.

Lemma replayed_to_app websocket fs1 fs2 :
  replayed_to websocket (fs1 ++ fs2) =
    replayed_to websocket fs1 ++ replayed_to websocket fs2.
Proof. apply omap_app. Qed.

Lemma replayed_to_cons websocket w d fs :
  replayed_to websocket ((w, d) :: fs) =
    (if decide (w = websocket) then option_list (replayed_message d) else [])
      ++ replayed_to websocket fs.
Proof.
  unfold replayed_to. simpl. case_decide; [|done].
  by destruct (replayed_message d).
Qed.

Lemma replayed_to_absent websocket d oks :
  websocket ∉ oks → replayed_to websocket ((λ w, (w, d)) <$> oks) = [].
Proof.
  induction oks as [|w oks IH]; [done|].
  intros Hnot. apply not_elem_of_cons in Hnot as [Hne Hnot].
  rewrite fmap_cons, replayed_to_cons, decide_False by done. by apply IH.
Qed.

Lemma replayed_to_once websocket d message oks :
  NoDup oks → replayed_message d = Some message →
  replayed_to websocket ((λ w, (w, d)) <$> oks) `sublist_of` [message].
Proof.
  intros Hnd Hd. induction oks as [|w oks IH]; [apply sublist_nil_l|].
  apply NoDup_cons in Hnd as [Hnot Hnd].
  rewrite fmap_cons, replayed_to_cons.
  destruct (decide (w = websocket)) as [->|Hne].
  - rewrite Hd, replayed_to_absent by done. done.
  - by apply IH.
Qed.

(** One replay: at most one frame for each connection, each an
    [offline_message] that refers to the queued message. *)
Lemma replay_spec user_id message s :
  let s' := exec (replay env user_id message) s in
  ∃ fs, wire (world s') = wire (world s) ++ fs ∧
    Forall is_offline_frame fs ∧
    (∀ w, replayed_to w fs `sublist_of` [message]).
Proof.
  intros s'. unfold s'. rewrite replay_exec.
  set (s1 := set_heap (λ h, h ++ [offline_wrapper message]) s).
  assert (heap s1 !! length (heap s) = Some (offline_wrapper message)) as Hd.
  { unfold s1. simpl. by rewrite lookup_app_r, Nat.sub_diag by lia. }
  destruct (send_to_user_spec env user_id (length (heap s)) _ s1 Hd)
    as (oks & Hsub & _ & Hwire & _).
  eexists. split; [exact Hwire|]. split.
  - apply Forall_fmap, Forall_forall. intros w _. unfold is_offline_frame, compose.
    cbn [snd]. by rewrite stamped_other.
  - intros w. apply replayed_to_once.
    + apply (sublist_NoDup _ _ (NoDup_elements (C := gset nat) _) Hsub).
    + unfold replayed_message. by rewrite stamped_other.
Qed.

Lemma replay_loop_spec user_id messages s :
  let s' := exec (for_each messages (replay env user_id)) s in
  ∃ fs, wire (world s') = wire (world s) ++ fs ∧
    Forall is_offline_frame fs ∧
    (∀ w, replayed_to w fs `sublist_of` messages).
Proof.
  revert s. induction messages as [|message rest IH]; intros s; simpl.
  - exists []. rewrite app_nil_r. repeat split; [done|]. intros w. apply sublist_nil_l.
  - rewrite exec_seq by apply replay_succeeds.
    destruct (replay_spec user_id message s) as (fs1 & Hw1 & Hf1 & Hr1).
    destruct (IH (exec (replay env user_id message) s)) as (fs2 & Hw2 & Hf2 & Hr2).
    exists (fs1 ++ fs2). rewrite Hw2, Hw1, app_assoc. split; [done|].
    split; [by apply Forall_app|].
    intros w. rewrite replayed_to_app.
    change (message :: rest) with ([message] ++ rest). by apply sublist_app.
Qed.

Lemma send_offline_messages_exec user_id s :
  exec (_send_offline_messages env user_id) s =
    match offline_messages s !! user_id with
    | Some messages =>
        set_offline (<[user_id := []]>)
          (exec (for_each messages (replay env user_id)) s)
    | None => s
    end.
Proof.
  unfold _send_offline_messages. fold (replay env user_id).
  rewrite exec_try_succeeds.
  - erewrite exec_bind_ok by reflexivity.
    destruct (offline_messages s !! user_id) as [messages|]; [|done].
    by rewrite exec_seq by (apply succeeds_for_each, replay_succeeds).
  - apply succeeds_bind; [apply succeeds_get_state | intros s0].
    destruct (offline_messages s0 !! user_id); [|apply succeeds_ret].
    apply succeeds_bind; [apply succeeds_for_each, replay_succeeds|].
    intros _. apply succeeds_modify.
Qed.
End flush.

(** C7. Replaying the offline queue of a user, whatever the transports
    do: every frame sent is an [offline_message], the queued messages
    that the frames to any one connection carry are the queue or a part
    of it, in order and none twice, and afterwards the user's queue is
    empty - a message whose replay failed is not in it any more. *)
Theorem C7_offline_messages_replayed_once (env : Env) (user_id : UserId) (s : State) :
  let s' := exec (_send_offline_messages env user_id) s in
  queue_of s' user_id = [] ∧
  Forall is_offline_frame (frames_since s s') ∧
  (∀ w, replayed_to w (frames_since s s') `sublist_of` queue_of s user_id).
Proof.
  intros s'. unfold s'. rewrite send_offline_messages_exec. unfold queue_of at 2.
  destruct (offline_messages s !! user_id) as [messages|] eqn:E; simpl.
  - destruct (replay_loop_spec env user_id messages s) as (fs & Hw & Hf & Hr).
    split; [unfold queue_of; simpl; by rewrite lookup_insert_eq|].
    erewrite frames_since_app by (simpl; exact Hw). done.
  - split; [unfold queue_of; by rewrite E|].
    erewrite frames_since_app by (by rewrite app_nil_r).
    split; [done|]. intros w. apply sublist_nil_l.
Qed.

(** ** When every transport takes every frame *)

Section healthy.
Context (env : Env) (Hsend : healthy env).

Lemma sent_frames_app fs1 fs2 w :
  sent_frames (fs1 ++ fs2) w = sent_frames fs2 (sent_frames fs1 w).
Proof. apply foldl_app. Qed.

Lemma sent_frames_wire fs w : wire (sent_frames fs w) = wire w ++ fs.
Proof.
  revert w. induction fs as [|f fs IH]; intros w; simpl.
  - by rewrite app_nil_r.
  - rewrite IH. destruct f. simpl. by rewrite <- app_assoc.
Qed.

Lemma sent_frames_clock fs w : clock (sent_frames fs w) = clock w.
Proof. revert w. induction fs as [|f fs IH]; intros w; simpl; [done|]. by rewrite IH. Qed.

Lemma send_each_healthy user_id message d connections sent s :
  heap s !! message = Some d →
  send_each env user_id message connections sent s =
    (Ok (sent || bool_decide (connections ≠ [])),
     set_world (sent_frames (frames_to connections d)) s).
Proof.
  intros Hd. revert sent s Hd.
  induction connections as [|ws rest IH]; intros sent s Hd.
  - simpl. replace (sent || _) with sent by (by destruct sent). by destruct s.
  - rewrite (send_each_cons_ok env user_id message d ws rest sent s Hd (Hsend _ _ _)).
    rewrite IH by done. rewrite orb_true_r. simpl. done.
Qed.

Lemma send_to_user_healthy user_id message d s :
  heap s !! message = Some d →
  conns_of s user_id ≠ ∅ →
  send_to_user env user_id message s =
    (Ok true,
     set_stats stats_sent
       (set_world
          (sent_frames (frames_to (elements (conns_of s user_id))
                          (stamped (clock (world s)) d)))
          (set_heap (<[message := stamped (clock (world s)) d]>) s))).
Proof.
  intros Hd Hne. rewrite (send_to_user_run env user_id message d s Hd). cbv zeta.
  rewrite (send_each_healthy user_id message (stamped (clock (world s)) d)).
  2:{ simpl. apply list_lookup_insert_eq. by eapply lookup_lt_Some. }
  assert (elements (conns_of s user_id) ≠ []) as Hel.
  { intros Hnil. apply Hne. apply leibniz_equiv. by apply elements_empty_inv. }
  by rewrite bool_decide_eq_true_2.
Qed.

Lemma replay_healthy user_id message s :
  conns_of s user_id ≠ ∅ →
  exec (replay env user_id message) s =
    set_stats stats_sent
      (set_world
         (sent_frames (frames_to (elements (conns_of s user_id))
                         (stamped (clock (world s)) (offline_wrapper message))))
         (set_heap (λ h, <[length (heap s) :=
                             stamped (clock (world s)) (offline_wrapper message)]>
                           (h ++ [offline_wrapper message])) s)).
Proof.
  intros Hne. rewrite replay_exec. unfold exec.
  erewrite send_to_user_healthy; [done| |done].
  simpl. by rewrite lookup_app_r, Nat.sub_diag by lia.
Qed.

Lemma replay_loop_healthy user_id messages s :
  conns_of s user_id ≠ ∅ →
  let s' := exec (for_each messages (replay env user_id)) s in
  wire (world s') = wire (world s) ++
    flat_map (λ l, frames_to (elements (conns_of s user_id))
                     (stamped (clock (world s)) (offline_wrapper l))) messages ∧
  active_connections s' = active_connections s ∧
  clock (world s') = clock (world s).
Proof.
  revert s. induction messages as [|message rest IH]; intros s Hne; simpl.
  - by rewrite app_nil_r.
  - rewrite exec_seq by apply replay_succeeds.
    rewrite (replay_healthy user_id message s Hne).
    match goal with |- context [exec (for_each rest _) ?s1] =>
      destruct (IH s1) as (Hw & Ha & Hc); [done|]; rewrite Hw, Ha, Hc
    end.
    simpl. rewrite sent_frames_wire, sent_frames_clock, <- app_assoc.
    unfold conns_of. simpl. done.
Qed.

Lemma touch_world user_id s : world (touch user_id s) = world s.
Proof. unfold touch. by case_match. Qed.

Lemma touch_offline user_id s : offline_messages (touch user_id s) = offline_messages s.
Proof. unfold touch. by case_match. Qed.

(** The end of [connect]: the confirmation, then the replay of the
    queue. *)
Lemma connect_tail_healthy websocket user_id session_id now (h : Exn → M unit) s :
  conns_of s user_id ≠ ∅ →
  let s' := exec (try_except
              (let! confirmation := new_dict (connection_confirmed user_id session_id now) in
               _send_to_connection env websocket confirmation >>
               _send_offline_messages env user_id) h) s in
  wire (world s') = wire (world s) ++
    (websocket, connection_confirmed user_id session_id now) ::
    flat_map (λ l, frames_to (elements (conns_of s user_id))
                     (stamped (clock (world s)) (offline_wrapper l)))
      (queue_of s user_id) ∧
  queue_of s' user_id = [] ∧
  active_connections s' = active_connections s.
Proof.
  intros Hne s'. unfold s'.
  erewrite exec_try_bind_ok by reflexivity.
  erewrite exec_try_bind_ok.
  2:{ apply send_to_connection_ok with (d := connection_confirmed user_id session_id now).
      - simpl. by rewrite lookup_app_r, Nat.sub_diag by lia.
      - apply Hsend. }
  rewrite exec_try_succeeds.
  2:{ unfold _send_offline_messages. apply succeeds_try_except. intros _. apply succeeds_ret. }
  rewrite send_offline_messages_exec. simpl. unfold queue_of at 2.
  destruct (offline_messages s !! user_id) as [messages|] eqn:E; simpl.
  - match goal with |- context [exec (for_each messages _) ?s1] =>
      destruct (replay_loop_healthy user_id messages s1) as (Hw & Ha & Hc); [done|]
    end.
    rewrite Hw, Ha. simpl. rewrite <- app_assoc. simpl.
    unfold queue_of. simpl. rewrite lookup_insert_eq, E. done.
  - unfold queue_of. rewrite E. done.
Qed.

Lemma connect_healthy_offline websocket user_id session_data s :
  accepting env →
  conns_of s user_id = ∅ →
  let s' := exec (connect env websocket user_id session_data) s in
  ∃ session_id,
    frames_since s s' =
      (websocket, connection_confirmed user_id session_id (clock (world s))) ::
      ((λ l, (websocket, stamped (clock (world s)) (offline_wrapper l)))
         <$> queue_of s user_id) ∧
    queue_of s' user_id = [] ∧
    conns_of s' user_id = {[websocket]}.
Proof.
  intros Hacc Hoff s'. unfold s', connect.
  erewrite exec_try_bind_ok by (unfold ws_accept; rewrite Hacc; reflexivity).
  erewrite exec_try_bind_ok
    by (unfold bind; rewrite active_getitem_touch; reflexivity).
  erewrite exec_try_bind_ok by reflexivity.
  erewrite exec_try_bind_ok by reflexivity.
  erewrite exec_try_bind_ok by reflexivity.
  erewrite exec_try_bind_ok by reflexivity.
  erewrite exec_try_bind_ok by reflexivity.
  match goal with |- context [exec (try_except _ _) ?s0] => set (s1 := s0) end.
  assert (conns_of s1 user_id = {[websocket]}) as Hc1.
  { unfold s1, conns_of at 1. simpl. rewrite dict_get_set_eq. simpl.
    change (conns_of (set_world _ s) user_id) with (conns_of s user_id).
    rewrite Hoff. set_solver. }
  assert (wire (world s1) = wire (world s)) as Hw1
    by (unfold s1; simpl; by rewrite touch_world).
  assert (clock (world s1) = clock (world s)) as Hk1
    by (unfold s1; simpl; by rewrite touch_world).
  assert (queue_of s1 user_id = queue_of s user_id) as Hq1
    by (unfold s1, queue_of; simpl; by rewrite touch_offline).
  match goal with |- context [connection_confirmed user_id ?sid ?now] =>
    assert (now = clock (world s)) as Hnow by (simpl; by rewrite touch_world);
    destruct (connect_tail_healthy websocket user_id sid now
                (λ _, disconnect user_id (Some websocket)) s1)
      as (Hw & Hq & Ha); [rewrite Hc1; set_solver|];
    exists sid
  end.
  rewrite Hc1, elements_singleton, Hw1, Hk1, Hq1 in Hw.
  erewrite frames_since_app by exact Hw.
  split; [|split; [done|]].
  - rewrite Hnow. apply (f_equal (cons _)). clear.
    induction (queue_of s user_id) as [|l q IH]; simpl; [done | by f_equal].
  - unfold conns_of at 1. rewrite Ha. apply Hc1.
Qed.
End healthy.

(** ** The offline queue *)

Section queue.
Lemma enqueue_last_n q message :
  enqueue q message = last_n max_queue_size (q ++ [message]).
Proof.
  unfold enqueue. case_bool_decide as Hlen; [done|].
  unfold last_n. replace (length (q ++ [message]) - max_queue_size) with 0 by lia.
  done.
Qed.

Lemma last_n_length {A} n (l : list A) : length (last_n n l) ≤ n.
Proof. unfold last_n. rewrite length_drop. lia. Qed.

Lemma last_n_app_last_n {A} n (l k : list A) :
  last_n n (last_n n l ++ k) = last_n n (l ++ k).
Proof.
  unfold last_n. rewrite !length_app, length_drop.
  destruct (decide (length l ≤ n)) as [Hle|Hgt].
  - replace (length l - n) with 0 by lia. simpl. by rewrite Nat.sub_0_r.
  - rewrite !drop_app, drop_drop, length_drop. f_equal; f_equal; lia.
Qed.

Lemma foldl_enqueue q messages :
  length q ≤ max_queue_size →
  foldl enqueue q messages = last_n max_queue_size (q ++ messages).
Proof.
  revert q. induction messages as [|m rest IH]; intros q Hq; simpl.
  - rewrite app_nil_r. unfold last_n.
    by replace (length q - max_queue_size) with 0 by lia.
  - rewrite IH by (rewrite enqueue_last_n; apply last_n_length).
    rewrite enqueue_last_n, last_n_app_last_n. by rewrite <- app_assoc.
Qed.

Lemma foldl_enqueue_cons q m rest :
  foldl enqueue q (m :: rest) = last_n max_queue_size (q ++ m :: rest).
Proof.
  simpl. rewrite foldl_enqueue by (rewrite enqueue_last_n; apply last_n_length).
  rewrite enqueue_last_n, last_n_app_last_n. by rewrite <- app_assoc.
Qed.

Lemma queue_offline_succeeds user_id message :
  succeeds (_queue_offline_message user_id message).
Proof. intros s. unfold result. rewrite queue_offline_run. by eexists. Qed.

(** Enqueuing one message after the other changes the queue of that
    user and nothing else. *)
Lemma queue_loop_exec user_id messages s :
  ∃ f, exec (for_each messages (_queue_offline_message user_id)) s = set_offline f s ∧
       queue_of (set_offline f s) user_id = foldl enqueue (queue_of s user_id) messages.
Proof.
  revert s. induction messages as [|m rest IH]; intros s; simpl.
  - exists id. split; [by destruct s | done].
  - rewrite exec_seq by apply queue_offline_succeeds.
    unfold exec at 2. rewrite queue_offline_run. simpl.
    destruct (IH (set_offline
                    (<[user_id := enqueue (queue_of s user_id) m]>) s)) as (f & Hf & Hq).
    eexists (λ x, f (<[user_id := enqueue (queue_of s user_id) m]> x)).
    split; [exact Hf|].
    etrans; [exact Hq|]. f_equal. unfold queue_of at 1. simpl.
    by rewrite lookup_insert_eq.
Qed.

Lemma replayed_message_stamped now l :
  replayed_message (stamped now (offline_wrapper l)) = Some l.
Proof. unfold replayed_message. by rewrite stamped_other. Qed.

Lemma replayed_to_wrappers websocket now (q : list loc) :
  replayed_to websocket
    ((λ l, (websocket, stamped now (offline_wrapper l))) <$> q) = q.
Proof.
  induction q as [|l q IH]; [done|].
  rewrite fmap_cons, replayed_to_cons, decide_True, replayed_message_stamped by done.
  simpl. by rewrite IH.
Qed.
End queue.

(** C2. For a user with no connection, whatever its queue held:
    enqueuing 105 messages leaves the last 100 of them in the queue, in
    their order; when the user then connects (the transport accepts and
    takes every frame) the connection gets its confirmation and then
    exactly these 100 messages, in order, each wrapped as an
    [offline_message], and the queue is empty.  In general, after one
    enqueue the queue is the last 100 entries of the old queue followed
    by the new message, so never more than 100. *)
Theorem C2_offline_queue_keeps_newest (env : Env) (user_id : UserId)
    (websocket : WebSocket) (session_data : option PyDict)
    (messages : list loc) (s : State) :
  healthy env → accepting env →
  conns_of s user_id = ∅ →
  length messages = 105 →
  let s1 := exec (for_each messages (_queue_offline_message user_id)) s in
  let s2 := exec (connect env websocket user_id session_data) s1 in
  queue_of s1 user_id = drop 5 messages ∧
  (∃ session_id,
     frames_since s1 s2 =
       (websocket, connection_confirmed user_id session_id (clock (world s))) ::
       ((λ l, (websocket, stamped (clock (world s)) (offline_wrapper l)))
          <$> drop 5 messages)) ∧
  replayed_to websocket (frames_since s1 s2) = drop 5 messages ∧
  queue_of s2 user_id = [] ∧
  (∀ s0 u l,
     queue_of (exec (_queue_offline_message u l) s0) u
       = last_n max_queue_size (queue_of s0 u ++ [l]) ∧
     length (queue_of (exec (_queue_offline_message u l) s0) u) ≤ max_queue_size).
Proof.
  intros Hsend Hacc Hoff Hlen s1 s2.
  destruct (queue_loop_exec user_id messages s) as (f & Hf & Hq).
  assert (queue_of s1 user_id = drop 5 messages) as Hq1.
  { unfold s1. rewrite Hf, Hq.
    destruct messages as [|m rest]; [done|].
    rewrite foldl_enqueue_cons. unfold last_n, max_queue_size.
    rewrite length_app, Hlen.
    rewrite drop_app_ge by lia. f_equal. lia. }
  assert (conns_of s1 user_id = ∅) as Hoff1 by (unfold s1; by rewrite Hf).
  assert (clock (world s1) = clock (world s)) as Hclock by (unfold s1; by rewrite Hf).
  destruct (connect_healthy_offline env Hsend websocket user_id session_data s1 Hacc Hoff1)
    as (session_id & Hframes & Hq2 & _).
  fold s2 in Hframes, Hq2. rewrite Hq1, Hclock in Hframes.
  split; [done|]. split; [by exists session_id|]. split; [|split; [done|]].
  - rewrite Hframes, replayed_to_cons. simpl.
    rewrite replayed_to_wrappers. by case_decide.
  - intros s0 u l. unfold exec. rewrite queue_offline_run. cbn [snd].
    assert (queue_of (set_offline (<[u := enqueue (queue_of s0 u) l]>) s0) u
            = last_n max_queue_size (queue_of s0 u ++ [l])) as ->.
    { unfold queue_of at 1. simpl. rewrite lookup_insert_eq. simpl.
      apply enqueue_last_n. }
    split; [done | apply last_n_length].
Qed.

Lemma C2_offline_queue_keeps_newest_witness :
  let s1 := exec (for_each (seq 0 105) (_queue_offline_message 42)) init in
  let s2 := exec (connect quiet_env 7 42 None) s1 in
  queue_of s1 42 = drop 5 (seq 0 105) ∧
  (∃ session_id,
     frames_since s1 s2 =
       (7, connection_confirmed 42 session_id (clock (world init))) ::
       ((λ l, (7, stamped (clock (world init)) (offline_wrapper l)))
          <$> drop 5 (seq 0 105))) ∧
  replayed_to 7 (frames_since s1 s2) = drop 5 (seq 0 105) ∧
  queue_of s2 42 = [] ∧
  (∀ s0 u l,
     queue_of (exec (_queue_offline_message u l) s0) u
       = last_n max_queue_size (queue_of s0 u ++ [l]) ∧
     length (queue_of (exec (_queue_offline_message u l) s0) u) ≤ max_queue_size).
Proof.
  apply (C2_offline_queue_keeps_newest quiet_env 42 7 None (seq 0 105) init).
  - intros W w d. reflexivity.
  - intros W w. reflexivity.
  - reflexivity.
  - reflexivity.
Defined.

(** ** Broadcasting when every transport takes every frame *)

Section broadcast_healthy.
Context (env : Env) (Hsend : healthy env).

Lemma delivered_app d ws1 ws2 s :
  delivered d (ws1 ++ ws2) s = delivered d ws2 (delivered d ws1 s).
Proof. apply foldl_app. Qed.

Lemma delivered_active d ws s :
  active_connections (delivered d ws s) = active_connections s.
Proof. revert s. induction ws as [|w ws IH]; intros s; simpl; [done|]. by rewrite IH. Qed.

Lemma delivered_heap d ws s : heap (delivered d ws s) = heap s.
Proof. revert s. induction ws as [|w ws IH]; intros s; simpl; [done|]. by rewrite IH. Qed.

Lemma delivered_wire d ws s :
  wire (world (delivered d ws s)) = wire (world s) ++ frames_to ws d.
Proof.
  revert s. induction ws as [|w ws IH]; intros s; simpl.
  - by rewrite app_nil_r.
  - rewrite IH. simpl. by rewrite <- app_assoc.
Qed.




Lemma dict_get_elem_of (u : UserId) (c : gset WebSocket) items :
  dict_get u items = Some c → (u, c) ∈ items.
Proof.
  induction items as [|[u' c'] rest IH]; simpl; [done|].
  case_decide; [intros [= ->]; subst; left | intros ?; right; auto].
Qed.
End broadcast_healthy.

Lemma broadcast_items_zero env used items message s :
  broadcast_items env used items message (Some 0%Z) s =
  broadcast_items env used items message None s.
Proof.
  revert s. induction items as [|[user_id connections] rest IH]; intros s; [done|].
  cbn [broadcast_items]. change (truthy (Some 0%Z)) with false. cbn [truthy andb].
  unfold bind. destruct (check_dict_size used s) as [[[]|e] s1]; [|done].
  destruct (broadcast_each env user_id message (elements connections) s1)
    as [[[]|e] s2]; [|done].
  apply IH.
Qed.

(** C3.  The user id 0 is not excluded.  The test
    [if exclude_user and user_id == exclude_user] is false for the id 0,
    so that [broadcast_to_all] with [exclude_user = 0] does, in every
    state and with every transport, what it does with no exclusion at
    all.  With users 0 and 5 connected on the transports 7 and 8, a
    broadcast that excludes user 0 sends the message to the connection
    7 of user 0 and then to the connection 8. *)
Theorem C3_exclude_user_zero_is_not_excluded (env : Env) (message : loc) (s : State) :
  broadcast_to_all env message (Some 0%Z) s = broadcast_to_all env message None s ∧
  (let s' := exec (broadcast_to_all quiet_env 2 (Some 0%Z)) two_users in
   let d' := stamped (clock (world two_users)) [("type", VStr "note")] in
   get_active_users two_users = [0%Z; 5%Z] ∧
   conns_of two_users 0 = {[7]} ∧
   frames_since two_users s' = [(7, d'); (8, d')] ∧
   ¬ excluded_from 0 two_users s').
Proof.
  split.
  - unfold broadcast_to_all, try_except, bind, datetime_now, dict_setitem, get_state.
    destruct (heap s !! message) as [d|]; [|done].
    by rewrite broadcast_items_zero.
  - split; [by vm_compute|]. split; [by vm_compute|]. split; [by vm_compute|].
    intros H.
    apply (H 7 (stamped 0 [("type", VStr "note")])).
    + apply (bool_decide_unpack _). vm_compute. exact I.
    + vm_compute. apply list_elem_of_here.
Qed.

(** The loop of [broadcast_to_all] runs over the live registry: when the
    only connection of a user fails, [disconnect] deletes the user's
    entry and the next step of the loop raises; the users that come
    later get nothing.  Here user 1's transport is dead and user 2,
    whose transport is fine, is not sent the broadcast. *)
Example broadcast_stops_after_dead_user :
  frames_since dead_first (exec (broadcast_to_all dying_env 2 None) dead_first) = [] ∧
  get_active_users dead_first = [1%Z; 2%Z] ∧
  get_active_users (exec (broadcast_to_all dying_env 2 None) dead_first) = [2%Z].
Proof. vm_compute. done. Qed.



(** ** The shape of what is sent *)

(** C8, the two messages sent directly.  The frame that confirms a
    connection has
    no top-level ["timestamp"] (the instant is inside its ["data"]), and
    a [pong] has no ["data"]. *)
Lemma C8_confirmation_and_pong_counterexample :
  ¬ all_shaped init (exec (connect quiet_env 7 42 None) init) ∧
  ¬ all_shaped one_user (exec (_handle_ping quiet_env 7 [("type", VStr "ping")]) one_user).
Proof. split; intros H; vm_compute in H; discriminate H. Qed.

Section shape.
Context (env : Env).

Lemma has_shape_stamped now d t v :
  dict_get "type" d = Some (VStr t) →
  dict_get "data" d = Some v →
  is_object v = true →
  has_shape (stamped now d) = true.
Proof.
  intros Ht Hv Hobj. unfold has_shape.
  by rewrite stamped_timestamp, !stamped_other, Ht, Hv.
Qed.

Lemma all_shaped_intro s s' fs :
  wire (world s') = wire (world s) ++ fs →
  Forall (λ f, has_shape f.2 = true) fs →
  all_shaped s s'.
Proof.
  intros Hw Hfs. unfold all_shaped. rewrite (frames_since_app s s' fs Hw).
  apply forallb_forall. intros f Hf%list_elem_of_In.
  by eapply Forall_forall in Hfs.
Qed.

Lemma all_shaped_same_wire s0 s s' :
  wire (world s0) = wire (world s) → all_shaped s0 s' → all_shaped s s'.
Proof. unfold all_shaped, frames_since. by intros ->. Qed.

(** A shaped dictionary, sent by [send_to_user]. *)
Lemma send_to_user_shaped user_id message d t v s :
  heap s !! message = Some d →
  dict_get "type" d = Some (VStr t) →
  dict_get "data" d = Some v →
  is_object v = true →
  all_shaped s (exec (send_to_user env user_id message) s).
Proof.
  intros Hd Ht Hv Hobj.
  destruct (send_to_user_spec env user_id message d s Hd)
    as (oks & _ & _ & Hwire & _).
  eapply all_shaped_intro; [exact Hwire|].
  apply Forall_fmap, Forall_forall. intros w _. simpl.
  by eapply has_shape_stamped.
Qed.

Lemma broadcast_to_all_shaped message exclude_user d t v s :
  heap s !! message = Some d →
  dict_get "type" d = Some (VStr t) →
  dict_get "data" d = Some v →
  is_object v = true →
  all_shaped s (exec (broadcast_to_all env message exclude_user) s).
Proof.
  intros Hd Ht Hv Hobj.
  destruct (broadcast_to_all_spec env message exclude_user d s Hd)
    as (_ & fs & Hwire & Hfs).
  eapply all_shaped_intro; [exact Hwire|].
  eapply Forall_impl; [exact Hfs|]. intros f ->.
  by eapply has_shape_stamped.
Qed.

(** A new shaped dictionary, sent by [send_to_user]. *)
Lemma new_message_shaped user_id d t v s :
  dict_get "type" d = Some (VStr t) →
  dict_get "data" d = Some v →
  is_object v = true →
  all_shaped s
    (exec (let! message := new_dict d in
           let! _ := send_to_user env user_id message in ret ()) s).
Proof.
  intros Ht Hv Hobj. erewrite exec_bind_ok by reflexivity. rewrite exec_bind_ret.
  eapply (all_shaped_same_wire (set_heap (λ h, h ++ [d]) s)); [done|].
  eapply send_to_user_shaped; [|exact Ht|exact Hv|exact Hobj].
  simpl. by rewrite lookup_app_r, Nat.sub_diag by lia.
Qed.

Lemma replay_loop_shaped user_id messages s :
  ∃ fs, wire (world (exec (for_each messages (replay env user_id)) s))
          = wire (world s) ++ fs ∧
        Forall (λ f, has_shape f.2 = true) fs.
Proof.
  revert s. induction messages as [|message rest IH]; intros s; simpl.
  - exists []. by rewrite app_nil_r.
  - rewrite exec_seq by apply replay_succeeds.
    rewrite replay_exec.
    set (s1 := set_heap (λ h, h ++ [offline_wrapper message]) s).
    assert (heap s1 !! length (heap s) = Some (offline_wrapper message)) as Hd.
    { unfold s1. simpl. by rewrite lookup_app_r, Nat.sub_diag by lia. }
    destruct (send_to_user_spec env user_id (length (heap s)) _ s1 Hd)
      as (oks & _ & _ & Hw1 & _).
    destruct (IH (exec (send_to_user env user_id (length (heap s))) s1))
      as (fs2 & Hw2 & Hf2).
    eexists. rewrite Hw2, Hw1, <- app_assoc. split; [done|].
    apply Forall_app. split; [|done].
    apply Forall_fmap, Forall_forall. intros w _. simpl.
    by eapply has_shape_stamped.
Qed.
End shape.

(** C8, for the messages that go through the dispatcher.  Whatever the
    transports do, every frame sent through
    [send_to_user] or [broadcast_to_all] by the manager's own senders -
    [system_notification], [ai_response], [task_notification],
    [calendar_reminder], the replayed [offline_message] and
    [voice_received] - has a string ["type"], an object ["data"] and an
    ISO ["timestamp"] at its top level.  The two messages sent directly
    do not: [connection_confirmed] has ["type"] and ["data"] and no
    top-level ["timestamp"], [pong] has ["type"] and ["timestamp"] and
    no ["data"]. *)
Theorem C8_outbound_message_shape (env : Env) (s : State) :
  (∀ message user_id, all_shaped s (exec (send_system_notification env message user_id) s)) ∧
  (∀ user_id response context,
     all_shaped s (exec (send_ai_response env user_id response context) s)) ∧
  (∀ user_id task_data, all_shaped s (exec (send_task_notification env user_id task_data) s)) ∧
  (∀ user_id event_data,
     all_shaped s (exec (send_calendar_reminder env user_id event_data) s)) ∧
  (∀ user_id, all_shaped s (exec (_send_offline_messages env user_id) s)) ∧
  (∀ user_id data, all_shaped s (exec (_handle_voice_data env user_id data) s)) ∧
  (∀ user_id session_id now,
     dict_get "type" (connection_confirmed user_id session_id now)
       = Some (VStr "connection_confirmed") ∧
     (∃ v, dict_get "data" (connection_confirmed user_id session_id now) = Some v ∧
           is_object v = true) ∧
     dict_get "timestamp" (connection_confirmed user_id session_id now) = None) ∧
  (∀ now,
     dict_get "type" (pong now) = Some (VStr "pong") ∧
     dict_get "data" (pong now) = None ∧
     dict_get "timestamp" (pong now) = Some (VIso now)).
Proof.
  repeat split.
  - intros message user_id. unfold send_system_notification.
    erewrite exec_bind_ok by reflexivity.
    set (d := system_notification message (clock (world s))).
    assert (∀ ou, all_shaped s
              (exec (broadcast_to_all env (length (heap s)) ou)
                 (set_heap (λ h, h ++ [d]) s))) as Hb.
    { intros ou. eapply (all_shaped_same_wire (set_heap (λ h, h ++ [d]) s)); [done|].
      eapply (broadcast_to_all_shaped env _ _ d); [|done..].
      simpl. by rewrite lookup_app_r, Nat.sub_diag by lia. }
    destruct user_id as [u|]; [destruct (truthy (Some u)) eqn:Htruthy|].
    + by eapply new_message_shaped.
    + erewrite exec_bind_ok by reflexivity. apply Hb.
    + erewrite exec_bind_ok by reflexivity. apply Hb.
  - intros user_id response context. unfold send_ai_response.
    erewrite exec_bind_ok by reflexivity. by eapply new_message_shaped.
  - intros user_id task_data. unfold send_task_notification.
    erewrite exec_bind_ok by reflexivity. by eapply new_message_shaped.
  - intros user_id event_data. unfold send_calendar_reminder.
    erewrite exec_bind_ok by reflexivity. by eapply new_message_shaped.
  - intros user_id. rewrite send_offline_messages_exec.
    destruct (offline_messages s !! user_id) as [messages|].
    + destruct (replay_loop_shaped env user_id messages s) as (fs & Hw & Hf).
      by eapply all_shaped_intro.
    + eapply (all_shaped_intro _ _ []); [by rewrite app_nil_r | done].
  - intros user_id data. unfold _handle_voice_data.
    rewrite exec_try_succeeds.
    + erewrite exec_bind_ok by reflexivity. by eapply new_message_shaped.
    + apply succeeds_bind; [apply succeeds_datetime_now | intros now].
      apply succeeds_bind; [apply succeeds_new_dict | intros message].
      apply succeeds_bind; [apply send_to_user_succeeds | intros; apply succeeds_ret].
  - by eexists.
Qed.

(** ** The sweep *)

(** C4, a threshold of 0.  The sweep has no threshold to set to 0:
    a connection that is ten seconds old is still registered after
    it. *)
Lemma C4_young_connection_survives_counterexample :
  ¬ sweeps_older_than 0 ten_seconds_later
      (exec cleanup_inactive_connections ten_seconds_later).
Proof.
  intros H. apply (H 42%Z 7 10000000%Z).
  - apply (bool_decide_unpack _). vm_compute. exact I.
  - vm_compute. reflexivity.
  - lia.
  - apply (bool_decide_unpack _). vm_compute. exact I.
Qed.

Section sweep.
Lemma disconnect_each_spec (L : list (WebSocket * UserId)) s :
  let s' := exec (for_each L (λ p, disconnect p.2 (Some p.1))) s in
  (∀ u w, w ∈ conns_of s' u ↔ w ∈ conns_of s u ∧ (w, u) ∉ L) ∧
  (∀ w, connection_metadata s' !! w =
          if decide (w ∈ L.*1) then None else connection_metadata s !! w).
Proof.
  revert s. induction L as [|[w0 u0] L IH]; intros s.
  - split.
    + intros u w. split; [intros ?; split; [done|apply not_elem_of_nil] | by intros [? _]].
    + intros w. destruct (decide (w ∈ ([] : list (WebSocket * UserId)).*1)) as [Hin|_];
        [by apply elem_of_nil in Hin | done].
  - cbn [for_each]. rewrite exec_seq by apply disconnect_succeeds.
    destruct (IH (exec (disconnect u0 (Some w0)) s)) as [Hc Hm]. split.
    + intros u w. rewrite Hc, disconnect_conns, not_elem_of_cons. cbn [fst snd remaining].
      destruct (decide (u0 = u)) as [->|Hu].
      * rewrite elem_of_difference, elem_of_singleton. split.
        -- intros [[Hw Hne] HL]. repeat split; try done. by intros [= ->].
        -- intros (Hw & Hne & HL). repeat split; try done. intros ->. by apply Hne.
      * split.
        -- intros [Hw HL]. repeat split; try done. by intros [= -> ->].
        -- intros (Hw & Hne & HL). by split.
    + intros w. rewrite Hm, disconnect_metadata. cbn [fst snd].
      rewrite fmap_cons. cbn [fst].
      destruct (decide (w ∈ L.*1)) as [HL|HL].
      * rewrite decide_True; [done | by right].
      * destruct (decide (w = w0)) as [->|Hw].
        -- rewrite lookup_delete_eq, decide_True; [done | left].
        -- rewrite lookup_delete_ne by done.
           rewrite decide_False; [done|]. by intros [?|?]%elem_of_cons.
Qed.

Lemma inactive_connections_elem now (m : gmap WebSocket Metadata) w u :
  (w, u) ∈ inactive_connections now m ↔
    ∃ md, m !! w = Some md ∧ md_user_id md = u ∧
          (one_hour < now - md_connected_at md)%Z.
Proof.
  unfold inactive_connections. rewrite list_elem_of_fmap. split.
  - intros ([w' md] & [= -> ->] & Hin). simpl in *.
    apply list_elem_of_filter in Hin as [Hinact Hin]. simpl in Hinact.
    apply elem_of_map_to_list in Hin. exists md. repeat split; try done.
    unfold inactive in Hinact. by apply bool_decide_eq_true in Hinact.
  - intros (md & Hm & <- & Hage). exists (w, md). split; [done|].
    apply list_elem_of_filter. split.
    + simpl. unfold inactive. by apply bool_decide_eq_true.
    + by apply elem_of_map_to_list.
Qed.

Lemma cleanup_exec s :
  exec cleanup_inactive_connections s =
    exec (for_each (inactive_connections (clock (world s)) (connection_metadata s))
            (λ p, disconnect p.2 (Some p.1))) s.
Proof.
  unfold cleanup_inactive_connections. rewrite exec_try_succeeds.
  - erewrite exec_bind_ok by reflexivity. by erewrite exec_bind_ok by reflexivity.
  - apply succeeds_bind; [apply succeeds_datetime_now | intros now].
    apply succeeds_bind; [apply succeeds_get_state | intros s0].
    apply succeeds_for_each. intros p. apply disconnect_succeeds.
Qed.
End sweep.

(** C4, with the threshold of the code.  The sweep takes no threshold.
    It unregisters exactly
    the connections whose metadata records an establishment more than
    3600 seconds before the sweep, each from the set of the user that
    its metadata names, and drops their metadata; every other
    connection stays registered.  The last activity of the sessions
    plays no part in it. *)
Theorem C4_sweep_by_connection_age (s : State) :
  let s' := exec cleanup_inactive_connections s in
  (∀ u w, w ∈ conns_of s' u ↔
     w ∈ conns_of s u ∧
     ¬ ∃ md, connection_metadata s !! w = Some md ∧ md_user_id md = u ∧
             (3600 * 1000000 < clock (world s) - md_connected_at md)%Z) ∧
  (∀ w, connection_metadata s' !! w =
     match connection_metadata s !! w with
     | Some md => if inactive (clock (world s)) md then None else Some md
     | None => None
     end) ∧
  (∀ g u w, w ∈ conns_of (exec cleanup_inactive_connections (set_sessions g s)) u ↔
     w ∈ conns_of s' u).
Proof.
  intros s'.
  assert (∀ s0 u w, w ∈ conns_of (exec cleanup_inactive_connections s0) u ↔
     w ∈ conns_of s0 u ∧
     ¬ ∃ md, connection_metadata s0 !! w = Some md ∧ md_user_id md = u ∧
             (3600 * 1000000 < clock (world s0) - md_connected_at md)%Z) as Hconns.
  { intros s0 u w. rewrite cleanup_exec.
    destruct (disconnect_each_spec
      (inactive_connections (clock (world s0)) (connection_metadata s0)) s0) as [Hc _].
    rewrite Hc. by rewrite inactive_connections_elem. }
  split; [apply Hconns|]. split.
  - intros w. unfold s'. rewrite cleanup_exec.
    destruct (disconnect_each_spec
      (inactive_connections (clock (world s)) (connection_metadata s)) s) as [_ Hm].
    rewrite Hm.
    destruct (connection_metadata s !! w) as [md|] eqn:E.
    + destruct (inactive (clock (world s)) md) eqn:Hinact.
      * rewrite decide_True; [done|].
        apply list_elem_of_fmap. exists (w, md_user_id md). split; [done|].
        apply inactive_connections_elem. exists md. repeat split; try done.
        unfold inactive in Hinact. by apply bool_decide_eq_true in Hinact.
      * rewrite decide_False; [done|].
        intros ([w' u] & -> & Hin)%list_elem_of_fmap. simpl in *.
        apply inactive_connections_elem in Hin as (md' & Hmd' & _ & Hage).
        rewrite E in Hmd'. injection Hmd' as <-.
        unfold inactive in Hinact. apply bool_decide_eq_false in Hinact. done.
    + by case_decide.
  - intros g u w. unfold s'. by rewrite !Hconns.
Qed.

(** * Further properties *)

(** ** The blocks of [connect] and of [shutdown] *)

Lemma connect_unfold env websocket user_id session_data s :
  connect env websocket user_id session_data s =
    try_except
      (let! p := ws_accept env websocket >> register env websocket user_id session_data in
       confirm_and_flush env websocket user_id p)
      (λ _, disconnect user_id (Some websocket)) s.
Proof.
  unfold connect, register, confirm_and_flush, try_except, bind.
  destruct (ws_accept env websocket s) as [[[]|e] s1]; [|done].
  by destruct (active_getitem user_id s1) as [[c|e] s2].
Qed.

Lemma dict_get_none_nil {K V} `{EqDecision K} (d : list (K * V)) :
  (∀ k, dict_get k d = None) → d = [].
Proof.
  destruct d as [|[k v] r]; [done|]. intros H. specialize (H k).
  simpl in H. by rewrite decide_True in H.
Qed.

Lemma disconnect_users_succeeds (l : list UserId) :
  succeeds (for_each l (λ user_id, disconnect user_id None)).
Proof. apply succeeds_for_each. intros u. apply disconnect_succeeds. Qed.

Lemma disconnect_users_get (l : list UserId) u s :
  dict_get u (active_connections (exec (for_each l (λ user_id, disconnect user_id None)) s)) =
    if decide (u ∈ l) then None else dict_get u (active_connections s).
Proof.
  revert s. induction l as [|v l IH]; intros s; cbn [for_each].
  - rewrite decide_False; [done | apply not_elem_of_nil].
  - rewrite exec_seq by apply disconnect_succeeds. rewrite IH, disconnect_get.
    unfold remaining.
    destruct (decide (u ∈ l)) as [Hin|Hnot].
    + rewrite decide_True; [done | by right].
    + destruct (decide (v = u)) as [->|Hne].
      * rewrite decide_True by done. rewrite decide_True; [done | left].
      * rewrite decide_False; [done|]. intros [->|?]%elem_of_cons; done.
Qed.

Lemma shutdown_exec s :
  exec shutdown s =
    cleared (exec (for_each (dict_keys (active_connections s))
                     (λ user_id, disconnect user_id None)) s).
Proof.
  unfold shutdown. rewrite exec_try_succeeds.
  2:{ apply succeeds_bind; [apply succeeds_get_state | intros s0].
      apply succeeds_bind; [apply disconnect_users_succeeds | intros _; succ_struct]. }
  erewrite exec_bind_ok by reflexivity.
  rewrite exec_seq by apply disconnect_users_succeeds.
  by rewrite !exec_seq by apply succeeds_modify.
Qed.

Lemma shutdown_loop_empty s :
  active_connections (exec (for_each (dict_keys (active_connections s))
                              (λ user_id, disconnect user_id None)) s) = [].
Proof.
  apply dict_get_none_nil. intros u. rewrite disconnect_users_get.
  case_decide as Hin; [done|].
  destruct (dict_get u (active_connections s)) eqn:E; [|done].
  exfalso. apply Hin. apply dict_keys_get. by rewrite E.
Qed.

(** ** What every method keeps

    The methods above [send_to_user] and [connect] only combine them
    with [disconnect] and with primitive changes of the state: a
    property that these keep is kept by every method, and so by every
    sequence of calls. *)

Section dispatch.
Context (env : Env) (P : State → Prop).
Hypothesis P_world : ∀ f s, (∀ w, accepted (f w) = accepted w) → P s → P (set_world f s).
Hypothesis P_heap : ∀ f s, P s → P (set_heap f s).
Hypothesis P_sent : ∀ s, P s → P (set_stats stats_sent s).
Hypothesis P_received : ∀ s, P s → P (set_stats stats_received s).
Hypothesis P_activity : ∀ now u s,
  P s → P (set_sessions (alter (session_activity now) u) s).
Hypothesis P_status : ∀ v now u s,
  P s → P (set_sessions (alter (session_status v now) u) s).
Hypothesis P_disconnect : ∀ u w, preserves P (disconnect u w).
Hypothesis P_send_to_user : ∀ u m, preserves P (send_to_user env u m).
Hypothesis P_connect : ∀ ws u sd, preserves P (connect env ws u sd).
Hypothesis P_cleared : ∀ s, active_connections s = [] → P s → P (cleared s).

Lemma dispatch_new_dict d : preserves P (new_dict d).
Proof. intros s Hs. by apply P_heap. Qed.

Lemma dispatch_dict_setitem message k v : preserves P (dict_setitem message k v).
Proof.
  intros s Hs. unfold exec, dict_setitem.
  destruct (heap s !! message); [by apply P_heap | done].
Qed.

Lemma dispatch_send_to_connection websocket message :
  preserves P (_send_to_connection env websocket message).
Proof.
  unfold _send_to_connection. pres_struct; pres_prim; by apply P_world.
Qed.

Lemma dispatch_broadcast_each user_id message connections_copy :
  preserves P (broadcast_each env user_id message connections_copy).
Proof.
  unfold broadcast_each. apply preserves_for_each. intros websocket.
  apply preserves_try_except.
  - apply preserves_bind; [apply dispatch_send_to_connection | intros _].
    apply preserves_modify, P_sent.
  - intros e. destruct e; apply P_disconnect.
Qed.

Lemma dispatch_broadcast_items used items message exclude_user :
  preserves P (broadcast_items env used items message exclude_user).
Proof.
  induction items as [|[user_id connections] rest IH]; simpl.
  - apply preserves_bind; [by pres_prim | intros; apply preserves_ret].
  - apply preserves_bind; [by pres_prim | intros _].
    destruct (truthy exclude_user && bool_decide (exclude_user = Some user_id));
      [apply IH|].
    apply preserves_bind; [apply dispatch_broadcast_each | intros _; apply IH].
Qed.

Lemma dispatch_broadcast_to_all message exclude_user :
  preserves P (broadcast_to_all env message exclude_user).
Proof.
  unfold broadcast_to_all.
  apply preserves_try_except; [|intros; apply preserves_ret].
  apply preserves_bind; [apply preserves_datetime_now | intros now].
  apply preserves_bind; [apply dispatch_dict_setitem | intros _].
  apply preserves_bind; [apply preserves_get_state | intros s0].
  apply dispatch_broadcast_items.
Qed.

Lemma dispatch_new_message {A} (d : Z → PyDict) (k : loc → M A) :
  (∀ message, preserves P (k message)) →
  preserves P (let! now := datetime_now in let! message := new_dict (d now) in k message).
Proof.
  intros Hk. apply preserves_bind; [apply preserves_datetime_now | intros now].
  apply preserves_bind; [apply dispatch_new_dict | apply Hk].
Qed.

Lemma dispatch_send_and_forget user_id message :
  preserves P (let! _ := send_to_user env user_id message in ret ()).
Proof. apply preserves_bind; [apply P_send_to_user | intros; apply preserves_ret]. Qed.

Lemma dispatch_handle_ping websocket data : preserves P (_handle_ping env websocket data).
Proof.
  unfold _handle_ping. apply preserves_try_except; [|intros; apply preserves_ret].
  apply dispatch_new_message. intros reply. apply dispatch_send_to_connection.
Qed.

Lemma dispatch_handle_typing user_id data : preserves P (_handle_typing user_id data).
Proof.
  unfold _handle_typing. apply preserves_try_except; [|intros; apply preserves_ret].
  apply preserves_bind; [apply preserves_datetime_now | intros now].
  apply preserves_bind; [apply dispatch_new_dict | intros; apply preserves_ret].
Qed.

Lemma dispatch_handle_voice_data user_id data :
  preserves P (_handle_voice_data env user_id data).
Proof.
  unfold _handle_voice_data. apply preserves_try_except; [|intros; apply preserves_ret].
  apply dispatch_new_message. intros message. apply dispatch_send_and_forget.
Qed.

Lemma dispatch_handle_user_status user_id data :
  preserves P (_handle_user_status user_id data).
Proof.
  unfold _handle_user_status. apply preserves_try_except; [|intros; apply preserves_ret].
  apply preserves_bind; [apply preserves_datetime_now | intros now].
  apply preserves_modify, P_status.
Qed.

Lemma dispatch_handle_message websocket message :
  preserves P (handle_message env websocket message).
Proof.
  unfold handle_message.
  apply preserves_try_except; [|intros; apply preserves_ret].
  destruct (json_loads env message) as [data|]; [|apply preserves_raise].
  apply preserves_bind; [apply preserves_get_state | intros s0].
  destruct (connection_metadata s0 !! websocket) as [connection_info|];
    [|apply preserves_ret].
  apply preserves_bind; [apply preserves_modify, P_received | intros _].
  apply preserves_bind; [apply preserves_datetime_now | intros now].
  apply preserves_bind; [apply preserves_modify, P_activity | intros _].
  destruct data; try apply preserves_raise.
  destruct (dict_get "type" d) as [[]|]; try apply preserves_ret.
  repeat case_match; auto using dispatch_handle_ping, dispatch_handle_typing,
    dispatch_handle_voice_data, dispatch_handle_user_status, preserves_ret.
Qed.

Lemma dispatch_send_system_notification message user_id :
  preserves P (send_system_notification env message user_id).
Proof.
  unfold send_system_notification. apply dispatch_new_message. intros notification.
  destruct user_id as [u|]; [destruct (truthy (Some u))|];
    try apply dispatch_broadcast_to_all.
  apply dispatch_send_and_forget.
Qed.

Lemma dispatch_send_ai_response user_id response context :
  preserves P (send_ai_response env user_id response context).
Proof.
  unfold send_ai_response.
  apply (dispatch_new_message (ai_response response context)).
  intros message. apply dispatch_send_and_forget.
Qed.

Lemma dispatch_send_task_notification user_id task_data :
  preserves P (send_task_notification env user_id task_data).
Proof.
  unfold send_task_notification.
  apply (dispatch_new_message (task_notification task_data)).
  intros message. apply dispatch_send_and_forget.
Qed.

Lemma dispatch_send_calendar_reminder user_id event_data :
  preserves P (send_calendar_reminder env user_id event_data).
Proof.
  unfold send_calendar_reminder.
  apply (dispatch_new_message (calendar_reminder event_data)).
  intros message. apply dispatch_send_and_forget.
Qed.

Lemma dispatch_cleanup : preserves P cleanup_inactive_connections.
Proof.
  unfold cleanup_inactive_connections.
  apply preserves_try_except; [|intros; apply preserves_ret].
  apply preserves_bind; [apply preserves_datetime_now | intros now].
  apply preserves_bind; [apply preserves_get_state | intros s0].
  apply preserves_for_each. intros p. apply P_disconnect.
Qed.

Lemma dispatch_shutdown : preserves P shutdown.
Proof.
  intros s Hs. rewrite shutdown_exec. apply P_cleared; [apply shutdown_loop_empty|].
  apply preserves_for_each; [intros u; apply P_disconnect | done].
Qed.

Lemma dispatch_step o s : P s → P (step env o s).
Proof.
  destruct o; simpl.
  - apply P_connect.
  - apply P_disconnect.
  - apply P_send_to_user.
  - apply dispatch_broadcast_to_all.
  - apply dispatch_send_and_forget.
  - apply dispatch_handle_message.
  - apply dispatch_send_system_notification.
  - apply dispatch_send_ai_response.
  - apply dispatch_send_task_notification.
  - apply dispatch_send_calendar_reminder.
  - apply dispatch_cleanup.
  - apply dispatch_shutdown.
  - apply dispatch_new_dict.
  - apply dispatch_dict_setitem.
  - by apply P_world.
Qed.

Lemma dispatch_run_ops ops s : P s → P (run_ops env ops s).
Proof.
  revert s. induction ops as [|o ops IH]; intros s Hs; simpl; [done|].
  apply IH, dispatch_step, Hs.
Qed.
End dispatch.

(** [send_to_user] and [connect] themselves keep a property that the
    primitive changes keep, with the changes of a queue that they make
    and the registration. *)

Section kept.
Context (env : Env) (P : State → Prop).
Hypothesis P_world : ∀ f s, (∀ w, accepted (f w) = accepted w) → P s → P (set_world f s).
Hypothesis P_heap : ∀ f s, P s → P (set_heap f s).
Hypothesis P_sent : ∀ s, P s → P (set_stats stats_sent s).
Hypothesis P_received : ∀ s, P s → P (set_stats stats_received s).
Hypothesis P_queue : ∀ u q s,
  length q ≤ max_queue_size → P s → P (set_offline (<[u := q]>) s).
Hypothesis P_activity : ∀ now u s,
  P s → P (set_sessions (alter (session_activity now) u) s).
Hypothesis P_status : ∀ v now u s,
  P s → P (set_sessions (alter (session_status v now) u) s).
Hypothesis P_disconnect : ∀ u w, preserves P (disconnect u w).
Hypothesis P_register : ∀ ws u sd,
  preserves P (ws_accept env ws >> register env ws u sd).
Hypothesis P_cleared : ∀ s, active_connections s = [] → P s → P (cleared s).

Lemma kept_queue_offline_message user_id message :
  preserves P (_queue_offline_message user_id message).
Proof.
  intros s Hs. unfold exec. rewrite queue_offline_run. apply P_queue; [|done].
  by destruct (enqueue_suffix (queue_of s user_id) message) as (? & _ & _ & _ & ?).
Qed.

Lemma kept_send_each user_id message connections sent :
  preserves P (send_each env user_id message connections sent).
Proof.
  revert sent. induction connections as [|ws rest IH]; intros sent; simpl.
  - apply preserves_ret.
  - apply preserves_bind; [|intros ?; apply IH].
    apply preserves_try_except.
    + apply preserves_bind; [|intros; apply preserves_ret].
      by apply dispatch_send_to_connection.
    + intros e. destruct e;
        (apply preserves_bind; [apply P_disconnect | intros; apply preserves_ret]).
Qed.

Lemma kept_send_to_user user_id message :
  preserves P (send_to_user env user_id message).
Proof.
  unfold send_to_user.
  apply preserves_try_except; [|intros; apply preserves_ret].
  apply preserves_bind; [apply preserves_datetime_now | intros now].
  apply preserves_bind; [by apply dispatch_dict_setitem | intros _].
  apply preserves_get_state_bind. intros s Hs.
  assert (preserves P (_queue_offline_message user_id message >> ret false)) as Hq.
  { apply preserves_bind; [apply kept_queue_offline_message | intros; apply preserves_ret]. }
  destruct (dict_has user_id (active_connections s)) eqn:Hhas; [|by apply Hq].
  apply dict_has_get in Hhas.
  erewrite exec_bind_ok
    by (rewrite active_getitem_touch, touch_present by done; reflexivity).
  revert s Hs Hhas.
  match goal with |- ∀ s, _ → _ → P (exec ?m s) =>
    cut (∀ c : gset nat, preserves P
      (let! sent_successfully := send_each env user_id message (elements c) false in
       if sent_successfully : bool
       then modify (set_stats stats_sent) >> ret true
       else _queue_offline_message user_id message >> ret false))
  end.
  { intros Hc s Hs _. by apply Hc. }
  intros c. apply preserves_bind; [apply kept_send_each | intros [|]]; [|done].
  apply preserves_bind; [|intros; apply preserves_ret].
  apply preserves_modify, P_sent.
Qed.

Lemma kept_send_offline_messages user_id :
  preserves P (_send_offline_messages env user_id).
Proof.
  unfold _send_offline_messages.
  apply preserves_try_except; [|intros; apply preserves_ret].
  apply preserves_bind; [apply preserves_get_state | intros s0].
  destruct (offline_messages s0 !! user_id) as [messages|]; [|apply preserves_ret].
  apply preserves_bind.
  - apply preserves_for_each. intros message.
    apply preserves_bind; [by apply dispatch_new_dict | intros wrapper].
    apply preserves_bind; [apply kept_send_to_user | intros; apply preserves_ret].
  - intros _. apply preserves_modify. intros s Hs. apply P_queue; [simpl; lia | done].
Qed.

Lemma kept_connect websocket user_id session_data :
  preserves P (connect env websocket user_id session_data).
Proof.
  intros s Hs. unfold exec. rewrite connect_unfold.
  revert s Hs. apply preserves_try_except; [|intros; apply P_disconnect].
  apply preserves_bind; [apply P_register | intros p].
  unfold confirm_and_flush.
  apply preserves_bind; [by apply dispatch_new_dict | intros confirmation].
  apply preserves_bind; [by apply dispatch_send_to_connection | intros _].
  apply kept_send_offline_messages.
Qed.

Lemma kept_handle_ping websocket data : preserves P (_handle_ping env websocket data).
Proof. by apply dispatch_handle_ping. Qed.

Lemma kept_handle_typing user_id data : preserves P (_handle_typing user_id data).
Proof. by apply dispatch_handle_typing. Qed.

Lemma kept_handle_voice_data user_id data :
  preserves P (_handle_voice_data env user_id data).
Proof. apply dispatch_handle_voice_data; [done | apply kept_send_to_user]. Qed.

Lemma kept_handle_user_status user_id data :
  preserves P (_handle_user_status user_id data).
Proof. by apply dispatch_handle_user_status. Qed.

Lemma kept_run_ops ops s : P s → P (run_ops env ops s).
Proof.
  apply dispatch_run_ops; try done; [apply kept_send_to_user | apply kept_connect].
Qed.
End kept.

(** ** What [disconnect] and the registration change *)

Section blocks.
Context (env : Env).

Lemma disconnect_blind_keeps P user_id websocket :
  disconnect_blind P → preserves P (disconnect user_id websocket).
Proof.
  intros HP. unfold disconnect.
  destruct websocket as [ws|]; pres_struct;
    try (pres_prim; eapply HP; [..|eassumption]; done).
  all: intros s Hs; unfold exec, modify; simpl;
    eapply HP; [..|eassumption]; try done.
  all: unfold update_session_on_disconnect; repeat case_match; done.
Qed.

Lemma close_loop_metadata (l : list WebSocket) w s :
  connection_metadata (exec (for_each l (λ conn,
      try_except (ws_close conn) (λ _, ret ()) >>
      modify (set_metadata (delete conn)))) s) !! w =
    if decide (w ∈ l) then None else connection_metadata s !! w.
Proof.
  revert s. induction l as [|v l IH]; intros s; cbn [for_each].
  - rewrite decide_False; [done | apply not_elem_of_nil].
  - rewrite exec_seq by succ_struct. rewrite IH.
    destruct (decide (w ∈ l)) as [Hin|Hnot].
    + rewrite decide_True; [done | by right].
    + destruct (decide (w = v)) as [->|Hne].
      * rewrite decide_True by left. simpl. apply lookup_delete_eq.
      * rewrite decide_False by (intros [->|?]%elem_of_cons; done).
        simpl. by rewrite lookup_delete_ne.
Qed.

Lemma close_loop_closed (l : list WebSocket) s :
  closed (world (exec (for_each l (λ conn,
      try_except (ws_close conn) (λ _, ret ()) >>
      modify (set_metadata (delete conn)))) s)) = closed (world s) ++ l.
Proof.
  revert s. induction l as [|v l IH]; intros s; cbn [for_each].
  - by rewrite app_nil_r.
  - rewrite exec_seq by succ_struct. rewrite IH. simpl. by rewrite <- app_assoc.
Qed.

Lemma touch_metadata user_id s :
  connection_metadata (touch user_id s) = connection_metadata s.
Proof. unfold touch. by case_match. Qed.

(** The metadata after [disconnect(user_id)]: that of the user's
    connections is gone. *)
Lemma disconnect_all_metadata user_id w s :
  connection_metadata (exec (disconnect user_id None) s) !! w =
    if decide (w ∈ conns_of s user_id) then None else connection_metadata s !! w.
Proof.
  rewrite disconnect_exec. simpl.
  rewrite update_session_metadata, drop_empty_metadata, disconnect_branch_none. simpl.
  rewrite close_loop_metadata, touch_metadata.
  destruct (decide (w ∈ elements (conns_of s user_id))) as [Hin|Hnot].
  - rewrite decide_True; [done | by apply elem_of_elements].
  - rewrite decide_False; [done | by rewrite <- elem_of_elements].
Qed.

Lemma disconnect_stats user_id websocket s :
  connection_stats (exec (disconnect user_id websocket) s) =
    stats_active (count_connections (exec (disconnect user_id websocket) s))
      (connection_stats s).
Proof.
  rewrite disconnect_exec. simpl. f_equal.
  assert (∀ s0, connection_stats
            (exec (disconnect_branch user_id websocket) s0) = connection_stats s0) as Hb.
  { intros s0. destruct websocket as [ws|].
    - rewrite disconnect_branch_some. simpl.
      destruct (bool_decide _); simpl; unfold touch; by case_match.
    - rewrite disconnect_branch_none. simpl.
      pose (Q := λ s' : State, connection_stats s' = connection_stats (touch user_id s0)).
      assert (Q (exec (for_each (elements (conns_of s0 user_id)) (λ conn,
                 try_except (ws_close conn) (λ _, ret ()) >>
                 modify (set_metadata (delete conn)))) (touch user_id s0))) as HQ.
      { apply (preserves_for_each Q); [|done]. intros x. pres_struct; by pres_prim. }
      rewrite HQ. unfold touch. by case_match. }
  assert (∀ s0, connection_stats (exec (drop_empty user_id) s0) = connection_stats s0) as Hd.
  { intros s0. unfold drop_empty, exec, bind. rewrite active_getitem_touch.
    destruct (bool_decide _); simpl; unfold touch; by case_match. }
  assert (∀ s0, connection_stats (update_session_on_disconnect user_id s0)
                = connection_stats s0) as Hu.
  { intros s0. unfold update_session_on_disconnect. by repeat case_match. }
  by rewrite Hu, Hd, Hb.
Qed.

(** The registration of [connect]: a refused handshake changes
    nothing; after an accepted one the connection is in the user's set,
    with its metadata, the session and the statistics. *)
Lemma register_refused websocket user_id session_data s :
  accept_ok env (world s) websocket = false →
  (ws_accept env websocket >> register env websocket user_id session_data) s =
    (Raise OtherError, set_world world_io s).
Proof. intros Hacc. unfold bind, ws_accept. by rewrite Hacc. Qed.

Lemma register_accepted websocket user_id session_data s :
  accept_ok env (world s) websocket = true →
  ∃ s',
    (ws_accept env websocket >> register env websocket user_id session_data) s =
      (Ok (clock (world s), uuid4 env (S (io_calls (world s)))), s') ∧
    (∀ u, dict_get u (active_connections s') =
       if decide (user_id = u) then Some ({[websocket]} ∪ conns_of s user_id)
       else dict_get u (active_connections s)) ∧
    connection_metadata s' =
      <[websocket := {| md_user_id := user_id; md_connected_at := clock (world s);
                        md_session_id := uuid4 env (S (io_calls (world s)));
                        md_session_data := or_empty session_data |}]>
        (connection_metadata s) ∧
    user_sessions s' =
      <[user_id := {| us_user_id := user_id; us_last_activity := clock (world s);
                      us_active_connections := size ({[websocket]} ∪ conns_of s user_id);
                      us_session_data := or_empty session_data;
                      us_status := None |}]> (user_sessions s) ∧
    connection_stats s' = stats_connected (count_connections s') (connection_stats s) ∧
    offline_messages s' = offline_messages s ∧
    heap s' = heap s ∧
    world s' = world_io (world_accept websocket (world s)).
Proof.
  intros Hacc. eexists. split.
  { unfold register, bind, ws_accept. rewrite Hacc, active_getitem_touch.
    simpl. rewrite touch_world. simpl. reflexivity. }
  simpl. repeat split.
  - intros u. rewrite dict_get_set. case_decide; [done|].
    by rewrite touch_get, decide_False.
  - by rewrite touch_metadata.
  - rewrite touch_sessions. unfold conns_of at 1. simpl. by rewrite dict_get_set_eq.
  - unfold touch. by case_match.
  - by rewrite touch_offline.
  - unfold touch. by case_match.
  - by rewrite touch_world.
Qed.
End blocks.

(** ** Invariants of the bookkeeping *)

Section invariants.
Context (env : Env).

Lemma stats_accurate_run ops : stats_accurate (run_ops env ops init).
Proof.
  apply (kept_run_ops env stats_accurate); try done.
  - intros u w s _. unfold stats_accurate. by rewrite disconnect_stats.
  - intros ws u sd s Hs. unfold exec.
    destruct (accept_ok env (world s) ws) eqn:Hacc.
    + destruct (register_accepted env ws u sd s Hacc) as (s' & Hrun & _ & _ & _ & Hst & _).
      rewrite Hrun. unfold stats_accurate. simpl. by rewrite Hst.
    + by rewrite register_refused.
  - intros s Hnil Hs. unfold stats_accurate, count_connections in *.
    simpl. by rewrite Hnil in Hs.
Qed.

Lemma handshakes_counted_blind : disconnect_blind handshakes_counted.
Proof.
  intros s s' _ _ _ _ Ha Ht _ _. unfold handshakes_counted. by rewrite Ha, Ht.
Qed.

Lemma handshakes_counted_run ops : handshakes_counted (run_ops env ops init).
Proof.
  apply (kept_run_ops env handshakes_counted); try done.
  - intros f s Hf Hs. unfold handshakes_counted in *. simpl. by rewrite Hf.
  - intros u w. apply disconnect_blind_keeps, handshakes_counted_blind.
  - intros ws u sd s Hs. unfold exec.
    destruct (accept_ok env (world s) ws) eqn:Hacc.
    + destruct (register_accepted env ws u sd s Hacc)
        as (s' & Hrun & _ & _ & _ & Hst & _ & _ & Hw).
      rewrite Hrun. unfold handshakes_counted in *. simpl.
      rewrite Hst, Hw. simpl. rewrite length_app. simpl. lia.
    + by rewrite register_refused.
Qed.

Lemma queues_bounded_blind : disconnect_blind queues_bounded.
Proof. intros s s' _ Ho _ _ _ _ _ _. unfold queues_bounded. by rewrite Ho. Qed.

Lemma queues_bounded_run ops : queues_bounded (run_ops env ops init).
Proof.
  apply (kept_run_ops env queues_bounded); try done.
  - intros u q s Hq Hs v q'. simpl.
    destruct (decide (u = v)) as [->|Hne].
    + rewrite lookup_insert_eq. by intros [= <-].
    + rewrite lookup_insert_ne by done. apply Hs.
  - intros u w. apply disconnect_blind_keeps, queues_bounded_blind.
  - intros ws u sd s Hs. unfold exec.
    destruct (accept_ok env (world s) ws) eqn:Hacc.
    + destruct (register_accepted env ws u sd s Hacc)
        as (s' & Hrun & _ & _ & _ & _ & Ho & _).
      rewrite Hrun. unfold queues_bounded. simpl. by rewrite Ho.
    + by rewrite register_refused.
Qed.

Lemma metadata_registered_run ops : metadata_registered (run_ops env ops init).
Proof.
  apply (kept_run_ops env metadata_registered); try done.
  - intros u [ws|] s Hs w md.
    + rewrite disconnect_metadata, disconnect_conns.
      intros Hmd. apply lookup_delete_Some in Hmd as [Hne Hmd].
      specialize (Hs w md Hmd).
      case_decide; [|done]. subst u. simpl. set_solver.
    + rewrite disconnect_all_metadata, disconnect_conns.
      case_decide as Hin; [done|]. intros Hmd. specialize (Hs w md Hmd).
      case_decide; [|done]. by subst u.
  - intros ws u sd s Hs. unfold exec.
    destruct (accept_ok env (world s) ws) eqn:Hacc; [|by rewrite register_refused].
    destruct (register_accepted env ws u sd s Hacc) as (s' & Hrun & Hget & Hmd & _).
    rewrite Hrun. intros w md. simpl. rewrite Hmd. unfold conns_of at 1. rewrite Hget.
    destruct (decide (ws = w)) as [->|Hne].
    + rewrite lookup_insert_eq. intros [= <-]. simpl.
      rewrite decide_True by done. simpl. set_solver.
    + rewrite lookup_insert_ne by done. intros Hw. specialize (Hs w md Hw).
      case_decide; [|done]. simpl. subst u. set_solver.
Qed.

Lemma sessions_accurate_run ops : sessions_accurate (run_ops env ops init).
Proof.
  apply (kept_run_ops env sessions_accurate); try done.
  - intros now u s Hs v x. simpl. rewrite lookup_alter.
    case_decide; [subst v|apply Hs].
    destruct (user_sessions s !! u) as [y|] eqn:E; [|done].
    intros [= <-]. apply (Hs u y E).
  - intros val now u s Hs v x. simpl. rewrite lookup_alter.
    case_decide; [subst v|apply Hs].
    destruct (user_sessions s !! u) as [y|] eqn:E; [|done].
    intros [= <-]. apply (Hs u y E).
  - intros u w s Hs v x. rewrite disconnect_sessions, disconnect_conns.
    case_decide; [subst v|apply Hs].
    case_decide; [done|].
    destruct (user_sessions s !! u) as [y|] eqn:E; [|done].
    intros [= <-]. simpl. split; [apply (Hs u y E) | done].
  - intros ws u sd s Hs. unfold exec.
    destruct (accept_ok env (world s) ws) eqn:Hacc; [|by rewrite register_refused].
    destruct (register_accepted env ws u sd s Hacc) as (s' & Hrun & Hget & _ & Hse & _).
    assert (∀ v, conns_of s' v =
              if decide (u = v) then {[ws]} ∪ conns_of s u else conns_of s v) as Hc.
    { intros v. unfold conns_of at 1. rewrite Hget. by case_decide. }
    rewrite Hrun. intros v x. simpl. rewrite Hse, Hc.
    destruct (decide (u = v)) as [->|Hne].
    + rewrite lookup_insert_eq. by intros [= <-].
    + rewrite lookup_insert_ne by done. apply Hs.
Qed.
End invariants.

Lemma stat_active_connections_eq s :
  stat "active_connections" s = Z.of_nat (stat_active_connections (connection_stats s)).
Proof. reflexivity. Qed.

Lemma stat_total_active_connections_eq s :
  stat "total_active_connections" s = Z.of_nat (count_connections s).
Proof. reflexivity. Qed.

Lemma stat_total_connections_eq s :
  stat "total_connections" s = Z.of_nat (total_connections (connection_stats s)).
Proof. reflexivity. Qed.

Lemma stat_active_users_eq s :
  stat "active_users" s = Z.of_nat (length (active_connections s)).
Proof. reflexivity. Qed.

Lemma stat_offline_message_queues_eq s :
  stat "offline_message_queues" s = Z.of_nat (size (offline_messages s)).
Proof. reflexivity. Qed.

Lemma stat_total_offline_messages_eq s :
  stat "total_offline_messages" s = Z.of_nat (count_queued s).
Proof. reflexivity. Qed.

Lemma sum_list_bounded (l : list nat) n :
  Forall (λ x, x ≤ n) l → sum_list l ≤ n * length l.
Proof. induction 1 as [|x l Hx _ IH]; simpl; lia. Qed.

Lemma count_queued_bounded s :
  queues_bounded s → count_queued s ≤ max_queue_size * size (offline_messages s).
Proof.
  intros Hs. unfold count_queued.
  rewrite <- length_map_to_list, <- (length_fmap snd), <- (length_fmap length).
  apply sum_list_bounded, Forall_fmap, Forall_fmap, Forall_forall.
  intros [u q] Hin. apply elem_of_map_to_list in Hin. simpl. by apply (Hs u q).
Qed.

(** X1. After every sequence of calls, and whatever the transports do,
    the statistic [active_connections] is the number of connections in
    the registry: in the report of [get_connection_stats] the entries
    ["active_connections"] and ["total_active_connections"] are
    equal. *)
Theorem X1_active_connections_statistic (env : Env) (ops : list op) :
  let s := run_ops env ops init in
  stat_active_connections (connection_stats s) = count_connections s ∧
  stat "active_connections" s = stat "total_active_connections" s.
Proof.
  intros s. pose proof (stats_accurate_run env ops) as Hs. fold s in Hs.
  split; [done|].
  by rewrite stat_active_connections_eq, stat_total_active_connections_eq, Hs.
Qed.

(** X2. After every sequence of calls the statistic [total_connections]
    is the number of handshakes that transports accepted: [connect]
    counts a connection once its [accept] returned, also when the
    connection is torn down at once, and nothing else changes the
    count. *)
Theorem X2_total_connections_counts_handshakes (env : Env) (ops : list op) :
  let s := run_ops env ops init in
  total_connections (connection_stats s) = length (accepted (world s)) ∧
  stat "total_connections" s = Z.of_nat (length (accepted (world s))).
Proof.
  intros s. pose proof (handshakes_counted_run env ops) as Hs. fold s in Hs.
  split; [done|]. by rewrite stat_total_connections_eq, Hs.
Qed.

(** X3. After every sequence of calls no offline queue holds more than
    100 messages, so the report's ["total_offline_messages"] is at most
    100 times its ["offline_message_queues"]. *)
Theorem X3_offline_queues_bounded (env : Env) (ops : list op) (u : UserId) :
  let s := run_ops env ops init in
  length (queue_of s u) ≤ 100 ∧
  (stat "total_offline_messages" s ≤ 100 * stat "offline_message_queues" s)%Z.
Proof.
  intros s. pose proof (queues_bounded_run env ops) as Hs. fold s in Hs. split.
  - unfold queue_of. destruct (offline_messages s !! u) as [q|] eqn:E; simpl; [|lia].
    apply (Hs u q E).
  - rewrite stat_total_offline_messages_eq, stat_offline_message_queues_eq.
    pose proof (count_queued_bounded s Hs) as Hc. unfold max_queue_size in Hc. lia.
Qed.

(** X4. After every sequence of calls a connection that has metadata is
    registered for the user that its metadata names, and that user is
    among the active users and has a session: [handle_message] never
    meets a known connection without a session to refresh, and the
    sweep never disconnects a connection from a set it is not in. *)
Theorem X4_metadata_names_registered_user (env : Env) (ops : list op)
    (w : WebSocket) (md : Metadata) :
  let s := run_ops env ops init in
  connection_metadata s !! w = Some md →
  w ∈ conns_of s (md_user_id md) ∧
  md_user_id md ∈ get_active_users s ∧
  is_Some (get_user_session (md_user_id md) s).
Proof.
  intros s Hmd.
  pose proof (metadata_registered_run env ops w md Hmd) as Hw. fold s in Hw.
  assert (registry_inv s) as Hinv by apply run_ops_inv, init_inv.
  assert (0 < get_user_connection_count (md_user_id md) s) as Hpos.
  { unfold get_user_connection_count.
    assert (size (conns_of s (md_user_id md)) ≠ 0); [|lia].
    apply size_non_empty_iff. set_solver. }
  split; [done|]. split.
  - by apply inv_active_count.
  - by apply inv_session_count.
Qed.

(** X5. After every sequence of calls the session that
    [get_user_session] returns for a user names that user and its
    [active_connections] is the user's [get_user_connection_count],
    which is at least 1. *)
Theorem X5_session_counts_connections (env : Env) (ops : list op)
    (u : UserId) (x : Session) :
  let s := run_ops env ops init in
  get_user_session u s = Some x →
  us_user_id x = u ∧
  us_active_connections x = get_user_connection_count u s ∧
  0 < us_active_connections x.
Proof.
  intros s Hx.
  destruct (sessions_accurate_run env ops u x Hx) as [Hu Hn]. fold s in Hn.
  assert (registry_inv s) as Hinv by apply run_ops_inv, init_inv.
  split; [done|]. split; [done|]. rewrite Hn.
  apply (inv_session_count s u Hinv). by rewrite Hx.
Qed.

Lemma X4_metadata_names_registered_user_witness :
  let s := run_ops quiet_env [Connect 7 42 None] init in
  7 ∈ conns_of s 42 ∧ 42%Z ∈ get_active_users s ∧ is_Some (get_user_session 42 s).
Proof.
  apply (X4_metadata_names_registered_user quiet_env [Connect 7 42 None] 7
           {| md_user_id := 42; md_connected_at := 0;
              md_session_id := "00000000-0000-4000-8000-000000000000";
              md_session_data := [] |}).
  vm_compute. reflexivity.
Defined.

Lemma X5_session_counts_connections_witness :
  let s := run_ops quiet_env [Connect 7 42 None] init in
  let x := {| us_user_id := 42; us_last_activity := 0; us_active_connections := 1;
              us_session_data := []; us_status := None |} in
  us_user_id x = 42%Z ∧
  us_active_connections x = get_user_connection_count 42 s ∧
  0 < us_active_connections x.
Proof.
  apply (X5_session_counts_connections quiet_env [Connect 7 42 None] 42).
  vm_compute. reflexivity.
Defined.

(** ** Unregistering *)

Section unregister.
Lemma update_session_world user_id s :
  world (update_session_on_disconnect user_id s) = world s.
Proof. unfold update_session_on_disconnect. by repeat case_match. Qed.

Lemma drop_empty_world user_id s : world (exec (drop_empty user_id) s) = world s.
Proof.
  unfold drop_empty, exec, bind. rewrite active_getitem_touch.
  destruct (bool_decide _); simpl; apply touch_world.
Qed.

Lemma disconnect_world user_id websocket s :
  world (exec (disconnect user_id websocket) s) =
    world (exec (disconnect_branch user_id websocket) s).
Proof.
  rewrite disconnect_exec. simpl. by rewrite update_session_world, drop_empty_world.
Qed.

Lemma disconnect_one_closed user_id ws s :
  closed (world (exec (disconnect user_id (Some ws)) s)) = closed (world s) ++ [ws].
Proof.
  rewrite disconnect_world, disconnect_branch_some. simpl.
  destruct (bool_decide _); simpl; by rewrite touch_world.
Qed.

Lemma disconnect_all_closed user_id s :
  closed (world (exec (disconnect user_id None) s)) =
    closed (world s) ++ elements (conns_of s user_id).
Proof.
  rewrite disconnect_world, disconnect_branch_none. simpl.
  by rewrite close_loop_closed, touch_world.
Qed.

Lemma disconnect_frames user_id websocket s :
  frames_since s (exec (disconnect user_id websocket) s) = [].
Proof. apply frames_since_app. by rewrite disconnect_wire, app_nil_r. Qed.

Lemma dict_del_set_absent {K V} `{EqDecision K} (k : K) (v : V) d :
  dict_get k d = None → dict_del k (dict_set k v d) = d.
Proof.
  induction d as [|[k' v'] r IH]; simpl.
  - by rewrite decide_True.
  - case_decide; [done|]. intros Hr. simpl. rewrite decide_False by done.
    by rewrite IH.
Qed.
End unregister.

(** X6. [disconnect(user_id, websocket)] never raises.  It takes the
    connection out of that user's set and out of no other, deletes the
    connection's metadata (whichever user the metadata names), calls
    [close] on it once, sends nothing and leaves the offline queues
    alone; a user that had the connection has one connection less. *)
Theorem X6_disconnect_one_connection (user_id : UserId) (ws : WebSocket) (s : State) :
  let s' := exec (disconnect user_id (Some ws)) s in
  result (disconnect user_id (Some ws)) s = Ok () ∧
  conns_of s' user_id = conns_of s user_id ∖ {[ws]} ∧
  (ws ∈ conns_of s user_id →
     S (get_user_connection_count user_id s') = get_user_connection_count user_id s) ∧
  (∀ u, u ≠ user_id →
     dict_get u (active_connections s') = dict_get u (active_connections s) ∧
     user_sessions s' !! u = user_sessions s !! u) ∧
  connection_metadata s' = delete ws (connection_metadata s) ∧
  closed (world s') = closed (world s) ++ [ws] ∧
  frames_since s s' = [] ∧
  offline_messages s' = offline_messages s.
Proof.
  intros s'. unfold s'.
  assert (conns_of (exec (disconnect user_id (Some ws)) s) user_id
          = conns_of s user_id ∖ {[ws]}) as Hc.
  { rewrite disconnect_conns, decide_True by done. done. }
  split; [apply disconnect_result|]. split; [done|]. split.
  { intros Hin. unfold get_user_connection_count. rewrite Hc.
    assert (conns_of s user_id = {[ws]} ∪ conns_of s user_id ∖ {[ws]}) as Heq.
    { apply set_eq. intros x. destruct (decide (x = ws)); set_solver. }
    rewrite Heq at 2.
    pose proof (size_union ({[ws]} : gset nat) (conns_of s user_id ∖ {[ws]})) as Hu.
    rewrite Hu by set_solver. by rewrite size_singleton. }
  split.
  { intros u Hu. rewrite disconnect_get, disconnect_sessions.
    by rewrite !decide_False by done. }
  split; [apply disconnect_metadata|].
  split; [apply disconnect_one_closed|].
  split; [apply disconnect_frames | apply disconnect_offline].
Qed.

Lemma disconnect_all_facts (user_id : UserId) (s : State) :
  let s' := exec (disconnect user_id None) s in
  conns_of s' user_id = ∅ ∧
  get_user_connection_count user_id s' = 0 ∧
  ¬ user_id ∈ get_active_users s' ∧
  get_user_session user_id s' = None.
Proof.
  intros s'. unfold s'.
  assert (conns_of (exec (disconnect user_id None) s) user_id = ∅) as Hc.
  { by rewrite disconnect_conns, decide_True. }
  split; [done|]. split.
  { unfold get_user_connection_count. rewrite Hc. apply size_empty. }
  split.
  { unfold get_active_users. rewrite dict_keys_get, disconnect_get.
    rewrite decide_True by done. simpl. rewrite decide_True by done.
    by intros [? ?]. }
  unfold get_user_session. rewrite disconnect_sessions, decide_True by done.
  simpl. by rewrite decide_True.
Qed.

(** X7. [disconnect(user_id)], without a connection, never raises.  It
    closes every connection of the user, in the order of the copied set,
    deletes their metadata and only theirs, and removes the user from
    the registry and from the sessions; the other users keep their sets
    and their sessions, and the offline queues stay. *)
Theorem X7_disconnect_all_connections (user_id : UserId) (s : State) :
  let s' := exec (disconnect user_id None) s in
  result (disconnect user_id None) s = Ok () ∧
  ¬ user_id ∈ get_active_users s' ∧
  get_user_connection_count user_id s' = 0 ∧
  get_user_session user_id s' = None ∧
  (∀ w, connection_metadata s' !! w =
     if decide (w ∈ conns_of s user_id) then None else connection_metadata s !! w) ∧
  closed (world s') = closed (world s) ++ elements (conns_of s user_id) ∧
  (∀ u, u ≠ user_id →
     dict_get u (active_connections s') = dict_get u (active_connections s) ∧
     user_sessions s' !! u = user_sessions s !! u) ∧
  offline_messages s' = offline_messages s.
Proof.
  intros s'. unfold s'.
  split; [apply disconnect_result|]. split.
  { unfold get_active_users. rewrite dict_keys_get, disconnect_get.
    rewrite decide_True by done. simpl. rewrite decide_True by done.
    by intros [? ?]. }
  split.
  { unfold get_user_connection_count. rewrite disconnect_conns, decide_True by done.
    unfold remaining. apply size_empty. }
  split.
  { unfold get_user_session. rewrite disconnect_sessions, decide_True by done.
    simpl. by rewrite decide_True. }
  split; [intros w; apply disconnect_all_metadata|].
  split; [apply disconnect_all_closed|].
  split; [|apply disconnect_offline].
  intros u Hu. rewrite disconnect_get, disconnect_sessions.
  by rewrite !decide_False by done.
Qed.

(** X8. [disconnect] for a user that is not registered and has no
    session, with a connection that has no metadata, changes neither
    the registry (the empty set that reading the [defaultdict] inserts is
    deleted again) nor the metadata, the sessions, the queues or the
    messages; [close] is still called on the connection. *)
Theorem X8_disconnect_unknown_changes_nothing (user_id : UserId) (ws : WebSocket)
    (s : State) :
  dict_get user_id (active_connections s) = None →
  user_sessions s !! user_id = None →
  connection_metadata s !! ws = None →
  let s' := exec (disconnect user_id (Some ws)) s in
  active_connections s' = active_connections s ∧
  connection_metadata s' = connection_metadata s ∧
  user_sessions s' = user_sessions s ∧
  offline_messages s' = offline_messages s ∧
  heap s' = heap s ∧
  closed (world s') = closed (world s) ++ [ws].
Proof.
  intros Hreg Hsess Hmd s'. unfold s'.
  split; [|split; [|split; [|split; [apply disconnect_offline
    |split; [apply disconnect_heap | apply disconnect_one_closed]]]]].
  - rewrite disconnect_exec. simpl. rewrite update_session_active.
    rewrite disconnect_branch_some.
    assert (conns_of s user_id = ∅) as Hc by (unfold conns_of; by rewrite Hreg).
    rewrite Hc, bool_decide_eq_false_2 by set_solver.
    unfold drop_empty, exec, bind. rewrite active_getitem_touch.
    assert (touch user_id s = set_active (dict_set user_id ∅) s) as Ht
      by (unfold touch; by rewrite Hreg).
    rewrite Ht. unfold conns_of, touch. simpl. rewrite dict_get_set_eq. simpl.
    rewrite bool_decide_eq_true_2 by done. simpl.
    by apply dict_del_set_absent.
  - rewrite disconnect_metadata. by apply delete_id.
  - apply map_eq. intros u. rewrite disconnect_sessions.
    case_decide; [subst u|done]. rewrite Hsess. by case_decide.
Qed.

Lemma X8_disconnect_unknown_changes_nothing_witness :
  let s' := exec (disconnect 42 (Some 7)) init in
  active_connections s' = active_connections init ∧
  connection_metadata s' = connection_metadata init ∧
  user_sessions s' = user_sessions init ∧
  offline_messages s' = offline_messages init ∧
  heap s' = heap init ∧
  closed (world s') = closed (world init) ++ [7].
Proof.
  apply (X8_disconnect_unknown_changes_nothing 42 7 init); reflexivity.
Defined.

(** ** Registering *)

Section connecting.
Context (env : Env).

Lemma connect_succeeds websocket user_id session_data s :
  result (connect env websocket user_id session_data) s = Ok ().
Proof.
  assert (succeeds (connect env websocket user_id session_data)) as H.
  { unfold connect. apply succeeds_try_except. intros _. apply disconnect_succeeds. }
  by destruct (H s) as [[] ?].
Qed.

Lemma connect_refused_exec websocket user_id session_data s :
  accept_ok env (world s) websocket = false →
  exec (connect env websocket user_id session_data) s =
    exec (disconnect user_id (Some websocket)) (set_world world_io s).
Proof.
  intros Hacc. unfold exec at 1. rewrite connect_unfold.
  unfold try_except. unfold bind at 1. by rewrite register_refused.
Qed.

Lemma connect_accepted_exec websocket user_id session_data s s1 p :
  (ws_accept env websocket >> register env websocket user_id session_data) s = (Ok p, s1) →
  exec (connect env websocket user_id session_data) s =
    exec (try_except (confirm_and_flush env websocket user_id p)
            (λ _, disconnect user_id (Some websocket))) s1.
Proof.
  intros Hrun. unfold exec at 1. rewrite connect_unfold.
  unfold try_except at 1. unfold bind at 1. by rewrite Hrun.
Qed.

Lemma disconnect_accepted user_id websocket s :
  accepted (world (exec (disconnect user_id websocket) s)) = accepted (world s).
Proof.
  apply (disconnect_blind_keeps (λ s', accepted (world s') = accepted (world s)));
    [|done].
  intros s1 s2 _ _ _ _ Ha _ _ _. by rewrite Ha.
Qed.

Lemma disconnect_total user_id websocket s :
  total_connections (connection_stats (exec (disconnect user_id websocket) s)) =
    total_connections (connection_stats s).
Proof. by rewrite disconnect_stats. Qed.
End connecting.

(** X9. When the transport refuses the handshake, [connect] does not
    raise and registers nothing: the connection is in no set of the
    user afterwards and has no metadata (a connection that was
    registered before is unregistered by the failed call), [close] is
    called on it, [total_connections] is not incremented, no frame is
    sent and the offline queues are kept. *)
Theorem X9_connect_refused (env : Env) (ws : WebSocket) (u : UserId)
    (sd : option PyDict) (s : State) :
  accept_ok env (world s) ws = false →
  let s' := exec (connect env ws u sd) s in
  result (connect env ws u sd) s = Ok () ∧
  conns_of s' u = conns_of s u ∖ {[ws]} ∧
  (∀ v, v ≠ u → dict_get v (active_connections s') = dict_get v (active_connections s)) ∧
  connection_metadata s' = delete ws (connection_metadata s) ∧
  total_connections (connection_stats s') = total_connections (connection_stats s) ∧
  accepted (world s') = accepted (world s) ∧
  closed (world s') = closed (world s) ++ [ws] ∧
  frames_since s s' = [] ∧
  offline_messages s' = offline_messages s.
Proof.
  intros Hacc s'. unfold s'. rewrite (connect_refused_exec env ws u sd s Hacc).
  set (s0 := set_world world_io s).
  split; [apply connect_succeeds|].
  split; [by rewrite disconnect_conns, decide_True|].
  split; [intros v Hv; by rewrite disconnect_get, decide_False|].
  split; [by rewrite disconnect_metadata|].
  split; [by rewrite disconnect_total|].
  split; [by rewrite disconnect_accepted|].
  split; [by rewrite disconnect_one_closed|].
  split; [|by rewrite disconnect_offline].
  apply frames_since_app. by rewrite disconnect_wire, app_nil_r.
Qed.

Lemma X9_connect_refused_witness :
  let s' := exec (connect refusing_env 7 42 None) init in
  result (connect refusing_env 7 42 None) init = Ok () ∧
  conns_of s' 42 = conns_of init 42 ∖ {[7]} ∧
  (∀ v, v ≠ 42%Z →
     dict_get v (active_connections s') = dict_get v (active_connections init)) ∧
  connection_metadata s' = delete 7 (connection_metadata init) ∧
  total_connections (connection_stats s') = total_connections (connection_stats init) ∧
  accepted (world s') = accepted (world init) ∧
  closed (world s') = closed (world init) ++ [7] ∧
  frames_since init s' = [] ∧
  offline_messages s' = offline_messages init.
Proof. apply (X9_connect_refused refusing_env 7 42 None init). reflexivity. Defined.

(** X11. When the transport accepts the handshake and then does not take
    the confirmation, [connect] tears the connection down again: it is
    not in the user's set, it has no metadata and [close] was called on
    it; nothing was sent and the queued messages of the user are still
    queued.  The handshake is counted in [total_connections] all the
    same. *)
Theorem X11_connect_unconfirmed (env : Env) (ws : WebSocket) (u : UserId)
    (sd : option PyDict) (s : State) :
  accept_ok env (world s) ws = true →
  (∀ W d, send_ok env W ws d = false) →
  let s' := exec (connect env ws u sd) s in
  conns_of s' u = conns_of s u ∖ {[ws]} ∧
  connection_metadata s' = delete ws (connection_metadata s) ∧
  total_connections (connection_stats s') = S (total_connections (connection_stats s)) ∧
  accepted (world s') = accepted (world s) ++ [ws] ∧
  closed (world s') = closed (world s) ++ [ws] ∧
  frames_since s s' = [] ∧
  offline_messages s' = offline_messages s.
Proof.
  intros Hacc Hdeaf s'.
  destruct (register_accepted env ws u sd s Hacc)
    as (s1 & Hrun & Hget & Hmd & Hse & Hst & Hoff & Hheap & Hw).
  unfold s'. rewrite (connect_accepted_exec env ws u sd s s1 _ Hrun).
  unfold confirm_and_flush. cbn [fst snd].
  erewrite exec_try_bind_ok by reflexivity.
  erewrite exec_try_bind_raise.
  2:{ eapply send_to_connection_fail; [|apply Hdeaf].
      simpl. by rewrite lookup_app_r, Nat.sub_diag by lia. }
  match goal with |- context [exec (disconnect u (Some ws)) ?s0] => set (s2 := s0) end.
  assert (conns_of s2 u = {[ws]} ∪ conns_of s u) as Hc2.
  { unfold conns_of at 1. simpl. by rewrite Hget, decide_True. }
  split. { rewrite disconnect_conns, decide_True by done. simpl. rewrite Hc2. set_solver. }
  split. { rewrite disconnect_metadata. simpl. rewrite Hmd. apply delete_insert_eq. }
  split. { rewrite disconnect_total. simpl. by rewrite Hst. }
  split. { rewrite disconnect_accepted. simpl. by rewrite Hw. }
  split. { rewrite disconnect_one_closed. simpl. by rewrite Hw. }
  split. { apply frames_since_app. rewrite disconnect_wire. simpl.
           rewrite Hw. simpl. by rewrite app_nil_r. }
  rewrite disconnect_offline. simpl. done.
Qed.

Lemma X11_connect_unconfirmed_witness :
  let s' := exec (connect deaf_env 7 42 None) init in
  conns_of s' 42 = conns_of init 42 ∖ {[7]} ∧
  connection_metadata s' = delete 7 (connection_metadata init) ∧
  total_connections (connection_stats s') = S (total_connections (connection_stats init)) ∧
  accepted (world s') = accepted (world init) ++ [7] ∧
  closed (world s') = closed (world init) ++ [7] ∧
  frames_since init s' = [] ∧
  offline_messages s' = offline_messages init.
Proof.
  apply (X11_connect_unconfirmed deaf_env 7 42 None init); [reflexivity|].
  intros W d. reflexivity.
Defined.

Section connecting_healthy.
Context (env : Env) (Hsend : healthy env).

(** While every transport takes every frame, the replay of a queue
    changes neither the registry nor the metadata, the sessions or the
    count of handshakes. *)
Lemma replay_loop_bookkeeping user_id messages s :
  conns_of s user_id ≠ ∅ →
  let s' := exec (for_each messages (replay env user_id)) s in
  active_connections s' = active_connections s ∧
  connection_metadata s' = connection_metadata s ∧
  user_sessions s' = user_sessions s ∧
  offline_messages s' = offline_messages s ∧
  total_connections (connection_stats s') = total_connections (connection_stats s) ∧
  wire (world s') = wire (world s) ++
    flat_map (λ l, frames_to (elements (conns_of s user_id))
                     (stamped (clock (world s)) (offline_wrapper l))) messages.
Proof.
  revert s. induction messages as [|message rest IH]; intros s Hne; simpl.
  - by rewrite app_nil_r.
  - rewrite exec_seq by apply replay_succeeds.
    rewrite (replay_healthy env Hsend user_id message s Hne).
    match goal with |- context [exec (for_each rest _) ?s1] =>
      destruct (IH s1) as (Ha & Hm & Hu & Ho & Ht & Hw); [done|];
      rewrite Ha, Hm, Hu, Ho, Ht, Hw
    end.
    simpl. rewrite sent_frames_wire, sent_frames_clock, <- app_assoc.
    unfold conns_of. simpl. done.
Qed.

Lemma confirm_and_flush_healthy websocket user_id p (h : Exn → M unit) s :
  conns_of s user_id ≠ ∅ →
  let s' := exec (try_except (confirm_and_flush env websocket user_id p) h) s in
  active_connections s' = active_connections s ∧
  connection_metadata s' = connection_metadata s ∧
  user_sessions s' = user_sessions s ∧
  total_connections (connection_stats s') = total_connections (connection_stats s) ∧
  queue_of s' user_id = [] ∧
  wire (world s') = wire (world s) ++
    (websocket, connection_confirmed user_id p.2 p.1) ::
    flat_map (λ l, frames_to (elements (conns_of s user_id))
                     (stamped (clock (world s)) (offline_wrapper l)))
      (queue_of s user_id).
Proof.
  intros Hne s'. unfold s', confirm_and_flush.
  erewrite exec_try_bind_ok by reflexivity.
  erewrite exec_try_bind_ok.
  2:{ apply send_to_connection_ok with (d := connection_confirmed user_id p.2 p.1).
      - simpl. by rewrite lookup_app_r, Nat.sub_diag by lia.
      - apply Hsend. }
  rewrite exec_try_succeeds.
  2:{ unfold _send_offline_messages. apply succeeds_try_except. intros _. apply succeeds_ret. }
  rewrite send_offline_messages_exec. simpl. unfold queue_of at 2.
  destruct (offline_messages s !! user_id) as [messages|] eqn:E; simpl.
  - match goal with |- context [exec (for_each messages _) ?s1] =>
      destruct (replay_loop_bookkeeping user_id messages s1)
        as (Ha & Hm & Hu & Ho & Ht & Hw); [done|]
    end.
    rewrite Ha, Hm, Hu, Ht, Hw. simpl. rewrite <- app_assoc. simpl.
    unfold queue_of. simpl. by rewrite lookup_insert_eq.
  - unfold queue_of. simpl. by rewrite E.
Qed.
End connecting_healthy.

(** X10. When the transport accepts the handshake and every transport
    takes every frame, [connect] adds the connection to the user's set,
    stores its metadata (the user, the instant of the call, a new
    session id, the session data or an empty dictionary), replaces the
    user's session by a new one that counts the connections of the set,
    increments [total_connections], sends the confirmation, which
    carries the session id of the metadata, as the first frame, and
    leaves the user's queue empty. *)
Theorem X10_connect_registers (env : Env) (ws : WebSocket) (u : UserId)
    (sd : option PyDict) (s : State) :
  healthy env →
  accept_ok env (world s) ws = true →
  let s' := exec (connect env ws u sd) s in
  let now := clock (world s) in
  conns_of s' u = {[ws]} ∪ conns_of s u ∧
  (∀ v, v ≠ u → dict_get v (active_connections s') = dict_get v (active_connections s)) ∧
  (∃ session_id,
     connection_metadata s' =
       <[ws := {| md_user_id := u; md_connected_at := now;
                  md_session_id := session_id;
                  md_session_data := or_empty sd |}]> (connection_metadata s) ∧
     head (frames_since s s') = Some (ws, connection_confirmed u session_id now)) ∧
  user_sessions s' =
    <[u := {| us_user_id := u; us_last_activity := now;
              us_active_connections := size ({[ws]} ∪ conns_of s u);
              us_session_data := or_empty sd;
              us_status := None |}]> (user_sessions s) ∧
  total_connections (connection_stats s') = S (total_connections (connection_stats s)) ∧
  queue_of s' u = [].
Proof.
  intros Hsend Hacc s' now.
  destruct (register_accepted env ws u sd s Hacc)
    as (s1 & Hrun & Hget & Hmd & Hse & Hst & Hoff & Hheap & Hw).
  unfold s'. rewrite (connect_accepted_exec env ws u sd s s1 _ Hrun).
  assert (conns_of s1 u = {[ws]} ∪ conns_of s u) as Hc1.
  { unfold conns_of at 1. by rewrite Hget, decide_True. }
  destruct (confirm_and_flush_healthy env Hsend ws u
              (clock (world s), uuid4 env (S (io_calls (world s))))
              (λ _, disconnect u (Some ws)) s1)
    as (Ha & Hm & Hu & Ht & Hq & Hwire).
  { rewrite Hc1. set_solver. }
  split. { unfold conns_of at 1. by rewrite Ha, Hget, decide_True. }
  split. { intros v Hv. by rewrite Ha, Hget, decide_False. }
  split.
  { exists (uuid4 env (S (io_calls (world s)))). split; [by rewrite Hm, Hmd|].
    erewrite frames_since_app; [|rewrite Hwire, Hw; simpl; reflexivity]. done. }
  split; [by rewrite Hu, Hse|].
  split; [by rewrite Ht, Hst|]. done.
Qed.

Lemma X10_connect_registers_witness :
  let s' := exec (connect quiet_env 7 42 None) init in
  let now := clock (world init) in
  conns_of s' 42 = {[7]} ∪ conns_of init 42 ∧
  (∀ v, v ≠ 42%Z →
     dict_get v (active_connections s') = dict_get v (active_connections init)) ∧
  (∃ session_id,
     connection_metadata s' =
       <[7 := {| md_user_id := 42; md_connected_at := now;
                 md_session_id := session_id;
                 md_session_data := or_empty None |}]> (connection_metadata init) ∧
     head (frames_since init s') = Some (7, connection_confirmed 42 session_id now)) ∧
  user_sessions s' =
    <[42%Z := {| us_user_id := 42; us_last_activity := now;
                 us_active_connections := size ({[7]} ∪ conns_of init 42);
                 us_session_data := or_empty None;
                 us_status := None |}]> (user_sessions init) ∧
  total_connections (connection_stats s') = S (total_connections (connection_stats init)) ∧
  queue_of s' 42 = [].
Proof.
  apply (X10_connect_registers quiet_env 7 42 None init); [|reflexivity].
  intros W w d. reflexivity.
Defined.

(** ** Incoming messages *)

Section incoming.
Context (env : Env).

Lemma handle_message_result websocket message s :
  result (handle_message env websocket message) s = Ok ().
Proof.
  assert (succeeds (handle_message env websocket message)) as H.
  { unfold handle_message. apply succeeds_try_except. intros _. apply succeeds_ret. }
  by destruct (H s) as [[] ?].
Qed.

Lemma received_blind n :
  disconnect_blind (λ s, messages_received (connection_stats s) = n).
Proof. intros s s' _ _ _ _ _ _ _ Hr. by rewrite Hr. Qed.

(** The handlers leave the count of received messages alone. *)
Lemma handlers_keep_received n websocket user_id (d : PyDict) :
  preserves (λ s, messages_received (connection_stats s) = n)
    match dict_get "type" d with
    | Some (VStr message_type) =>
        if String.eqb message_type "ping" then _handle_ping env websocket d
        else if String.eqb message_type "typing" then _handle_typing user_id d
        else if String.eqb message_type "voice_data" then _handle_voice_data env user_id d
        else if String.eqb message_type "user_status" then _handle_user_status user_id d
        else ret ()
    | _ => ret ()
    end.
Proof.
  destruct (dict_get "type" d) as [[]|]; try apply preserves_ret.
  repeat case_match; try apply preserves_ret.
  - apply kept_handle_ping; by intros.
  - apply kept_handle_typing; by intros.
  - apply kept_handle_voice_data; try (by intros).
    intros u w. apply disconnect_blind_keeps, received_blind.
  - apply kept_handle_user_status; by intros.
Qed.
End incoming.

(** X12. [handle_message] never raises.  It counts the message in
    [messages_received] exactly when the text is JSON and the connection
    has metadata - also when what follows fails, as for a JSON value
    that is no object - and then by one; a text that is no JSON, or a
    message from a connection without metadata, changes nothing at
    all. *)
Theorem X12_handle_message_counts (env : Env) (ws : WebSocket) (message : string)
    (s : State) :
  let s' := exec (handle_message env ws message) s in
  result (handle_message env ws message) s = Ok () ∧
  messages_received (connection_stats s') =
    match json_loads env message, connection_metadata s !! ws with
    | Some _, Some _ => S (messages_received (connection_stats s))
    | _, _ => messages_received (connection_stats s)
    end ∧
  (json_loads env message = None ∨ connection_metadata s !! ws = None → s' = s).
Proof.
  intros s'. split; [apply handle_message_result|].
  unfold s', handle_message.
  destruct (json_loads env message) as [data|] eqn:Hj; [|split; done].
  erewrite exec_try_bind_ok by reflexivity.
  destruct (connection_metadata s !! ws) as [md|] eqn:Hmd; [|split; done].
  split; [|by intros [|]].
  erewrite exec_try_bind_ok by reflexivity.
  apply (preserves_try_except
           (λ s', messages_received (connection_stats s') =
                    S (messages_received (connection_stats s))));
    [|intros; apply preserves_ret|done].
  apply preserves_bind; [apply preserves_datetime_now | intros now].
  apply preserves_bind; [apply preserves_modify; by intros | intros _].
  destruct data; try apply preserves_raise.
  apply handlers_keep_received.
Qed.

Section known_connection.
Context (env : Env).

(** A JSON object from a connection that has metadata: the message is
    counted, the session of the user is refreshed, and the handler of
    its type runs. *)
Lemma handle_message_known ws message d md s :
  json_loads env message = Some (VDict d) →
  connection_metadata s !! ws = Some md →
  exec (handle_message env ws message) s =
    exec (try_except
            match dict_get "type" d with
            | Some (VStr message_type) =>
                if String.eqb message_type "ping" then _handle_ping env ws d
                else if String.eqb message_type "typing"
                  then _handle_typing (md_user_id md) d
                else if String.eqb message_type "voice_data"
                  then _handle_voice_data env (md_user_id md) d
                else if String.eqb message_type "user_status"
                  then _handle_user_status (md_user_id md) d
                else ret ()
            | _ => ret ()
            end
            (λ _, ret ()))
      (set_sessions (alter (session_activity (clock (world s))) (md_user_id md))
         (set_stats stats_received s)).
Proof.
  intros Hj Hmd. unfold handle_message. rewrite Hj.
  erewrite exec_try_bind_ok by reflexivity. rewrite Hmd.
  erewrite exec_try_bind_ok by reflexivity.
  erewrite exec_try_bind_ok by reflexivity.
  erewrite exec_try_bind_ok by reflexivity.
  done.
Qed.

Lemma handle_ping_exec ws d s :
  exec (_handle_ping env ws d) s =
    let s1 := set_heap (λ h, h ++ [pong (clock (world s))]) s in
    if send_ok env (world s) ws (pong (clock (world s)))
    then set_world (world_send ws (pong (clock (world s)))) s1
    else set_world world_io s1.
Proof.
  unfold _handle_ping.
  erewrite exec_try_bind_ok by reflexivity.
  erewrite exec_try_bind_ok by reflexivity.
  cbv zeta. unfold exec, try_except.
  destruct (send_ok env (world s) ws (pong (clock (world s)))) eqn:Hok.
  - erewrite send_to_connection_ok; [done| |exact Hok].
    simpl. by rewrite lookup_app_r, Nat.sub_diag by lia.
  - erewrite send_to_connection_fail; [done| |exact Hok].
    simpl. by rewrite lookup_app_r, Nat.sub_diag by lia.
Qed.
End known_connection.

(** X13. A ["ping"] from a connection that has metadata is answered on
    that connection with [{"type": "pong", "timestamp": now}], and the
    session of the connection's user is refreshed.  When the transport
    does not take the answer nothing is sent, and the connection stays
    registered with its metadata: unlike [send_to_user], the handler
    does not disconnect a connection that failed. *)
Theorem X13_ping_answered (env : Env) (ws : WebSocket) (message : string)
    (d : PyDict) (md : Metadata) (s : State) :
  json_loads env message = Some (VDict d) →
  dict_get "type" d = Some (VStr "ping") →
  connection_metadata s !! ws = Some md →
  let s' := exec (handle_message env ws message) s in
  let now := clock (world s) in
  frames_since s s' =
    (if send_ok env (world s) ws (pong now) then [(ws, pong now)] else []) ∧
  active_connections s' = active_connections s ∧
  connection_metadata s' = connection_metadata s ∧
  user_sessions s' = alter (session_activity now) (md_user_id md) (user_sessions s) ∧
  offline_messages s' = offline_messages s.
Proof.
  intros Hj Ht Hmd s' now. unfold s'.
  rewrite (handle_message_known env ws message d md s Hj Hmd), Ht.
  change (String.eqb "ping" "ping") with true. cbv iota.
  rewrite exec_try_succeeds
    by (unfold _handle_ping; apply succeeds_try_except; intros; apply succeeds_ret).
  rewrite handle_ping_exec. cbv zeta. simpl. fold now.
  destruct (send_ok env (world s) ws (pong now)); simpl.
  - split; [|done]. apply frames_since_app. done.
  - split; [|done]. apply frames_since_app. simpl. by rewrite app_nil_r.
Qed.

Lemma X13_ping_answered_witness :
  let s' := exec (handle_message tagged_env 7 "ping") one_user in
  let now := clock (world one_user) in
  frames_since one_user s' =
    (if send_ok tagged_env (world one_user) 7 (pong now) then [(7, pong now)] else []) ∧
  active_connections s' = active_connections one_user ∧
  connection_metadata s' = connection_metadata one_user ∧
  user_sessions s' = alter (session_activity now) 42%Z (user_sessions one_user) ∧
  offline_messages s' = offline_messages one_user.
Proof.
  apply (X13_ping_answered tagged_env 7 "ping" [("type", VStr "ping")]
           {| md_user_id := 42; md_connected_at := 0;
              md_session_id := "00000000-0000-4000-8000-000000000000";
              md_session_data := [] |} one_user).
  - reflexivity.
  - reflexivity.
  - vm_compute. reflexivity.
Defined.

(** X14. A ["user_status"] message from a connection that has metadata
    sets the status of the user's session to the message's ["status"],
    or to ["online"] when it has none, and its last activity to the
    instant of the call; the user, the count and the data of the session
    stay.  A user without a session gets none, the other sessions are
    untouched, and nothing is sent. *)
Theorem X14_user_status_updates_session (env : Env) (ws : WebSocket)
    (message : string) (d : PyDict) (md : Metadata) (s : State) :
  json_loads env message = Some (VDict d) →
  dict_get "type" d = Some (VStr "user_status") →
  connection_metadata s !! ws = Some md →
  let s' := exec (handle_message env ws message) s in
  let now := clock (world s) in
  let status := default (VStr "online") (dict_get "status" d) in
  (∀ x, user_sessions s !! md_user_id md = Some x →
     user_sessions s' !! md_user_id md =
       Some {| us_user_id := us_user_id x; us_last_activity := now;
               us_active_connections := us_active_connections x;
               us_session_data := us_session_data x;
               us_status := Some status |}) ∧
  (user_sessions s !! md_user_id md = None → user_sessions s' !! md_user_id md = None) ∧
  (∀ v, v ≠ md_user_id md → user_sessions s' !! v = user_sessions s !! v) ∧
  frames_since s s' = [] ∧
  active_connections s' = active_connections s ∧
  connection_metadata s' = connection_metadata s ∧
  heap s' = heap s.
Proof.
  intros Hj Ht Hmd s' now status. unfold s'.
  rewrite (handle_message_known env ws message d md s Hj Hmd), Ht.
  change (String.eqb "user_status" "ping") with false.
  change (String.eqb "user_status" "typing") with false.
  change (String.eqb "user_status" "voice_data") with false.
  change (String.eqb "user_status" "user_status") with true. cbv iota.
  unfold _handle_user_status, exec, try_except, bind, datetime_now, modify. simpl.
  fold now. fold status.
  split. { intros x Hx. by rewrite !lookup_alter_eq, Hx. }
  split. { intros Hx. by rewrite !lookup_alter_eq, Hx. }
  split. { intros v Hv. by rewrite !lookup_alter_ne. }
  split; [|done]. apply frames_since_app. simpl. by rewrite app_nil_r.
Qed.

Lemma X14_user_status_updates_session_witness :
  let s' := exec (handle_message tagged_env 7 "user_status") one_user in
  let now := clock (world one_user) in
  let status := default (VStr "online")
                  (dict_get "status" [("type", VStr "user_status")]) in
  (∀ x, user_sessions one_user !! 42%Z = Some x →
     user_sessions s' !! 42%Z =
       Some {| us_user_id := us_user_id x; us_last_activity := now;
               us_active_connections := us_active_connections x;
               us_session_data := us_session_data x;
               us_status := Some status |}) ∧
  (user_sessions one_user !! 42%Z = None → user_sessions s' !! 42%Z = None) ∧
  (∀ v, v ≠ 42%Z → user_sessions s' !! v = user_sessions one_user !! v) ∧
  frames_since one_user s' = [] ∧
  active_connections s' = active_connections one_user ∧
  connection_metadata s' = connection_metadata one_user ∧
  heap s' = heap one_user.
Proof.
  apply (X14_user_status_updates_session tagged_env 7 "user_status"
           [("type", VStr "user_status")]
           {| md_user_id := 42; md_connected_at := 0;
              md_session_id := "00000000-0000-4000-8000-000000000000";
              md_session_data := [] |} one_user).
  - reflexivity.
  - reflexivity.
  - vm_compute. reflexivity.
Defined.

(** X15. While every transport takes every frame, a ["voice_data"]
    message from a registered connection is acknowledged with
    [voice_received], stamped, on every connection of the connection's
    user - the sender's and the others - and counts as one message
    sent. *)
Theorem X15_voice_data_acknowledged (env : Env) (ws : WebSocket) (message : string)
    (d : PyDict) (md : Metadata) (s : State) :
  healthy env →
  json_loads env message = Some (VDict d) →
  dict_get "type" d = Some (VStr "voice_data") →
  connection_metadata s !! ws = Some md →
  ws ∈ conns_of s (md_user_id md) →
  let s' := exec (handle_message env ws message) s in
  let now := clock (world s) in
  let ack := stamped now (voice_received now) in
  frames_since s s' = frames_to (elements (conns_of s (md_user_id md))) ack ∧
  (ws, ack) ∈ frames_since s s' ∧
  messages_sent (connection_stats s') = S (messages_sent (connection_stats s)) ∧
  active_connections s' = active_connections s.
Proof.
  intros Hsend Hj Ht Hmd Hin s' now ack. unfold s'.
  rewrite (handle_message_known env ws message d md s Hj Hmd), Ht.
  change (String.eqb "voice_data" "ping") with false.
  change (String.eqb "voice_data" "typing") with false.
  change (String.eqb "voice_data" "voice_data") with true. cbv iota.
  rewrite exec_try_succeeds
    by (unfold _handle_voice_data; apply succeeds_try_except; intros; apply succeeds_ret).
  unfold _handle_voice_data.
  erewrite exec_try_bind_ok by reflexivity.
  erewrite exec_try_bind_ok by reflexivity.
  erewrite exec_try_bind_ok.
  2:{ apply (send_to_user_healthy env Hsend) with (d := voice_received now).
      - simpl. by rewrite lookup_app_r, Nat.sub_diag by lia.
      - change (conns_of _ (md_user_id md)) with (conns_of s (md_user_id md)).
        set_solver. }
  unfold exec, try_except, ret. simpl.
  change (conns_of _ (md_user_id md)) with (conns_of s (md_user_id md)).
  fold now. fold ack.
  assert (frames_since s
            (set_stats stats_sent (set_world
               (sent_frames (frames_to (elements (conns_of s (md_user_id md))) ack))
               (set_heap (λ h, <[length (heap s) := ack]> (h ++ [voice_received now]))
                  (set_sessions (alter (session_activity now) (md_user_id md))
                     (set_stats stats_received s)))))
          = frames_to (elements (conns_of s (md_user_id md))) ack) as Hf.
  { apply frames_since_app. simpl. by rewrite sent_frames_wire. }
  split; [exact Hf|]. split; [|done].
  eapply (eq_ind_r (λ l, (ws, ack) ∈ l)); [|exact Hf].
  unfold frames_to. apply list_elem_of_fmap.
  exists ws. split; [done|]. by apply elem_of_elements.
Qed.

Lemma X15_voice_data_acknowledged_witness :
  let s' := exec (handle_message tagged_env 7 "voice_data") one_user in
  let now := clock (world one_user) in
  let ack := stamped now (voice_received now) in
  frames_since one_user s' = frames_to (elements (conns_of one_user 42)) ack ∧
  (7, ack) ∈ frames_since one_user s' ∧
  messages_sent (connection_stats s') = S (messages_sent (connection_stats one_user)) ∧
  active_connections s' = active_connections one_user.
Proof.
  apply (X15_voice_data_acknowledged tagged_env 7 "voice_data"
           [("type", VStr "voice_data")]
           {| md_user_id := 42; md_connected_at := 0;
              md_session_id := "00000000-0000-4000-8000-000000000000";
              md_session_data := [] |} one_user).
  - intros W w d. reflexivity.
  - reflexivity.
  - reflexivity.
  - vm_compute. reflexivity.
  - apply (bool_decide_unpack _). vm_compute. exact I.
Defined.

(** X16. A message of type ["typing"], of an unknown type or without a
    type, from a connection that has metadata, is counted and refreshes
    the session of its user, and that is all: no frame is sent to
    anybody, and the registry, the metadata, the offline queues and the
    count of messages sent stay as they are. *)
Theorem X16_typing_and_unknown_types_send_nothing (env : Env) (ws : WebSocket)
    (message : string) (d : PyDict) (md : Metadata) (s : State) :
  json_loads env message = Some (VDict d) →
  connection_metadata s !! ws = Some md →
  dict_get "type" d ≠ Some (VStr "ping") →
  dict_get "type" d ≠ Some (VStr "voice_data") →
  dict_get "type" d ≠ Some (VStr "user_status") →
  let s' := exec (handle_message env ws message) s in
  frames_since s s' = [] ∧
  active_connections s' = active_connections s ∧
  connection_metadata s' = connection_metadata s ∧
  offline_messages s' = offline_messages s ∧
  user_sessions s' =
    alter (session_activity (clock (world s))) (md_user_id md) (user_sessions s) ∧
  messages_sent (connection_stats s') = messages_sent (connection_stats s).
Proof.
  intros Hj Hmd Hping Hvoice Hstatus s'. unfold s'.
  rewrite (handle_message_known env ws message d md s Hj Hmd).
  assert (∀ s1 : State,
    wire (world s1) = wire (world s) →
    frames_since s s1 = []) as Hfr.
  { intros s1 Hw. apply frames_since_app. by rewrite Hw, app_nil_r. }
  destruct (dict_get "type" d) as [[| | |t| | | |]|];
    try (split; [by apply Hfr | done]).
  destruct (String.eqb_spec t "ping") as [->|_]; [done|].
  destruct (String.eqb_spec t "typing") as [_|_].
  { split; [by apply Hfr | done]. }
  destruct (String.eqb_spec t "voice_data") as [->|_]; [done|].
  destruct (String.eqb_spec t "user_status") as [->|_]; [done|].
  split; [by apply Hfr | done].
Qed.

Lemma X16_typing_and_unknown_types_send_nothing_witness :
  let s' := exec (handle_message tagged_env 7 "typing") one_user in
  frames_since one_user s' = [] ∧
  active_connections s' = active_connections one_user ∧
  connection_metadata s' = connection_metadata one_user ∧
  offline_messages s' = offline_messages one_user ∧
  user_sessions s' =
    alter (session_activity (clock (world one_user))) 42%Z (user_sessions one_user) ∧
  messages_sent (connection_stats s') = messages_sent (connection_stats one_user).
Proof.
  apply (X16_typing_and_unknown_types_send_nothing tagged_env 7 "typing"
           [("type", VStr "typing")]
           {| md_user_id := 42; md_connected_at := 0;
              md_session_id := "00000000-0000-4000-8000-000000000000";
              md_session_data := [] |} one_user).
  - reflexivity.
  - vm_compute. reflexivity.
  - discriminate.
  - discriminate.
  - discriminate.
Defined.

(** ** Shutting down *)

Section shutting_down.
Lemma disconnect_users_closed_mono (l : list UserId) w s :
  w ∈ closed (world s) →
  w ∈ closed (world (exec (for_each l (λ user_id, disconnect user_id None)) s)).
Proof.
  revert s. induction l as [|v l IH]; intros s Hw; cbn [for_each]; [done|].
  rewrite exec_seq by apply disconnect_succeeds. apply IH.
  rewrite disconnect_all_closed. apply elem_of_app. by left.
Qed.

Lemma disconnect_users_closed (l : list UserId) u w s :
  u ∈ l → w ∈ conns_of s u →
  w ∈ closed (world (exec (for_each l (λ user_id, disconnect user_id None)) s)).
Proof.
  revert s. induction l as [|v l IH]; intros s Hu Hw; cbn [for_each].
  - by apply elem_of_nil in Hu.
  - rewrite exec_seq by apply disconnect_succeeds.
    destruct (decide (v = u)) as [->|Hne].
    + apply disconnect_users_closed_mono. rewrite disconnect_all_closed.
      apply elem_of_app. right. by apply elem_of_elements.
    + apply elem_of_cons in Hu as [->|Hu]; [done|].
      apply IH; [done|]. by rewrite disconnect_conns, decide_False.
Qed.

Lemma shutdown_result s : result shutdown s = Ok ().
Proof.
  assert (succeeds shutdown) as H.
  { unfold shutdown. apply succeeds_try_except. intros _. apply succeeds_ret. }
  by destruct (H s) as [[] ?].
Qed.
End shutting_down.

(** X17. [shutdown] never raises.  Afterwards the registry, the
    metadata, the sessions and the offline queues are empty - the
    messages queued for offline users are dropped - and [close] was
    called on every connection that was registered; nothing is sent,
    and the counters [total_connections], [messages_sent] and
    [messages_received] are not reset. *)
Theorem X17_shutdown_clears_everything (s : State) :
  let s' := exec shutdown s in
  result shutdown s = Ok () ∧
  active_connections s' = [] ∧
  connection_metadata s' = ∅ ∧
  user_sessions s' = ∅ ∧
  offline_messages s' = ∅ ∧
  (∀ u w, w ∈ conns_of s u → w ∈ closed (world s')) ∧
  frames_since s s' = [] ∧
  total_connections (connection_stats s') = total_connections (connection_stats s) ∧
  messages_sent (connection_stats s') = messages_sent (connection_stats s) ∧
  messages_received (connection_stats s') = messages_received (connection_stats s).
Proof.
  intros s'. unfold s'. rewrite shutdown_exec.
  split; [apply shutdown_result|]. do 4 (split; [done|]).
  split.
  { intros u w Hw. simpl. apply (disconnect_users_closed _ u); [|done].
    apply dict_keys_get. unfold conns_of in Hw.
    destruct (dict_get u (active_connections s)); [eauto | set_solver]. }
  pose (P := λ s1 : State,
    wire (world s1) = wire (world s) ∧
    total_connections (connection_stats s1) = total_connections (connection_stats s) ∧
    messages_sent (connection_stats s1) = messages_sent (connection_stats s) ∧
    messages_received (connection_stats s1) = messages_received (connection_stats s)).
  assert (P (exec (for_each (dict_keys (active_connections s))
                     (λ user_id, disconnect user_id None)) s)) as (Hw & Ht & Hs & Hr).
  { apply (preserves_for_each P); [|done]. intros u.
    apply disconnect_blind_keeps. intros s1 s2 _ _ _ Hw _ Ht Hs Hr. unfold P.
    by rewrite Hw, Ht, Hs, Hr. }
  split; [|done]. apply frames_since_app. simpl. by rewrite Hw, app_nil_r.
Qed.

(** ** A broadcast that loses a user *)

Section lost_user.
Context (env : Env).

Lemma dict_del_length {K V} `{EqDecision K} (k : K) (d : list (K * V)) :
  length (dict_del k d) ≤ length d.
Proof. induction d as [|[k' v] r IH]; simpl; [done|]. case_decide; simpl; lia. Qed.

(** [disconnect] of the only connection of the user at the head of the
    registry deletes the user's entry. *)
Lemma disconnect_head_singleton u w rest s :
  active_connections s = (u, {[w]}) :: rest →
  active_connections (exec (disconnect u (Some w)) s) = dict_del u rest.
Proof.
  intros Ha. rewrite disconnect_exec. simpl. rewrite update_session_active.
  assert (conns_of s u = {[w]}) as Hc.
  { unfold conns_of. rewrite Ha. simpl. by rewrite decide_True. }
  assert (touch u s = s) as Ht.
  { apply touch_present. rewrite Ha. simpl. rewrite decide_True by done. eauto. }
  rewrite disconnect_branch_some, Hc, bool_decide_eq_true_2, Ht by set_solver.
  unfold drop_empty, exec, bind. rewrite active_getitem_touch.
  match goal with |- context [conns_of ?s1 u] =>
    assert (conns_of s1 u = ∅) as Hc1
  end.
  { unfold conns_of. simpl. rewrite dict_get_set_eq. simpl. set_solver. }
  rewrite Hc1, bool_decide_eq_true_2 by done. simpl.
  unfold touch. simpl. rewrite dict_get_set_eq. simpl.
  rewrite Ha. simpl. rewrite !decide_True by done. simpl. by rewrite decide_True.
Qed.

Lemma run_bind_ok {A B} (m : M A) (k : A → M B) s a s' :
  m s = (Ok a, s') → bind m k s = k a s'.
Proof. intros E. unfold bind. by rewrite E. Qed.

Lemma run_bind_raise {A B} (m : M A) (k : A → M B) s e s' :
  m s = (Raise e, s') → bind m k s = (Raise e, s').
Proof. intros E. unfold bind. by rewrite E. Qed.

Lemma check_dict_size_ok used s :
  length (active_connections s) = used → check_dict_size used s = (Ok (), s).
Proof. intros E. unfold check_dict_size. by rewrite bool_decide_eq_true_2. Qed.

(** Once the registry has changed its size the loop raises at its next
    step, whatever is left to do. *)
Lemma broadcast_items_stale used items message exclude_user s :
  length (active_connections s) ≠ used →
  broadcast_items env used items message exclude_user s = (Raise RuntimeError, s).
Proof.
  intros E. destruct items as [|[u c] rest]; cbn [broadcast_items];
    apply run_bind_raise; unfold check_dict_size; by rewrite bool_decide_eq_false_2.
Qed.

(** The inner loop on a single connection that fails. *)
Lemma broadcast_each_single_fail u w message d s :
  heap s !! message = Some d →
  send_ok env (world s) w d = false →
  broadcast_each env u message [w] s =
    (Ok (), exec (disconnect u (Some w)) (set_world world_io s)).
Proof.
  intros Hd Hok. unfold broadcast_each. cbn [for_each].
  erewrite run_bind_ok; [reflexivity|].
  unfold try_except.
  erewrite run_bind_raise by (by apply (send_to_connection_fail env w message d)).
  apply disconnect_run.
Qed.
End lost_user.

(** X18. [broadcast_to_all] loops over the registry itself.  When the
    user at the head of the registry has one connection, is not
    excluded, and the transport does not take the frame, [disconnect]
    deletes the user's entry and the next step of the loop raises: the
    call returns without an error, the user is unregistered, and no
    frame was sent to anybody - the users that come later in the
    registry are not tried. *)
Theorem X18_broadcast_stops_when_a_user_is_lost (env : Env) (message : loc)
    (exclude_user : option UserId) (d : PyDict) (u : UserId) (w : WebSocket)
    (rest : list (UserId * gset WebSocket)) (s : State) :
  heap s !! message = Some d →
  active_connections s = (u, {[w]}) :: rest →
  truthy exclude_user && bool_decide (exclude_user = Some u) = false →
  send_ok env (world s) w (stamped (clock (world s)) d) = false →
  let s' := exec (broadcast_to_all env message exclude_user) s in
  result (broadcast_to_all env message exclude_user) s = Ok () ∧
  frames_since s s' = [] ∧
  active_connections s' = dict_del u rest ∧
  messages_sent (connection_stats s') = messages_sent (connection_stats s).
Proof.
  intros Hd Ha Hex Hok s'.
  assert (result (broadcast_to_all env message exclude_user) s = Ok ()) as Hres.
  { assert (succeeds (broadcast_to_all env message exclude_user)) as H.
    { unfold broadcast_to_all. apply succeeds_try_except. intros _. apply succeeds_ret. }
    by destruct (H s) as [[] ?]. }
  split; [done|]. unfold s'.
  rewrite (broadcast_to_all_unfold env message exclude_user d s Hd). cbv zeta.
  set (d' := stamped (clock (world s)) d).
  set (s0 := set_heap (<[message := d']>) s).
  assert (heap s0 !! message = Some d') as Hd0.
  { unfold s0. simpl. apply list_lookup_insert_eq. by eapply lookup_lt_Some. }
  set (s1 := exec (disconnect u (Some w)) (set_world world_io s0)).
  assert (exec (try_except
            (broadcast_items env (length (active_connections s))
               (active_connections s) message exclude_user) (λ _, ret ())) s0 = s1) as ->.
  { assert (length (active_connections s1) ≠ length (active_connections s)) as Hlen.
    { unfold s1. rewrite (disconnect_head_singleton u w rest) by done. rewrite Ha.
      pose proof (dict_del_length u rest) as Hl. simpl. lia. }
    rewrite Ha at 2. cbn [broadcast_items]. rewrite Hex.
    unfold exec, try_except.
    erewrite run_bind_ok by (by apply check_dict_size_ok).
    rewrite elements_singleton.
    erewrite run_bind_ok
      by (by apply (broadcast_each_single_fail env u w message d')).
    fold s1. by rewrite broadcast_items_stale. }
  split.
  { apply frames_since_app. unfold s1. rewrite disconnect_wire. simpl.
    by rewrite app_nil_r. }
  split; [unfold s1; by apply disconnect_head_singleton|].
  unfold s1. by rewrite disconnect_stats.
Qed.

Lemma X18_broadcast_stops_when_a_user_is_lost_witness :
  let s' := exec (broadcast_to_all dying_env 2 None) dead_first in
  result (broadcast_to_all dying_env 2 None) dead_first = Ok () ∧
  frames_since dead_first s' = [] ∧
  active_connections s' = dict_del 1%Z [(2%Z, {[8]})] ∧
  messages_sent (connection_stats s') = messages_sent (connection_stats dead_first).
Proof.
  apply (X18_broadcast_stops_when_a_user_is_lost dying_env 2 None
           [("type", VStr "note")] 1 7 [(2%Z, {[8]})] dead_first).
  - reflexivity.
  - vm_compute. reflexivity.
  - reflexivity.
  - vm_compute. reflexivity.
Defined.

(** ** A user whose connections are all dead *)

Section all_dead.
Context (env : Env).

(** The loop of [send_to_user] when no transport takes the message:
    every connection of the list is disconnected for the user. *)
Lemma send_each_all_fail user_id message d (l : list WebSocket) sent s :
  heap s !! message = Some d →
  (∀ W w, wire W = wire (world s) → w ∈ l → send_ok env W w d = false) →
  let s' := exec (send_each env user_id message l sent) s in
  result (send_each env user_id message l sent) s = Ok sent ∧
  conns_of s' user_id = conns_of s user_id ∖ list_to_set l ∧
  (∀ w, connection_metadata s' !! w =
     if decide (w ∈ l) then None else connection_metadata s !! w) ∧
  closed (world s') = closed (world s) ++ l ∧
  wire (world s') = wire (world s) ∧
  heap s' = heap s ∧
  offline_messages s' = offline_messages s ∧
  messages_sent (connection_stats s') = messages_sent (connection_stats s).
Proof.
  revert s. induction l as [|ws rest IH]; intros s Hd Hdead s'.
  - unfold s', exec, result. cbn [send_each]. unfold ret. cbn [fst snd].
    rewrite app_nil_r.
    split; [done|]. split; [set_solver|]. split; [|done].
    intros w. rewrite decide_False; [done | apply not_elem_of_nil].
  - assert (send_ok env (world s) ws d = false) as Hok by (apply Hdead; [done | left]).
    pose proof (disconnect_wire user_id (Some ws) (set_world world_io s)) as Hw1.
    pose proof (disconnect_heap user_id (Some ws) (set_world world_io s)) as Hh1.
    pose proof (disconnect_offline user_id (Some ws) (set_world world_io s)) as Ho1.
    pose proof (disconnect_stats user_id (Some ws) (set_world world_io s)) as Hs1.
    pose proof (disconnect_one_closed user_id ws (set_world world_io s)) as Hcl1.
    pose proof (disconnect_metadata user_id ws (set_world world_io s)) as Hm1.
    pose proof (disconnect_conns user_id (Some ws) user_id (set_world world_io s)) as Hc1.
    rewrite decide_True in Hc1 by done.
    simpl in Hw1, Hh1, Ho1, Hcl1, Hm1, Hc1.
    change (conns_of (set_world world_io s) user_id) with (conns_of s user_id) in Hc1.
    remember (exec (disconnect user_id (Some ws)) (set_world world_io s)) as s1 eqn:E1.
    destruct (IH s1) as (Hres & Hc & Hm & Hcl & Hw & Hh & Ho & Hs).
    { by rewrite Hh1. }
    { intros W w HW Hin. apply Hdead; [by rewrite HW, Hw1 | by right]. }
    unfold s'. unfold result, exec in Hres, Hc, Hm, Hcl, Hw, Hh, Ho, Hs |- *.
    rewrite (send_each_cons_fail env user_id message d ws rest sent s Hd Hok).
    rewrite <- E1, Hres, Hc, Hcl, Hw, Hh, Ho, Hs.
    split; [done|]. split; [rewrite Hc1; set_solver|].
    split.
    { intros w. rewrite Hm, Hm1.
      destruct (decide (w ∈ rest)) as [Hin|Hnot].
      - rewrite decide_True; [done | by right].
      - destruct (decide (w = ws)) as [->|Hne].
        + rewrite decide_True by left. apply lookup_delete_eq.
        + rewrite decide_False by (intros [->|?]%elem_of_cons; done).
          by rewrite lookup_delete_ne. }
    split; [rewrite Hcl1; by rewrite <- app_assoc|].
    split; [done|]. split; [done|]. split; [done|].
    by rewrite Hs1.
Qed.
End all_dead.

(** X19. In a state that the manager reached, when none of the user's
    transports takes the message any more, [send_to_user] answers false,
    sends nothing, and disconnects every connection of the user: each is
    closed and loses its metadata, and the user leaves the registry and
    loses its session.  The message is put on the user's offline queue,
    as for a user that was offline before the call. *)
Theorem X19_send_to_user_when_all_connections_fail (env : Env) (ops : list op)
    (u : UserId) (message : loc) (d : PyDict) :
  let s := run_ops env ops init in
  heap s !! message = Some d →
  (∀ W w d', wire W = wire (world s) → w ∈ conns_of s u → send_ok env W w d' = false) →
  let s' := exec (send_to_user env u message) s in
  result (send_to_user env u message) s = Ok false ∧
  frames_since s s' = [] ∧
  queue_of s' u = enqueue (queue_of s u) message ∧
  conns_of s' u = ∅ ∧
  ¬ u ∈ get_active_users s' ∧
  get_user_session u s' = None ∧
  (∀ w, w ∈ conns_of s u →
     w ∈ closed (world s') ∧ connection_metadata s' !! w = None).
Proof.
  intros s Hd Hdead s'.
  set (d' := stamped (clock (world s)) d).
  set (s0 := set_heap (<[message := d']>) s).
  assert (heap s0 !! message = Some d') as Hd0.
  { unfold s0. simpl. apply list_lookup_insert_eq. by eapply lookup_lt_Some. }
  destruct (send_each_all_fail env u message d' (elements (conns_of s u)) false s0 Hd0)
    as (Hres & Hc & Hm & Hcl & Hw & Hh & Ho & Hs).
  { intros W w HW Hin. apply Hdead; [done | by apply elem_of_elements]. }
  assert (registry_inv s') as Hinv.
  { apply send_to_user_inv, run_ops_inv, init_inv. }
  pose proof (send_to_user_run env u message d s Hd) as Hrun.
  cbv zeta in Hrun. fold d' in Hrun. fold s0 in Hrun.
  unfold result, exec in Hres, Hc, Hm, Hcl, Hw, Hh, Ho, Hs.
  destruct (send_each env u message (elements (conns_of s u)) false s0) as [r s1].
  simpl in Hres, Hc, Hm, Hcl, Hw, Hh, Ho, Hs. subst r.
  assert (s' = set_offline (<[u := enqueue (queue_of s1 u) message]>) s1) as Hs'.
  { unfold s', exec. by rewrite Hrun. }
  assert (conns_of s' u = ∅) as Hempty.
  { rewrite Hs'. change (conns_of (set_offline _ s1) u) with (conns_of s1 u).
    rewrite Hc. change (conns_of s0 u) with (conns_of s u).
    apply set_eq. intros x. rewrite elem_of_difference, elem_of_list_to_set.
    rewrite elem_of_elements. set_solver. }
  assert (get_user_connection_count u s' = 0) as Hcount.
  { unfold get_user_connection_count. rewrite Hempty. apply size_empty. }
  split; [unfold result; by rewrite Hrun|].
  split. { apply frames_since_app. rewrite Hs'. simpl. by rewrite Hw, app_nil_r. }
  split. { rewrite Hs'. unfold queue_of at 1. simpl. rewrite lookup_insert_eq. simpl.
           unfold queue_of. by rewrite Ho. }
  split; [done|].
  split. { intros Hact. apply (inv_active_count s' u Hinv) in Hact. lia. }
  split. { destruct (get_user_session u s') as [x|] eqn:E; [|done].
           assert (0 < get_user_connection_count u s'); [|lia].
           apply (inv_session_count s' u Hinv). by rewrite E. }
  intros w Hin. rewrite Hs'. simpl. split.
  - rewrite Hcl. apply elem_of_app. right. by apply elem_of_elements.
  - rewrite Hm. rewrite decide_True; [done | by apply elem_of_elements].
Qed.

Lemma X19_send_to_user_when_all_connections_fail_witness :
  let s := run_ops dying_env
             [Connect 7 1 None; Connect 8 2 None; NewDict [("type", VStr "note")]] init in
  let s' := exec (send_to_user dying_env 1 2) s in
  result (send_to_user dying_env 1 2) s = Ok false ∧
  frames_since s s' = [] ∧
  queue_of s' 1 = enqueue (queue_of s 1) 2 ∧
  conns_of s' 1 = ∅ ∧
  ¬ 1%Z ∈ get_active_users s' ∧
  get_user_session 1 s' = None ∧
  (∀ w, w ∈ conns_of s 1 →
     w ∈ closed (world s') ∧ connection_metadata s' !! w = None).
Proof.
  apply (X19_send_to_user_when_all_connections_fail dying_env
           [Connect 7 1 None; Connect 8 2 None; NewDict [("type", VStr "note")]]
           1 2 [("type", VStr "note")]).
  - reflexivity.
  - intros W w d' HW Hin.
    assert (w = 7) as ->.
    { apply (elem_of_singleton (C := gset nat)). revert Hin. vm_compute. done. }
    simpl. rewrite HW. vm_compute. reflexivity.
Defined.

(** ** What [messages_sent] counts *)

Section counting.
Context (env : Env).

Lemma frames_counted_blind s : disconnect_blind (frames_counted s).
Proof.
  intros s1 s2 _ _ _ Hw _ _ Hs _. unfold frames_counted. by rewrite Hw, Hs.
Qed.

Lemma send_to_connection_cases websocket message s :
  (∃ d, _send_to_connection env websocket message s =
          (Ok (), set_world (world_send websocket d) s)) ∨
  (∃ e, _send_to_connection env websocket message s = (Raise e, s)) ∨
  (∃ e, _send_to_connection env websocket message s = (Raise e, set_world world_io s)).
Proof.
  unfold _send_to_connection, try_except, bind, json_dumps, ws_send_text.
  destruct (heap s !! message) as [d|]; [|right; left; by eexists].
  destruct (send_ok env (world s) websocket d).
  - left. by exists d.
  - right. right. by eexists.
Qed.

Lemma broadcast_each_counted s0 user_id message connections_copy :
  preserves (frames_counted s0) (broadcast_each env user_id message connections_copy).
Proof.
  unfold broadcast_each. apply preserves_for_each. intros websocket s Hs.
  assert (∀ e s1, frames_counted s0 s1 →
            frames_counted s0 (exec
              match e with
              | WebSocketDisconnect => disconnect user_id (Some websocket)
              | _ => disconnect user_id (Some websocket)
              end s1)) as Hh.
  { intros e s1 H1. destruct e;
      by apply (disconnect_blind_keeps _ _ _ (frames_counted_blind s0)). }
  unfold exec at 1, try_except. unfold bind at 1.
  destruct (send_to_connection_cases websocket message s)
    as [[d ->]|[[e ->]|[e ->]]].
  - unfold frames_counted in *. simpl. rewrite length_app. simpl. lia.
  - by apply Hh.
  - by apply Hh.
Qed.

Lemma broadcast_items_counted s0 used items message exclude_user :
  preserves (frames_counted s0) (broadcast_items env used items message exclude_user).
Proof.
  induction items as [|[user_id connections] rest IH]; simpl.
  - apply preserves_bind; [by pres_prim | intros; apply preserves_ret].
  - apply preserves_bind; [by pres_prim | intros _].
    destruct (truthy exclude_user && bool_decide (exclude_user = Some user_id));
      [apply IH|].
    apply preserves_bind; [apply broadcast_each_counted | intros _; apply IH].
Qed.

Lemma send_each_keeps_sent user_id message connections sent s :
  messages_sent (connection_stats (exec (send_each env user_id message connections sent) s))
    = messages_sent (connection_stats s).
Proof.
  apply (kept_send_each env
           (λ s', messages_sent (connection_stats s') = messages_sent (connection_stats s)));
    try done.
  intros u w. apply disconnect_blind_keeps.
  intros s1 s2 _ _ _ _ _ _ Hs _. by rewrite Hs.
Qed.
End counting.

(** X20. [messages_sent] counts differently in the two dispatchers.
    [send_to_user] adds one when it answers true, however many
    connections of the user took the message, and nothing otherwise;
    [broadcast_to_all] adds one for every frame that a transport took. *)
Theorem X20_messages_sent_counts (env : Env) (u : UserId)
    (exclude_user : option UserId) (message : loc) (d : PyDict) (s : State) :
  heap s !! message = Some d →
  let s1 := exec (send_to_user env u message) s in
  let s2 := exec (broadcast_to_all env message exclude_user) s in
  messages_sent (connection_stats s1) =
    match result (send_to_user env u message) s with
    | Ok true => S (messages_sent (connection_stats s))
    | _ => messages_sent (connection_stats s)
    end ∧
  messages_sent (connection_stats s2) =
    messages_sent (connection_stats s) + length (frames_since s s2).
Proof.
  intros Hd s1 s2. split.
  - unfold s1, result, exec. rewrite (send_to_user_run env u message d s Hd). cbv zeta.
    pose proof (send_each_keeps_sent env u message (elements (conns_of s u)) false
                  (set_heap (<[message := stamped (clock (world s)) d]>) s)) as Hk.
    unfold exec in Hk.
    destruct (send_each env u message (elements (conns_of s u)) false _)
      as [[[|]|e] s3]; simpl in *; by rewrite Hk.
  - destruct (broadcast_to_all_spec env message exclude_user d s Hd) as [_ (fs & Hw & _)].
    fold s2 in Hw. rewrite (frames_since_app s s2 fs Hw).
    assert (frames_counted s s2) as Hc.
    { unfold s2. rewrite (broadcast_to_all_unfold env message exclude_user d s Hd).
      cbv zeta. apply preserves_try_except; [|intros; apply preserves_ret|done].
      apply broadcast_items_counted. }
    unfold frames_counted in Hc. rewrite Hw, length_app in Hc. lia.
Qed.

Lemma X20_messages_sent_counts_witness :
  let s1 := exec (send_to_user quiet_env 0 2) two_users in
  let s2 := exec (broadcast_to_all quiet_env 2 None) two_users in
  messages_sent (connection_stats s1) =
    match result (send_to_user quiet_env 0 2) two_users with
    | Ok true => S (messages_sent (connection_stats two_users))
    | _ => messages_sent (connection_stats two_users)
    end ∧
  messages_sent (connection_stats s2) =
    messages_sent (connection_stats two_users) + length (frames_since two_users s2).
Proof.
  apply (X20_messages_sent_counts quiet_env 0 None 2 [("type", VStr "note")] two_users).
  reflexivity.
Defined.

(** ** A notification for a user that is away *)

Section away.
Context (env : Env).

(** [send_to_user] for a user without connections, as a change of the
    state. *)
Lemma send_to_user_offline_exec user_id message d s :
  heap s !! message = Some d →
  conns_of s user_id = ∅ →
  exec (send_to_user env user_id message) s =
    set_offline (<[user_id := enqueue (queue_of s user_id) message]>)
      (set_heap (<[message := stamped (clock (world s)) d]>) s).
Proof.
  intros Hd Hoff. unfold exec.
  rewrite (send_to_user_run env user_id message d s Hd). cbv zeta.
  rewrite Hoff, elements_empty. done.
Qed.

Lemma send_task_notification_exec user_id task_data s :
  exec (send_task_notification env user_id task_data) s =
    exec (send_to_user env user_id (length (heap s)))
      (set_heap (λ h, h ++ [task_notification task_data (clock (world s))]) s).
Proof.
  unfold send_task_notification.
  erewrite exec_bind_ok by reflexivity.
  erewrite exec_bind_ok by reflexivity.
  apply exec_bind_ret.
Qed.
End away.

(** X21. A task notification for a user without connections sends
    nothing: the stamped notification is put at the end of the user's
    offline queue.  When the user then connects, and the transports
    work, the connection gets its confirmation and after it the queue,
    oldest first and the notification last, each message as the ["data"]
    of an [offline_message]; the queue is empty afterwards. *)
Theorem X21_notification_waits_for_reconnect (env : Env) (u : UserId)
    (ws : WebSocket) (task_data : PyDict) (sd : option PyDict) (s : State) :
  healthy env → accepting env →
  conns_of s u = ∅ →
  let l := length (heap s) in
  let now := clock (world s) in
  let s1 := exec (send_task_notification env u task_data) s in
  let s2 := exec (connect env ws u sd) s1 in
  heap s1 !! l = Some (stamped now (task_notification task_data now)) ∧
  frames_since s s1 = [] ∧
  queue_of s1 u = enqueue (queue_of s u) l ∧
  (∃ session_id,
     frames_since s1 s2 =
       (ws, connection_confirmed u session_id now) ::
       ((λ m, (ws, stamped now (offline_wrapper m))) <$> enqueue (queue_of s u) l)) ∧
  replayed_to ws (frames_since s1 s2) = enqueue (queue_of s u) l ∧
  queue_of s2 u = [].
Proof.
  intros Hsend Hacc Hoff l now s1 s2.
  set (tn := task_notification task_data now).
  set (s0 := set_heap (λ h, h ++ [tn]) s).
  assert (heap s0 !! l = Some tn) as Hd0.
  { unfold s0, l. simpl. by rewrite lookup_app_r, Nat.sub_diag by lia. }
  assert (s1 = set_offline (<[u := enqueue (queue_of s u) l]>)
                 (set_heap (<[l := stamped now tn]>) s0)) as Hs1.
  { unfold s1. rewrite send_task_notification_exec. fold now. fold tn. fold s0. fold l.
    by rewrite (send_to_user_offline_exec env u l tn s0 Hd0 Hoff). }
  assert (queue_of s1 u = enqueue (queue_of s u) l) as Hq1.
  { rewrite Hs1. unfold queue_of at 1. simpl. by rewrite lookup_insert_eq. }
  assert (conns_of s1 u = ∅) as Hoff1 by (by rewrite Hs1).
  destruct (connect_healthy_offline env Hsend ws u sd s1 Hacc Hoff1)
    as (session_id & Hframes & Hq2 & _).
  fold s2 in Hframes, Hq2. rewrite Hq1 in Hframes.
  assert (clock (world s1) = now) as Hclock by (by rewrite Hs1).
  rewrite Hclock in Hframes.
  split.
  { rewrite Hs1. simpl. apply list_lookup_insert_eq.
    rewrite length_app. simpl. unfold l. lia. }
  split. { apply frames_since_app. rewrite Hs1. simpl. by rewrite app_nil_r. }
  split; [done|]. split; [by exists session_id|]. split; [|done].
  rewrite Hframes, replayed_to_cons. simpl.
  rewrite replayed_to_wrappers. by case_decide.
Qed.

Lemma X21_notification_waits_for_reconnect_witness :
  let l := length (heap init) in
  let now := clock (world init) in
  let s1 := exec (send_task_notification quiet_env 42 [("id", VInt 1)]) init in
  let s2 := exec (connect quiet_env 7 42 None) s1 in
  heap s1 !! l = Some (stamped now (task_notification [("id", VInt 1)] now)) ∧
  frames_since init s1 = [] ∧
  queue_of s1 42 = enqueue (queue_of init 42) l ∧
  (∃ session_id,
     frames_since s1 s2 =
       (7, connection_confirmed 42 session_id now) ::
       ((λ m, (7, stamped now (offline_wrapper m))) <$> enqueue (queue_of init 42) l)) ∧
  replayed_to 7 (frames_since s1 s2) = enqueue (queue_of init 42) l ∧
  queue_of s2 42 = [].
Proof.
  apply (X21_notification_waits_for_reconnect quiet_env 42 7 [("id", VInt 1)] None init).
  - intros W w d. reflexivity.
  - intros W w. reflexivity.
  - reflexivity.
Defined.

(** ** The endpoint *)

Section endpoint_facts.
Context (env : Env).

(** The loop of the endpoint ends by an exception only. *)
Lemma receive_loop_raises websocket incoming s :
  ∃ e, result (receive_loop env websocket incoming) s = Raise e.
Proof.
  revert s. induction incoming as [|text rest IH]; intros s; cbn [receive_loop];
    unfold result, bind, ws_receive_text;
    destruct (ws_open (world s) websocket); try (by eexists).
  destruct (json_loads env text) as [[| | | | | |message_data|]|];
    try (by eexists).
  destruct (endpoint_reply message_data) as [reply|].
  - unfold ws_send_text.
    destruct (send_ok env _ websocket reply); [apply IH | by eexists].
  - unfold ret. apply IH.
Qed.

Lemma exec_try_raise {A} (m : M A) h s e :
  result m s = Raise e → exec (try_except m h) s = exec (h e) (exec m s).
Proof.
  unfold result, exec, try_except. destruct (m s) as [r s1]. simpl. by intros ->.
Qed.

Lemma connect_is_total websocket user_id session_data :
  succeeds (connect env websocket user_id session_data).
Proof. unfold connect. apply succeeds_try_except. intros _. apply disconnect_succeeds. Qed.

Lemma websocket_endpoint_exec websocket user_id incoming s :
  exec (websocket_endpoint env websocket user_id incoming) s =
    exec (disconnect user_id None)
      (exec (receive_loop env websocket incoming)
         (exec (connect env websocket user_id None) s)).
Proof.
  unfold websocket_endpoint. rewrite exec_seq by apply connect_is_total.
  destruct (receive_loop_raises websocket incoming
              (exec (connect env websocket user_id None) s)) as [e He].
  rewrite (exec_try_raise _ _ _ e He). by destruct e.
Qed.

Lemma received_register n websocket user_id session_data :
  preserves (λ s, messages_received (connection_stats s) = n)
    (ws_accept env websocket >> register env websocket user_id session_data).
Proof.
  intros s Hs. unfold exec.
  destruct (accept_ok env (world s) websocket) eqn:Hacc.
  - destruct (register_accepted env websocket user_id session_data s Hacc)
      as (s' & Hrun & _ & _ & _ & Hst & _).
    rewrite Hrun. simpl. by rewrite Hst.
  - by rewrite register_refused.
Qed.

Lemma receive_loop_keeps_stats websocket incoming s :
  connection_stats (exec (receive_loop env websocket incoming) s) = connection_stats s.
Proof.
  revert s. induction incoming as [|text rest IH]; intros s; cbn [receive_loop];
    unfold exec, bind, ws_receive_text;
    destruct (ws_open (world s) websocket); try done.
  destruct (json_loads env text) as [[| | | | | |message_data|]|]; try done.
  destruct (endpoint_reply message_data) as [reply|].
  - unfold ws_send_text.
    destruct (send_ok env _ websocket reply); [|done].
    etrans; [apply IH | done].
  - unfold ret. etrans; [apply IH | done].
Qed.
End endpoint_facts.

(** X22. The endpoint of [main.py] serves one connection: it connects
    it, answers the client's texts itself, and when the loop ends - the
    client is gone, a text is no JSON object, or an answer could not be
    sent - it calls [disconnect(user_id)] without the connection.  So
    the call returns, and afterwards the user has no connection at all,
    whatever other connections it had, is not among the active users
    and has no session.  The texts are never given to
    [handle_message]: [messages_received] stays as it was. *)
Theorem X22_endpoint_end_disconnects_user (env : Env) (ws : WebSocket) (u : UserId)
    (incoming : list string) (s : State) :
  let s' := exec (websocket_endpoint env ws u incoming) s in
  result (websocket_endpoint env ws u incoming) s = Ok () ∧
  conns_of s' u = ∅ ∧
  get_user_connection_count u s' = 0 ∧
  ¬ u ∈ get_active_users s' ∧
  get_user_session u s' = None ∧
  messages_received (connection_stats s') = messages_received (connection_stats s).
Proof.
  intros s'.
  assert (result (websocket_endpoint env ws u incoming) s = Ok ()) as Hres.
  { assert (succeeds (websocket_endpoint env ws u incoming)) as H.
    { unfold websocket_endpoint.
      apply succeeds_bind; [apply connect_is_total | intros _].
      apply succeeds_try_except. intros e. destruct e; apply disconnect_succeeds. }
    by destruct (H s) as [[] ?]. }
  split; [done|]. unfold s'. rewrite websocket_endpoint_exec.
  destruct (disconnect_all_facts u
              (exec (receive_loop env ws incoming) (exec (connect env ws u None) s)))
    as (Hc & Hn & Ha & Hs).
  split; [done|]. split; [done|]. split; [done|]. split; [done|].
  rewrite disconnect_stats. simpl. rewrite receive_loop_keeps_stats.
  apply (kept_connect env
           (λ s', messages_received (connection_stats s') =
                    messages_received (connection_stats s))); try done.
  - intros v w. apply disconnect_blind_keeps, received_blind.
  - intros w v sd. apply received_register.
Qed.

(** ** Sweeping again *)

Section sweeping_again.
Lemma disconnect_each_clock (L : list (WebSocket * UserId)) s :
  clock (world (exec (for_each L (λ p, disconnect p.2 (Some p.1))) s)) = clock (world s).
Proof.
  apply (preserves_for_each (λ s', clock (world s') = clock (world s))); [|done].
  intros p. apply disconnect_blind_keeps.
  intros s1 s2 _ _ Hc _ _ _ _ _. by rewrite Hc.
Qed.

(** When no connection is old enough the sweep changes nothing. *)
Lemma cleanup_nothing_to_do s :
  inactive_connections (clock (world s)) (connection_metadata s) = [] →
  exec cleanup_inactive_connections s = s.
Proof. intros E. rewrite cleanup_exec, E. done. Qed.

Lemma cleanup_leaves_none_inactive s :
  let s' := exec cleanup_inactive_connections s in
  inactive_connections (clock (world s')) (connection_metadata s') = [].
Proof.
  intros s'.
  destruct (inactive_connections (clock (world s')) (connection_metadata s'))
    as [|[w u] L'] eqn:E; [done|]. exfalso.
  assert ((w, u) ∈ inactive_connections (clock (world s')) (connection_metadata s')) as Hin
    by (rewrite E; left).
  apply inactive_connections_elem in Hin as (md & Hmd & Hu & Hage).
  unfold s' in Hmd, Hage. rewrite cleanup_exec in Hmd, Hage.
  rewrite disconnect_each_clock in Hage.
  destruct (disconnect_each_spec
    (inactive_connections (clock (world s)) (connection_metadata s)) s) as [_ Hm].
  rewrite Hm in Hmd. case_decide as Hw; [done|]. apply Hw.
  apply list_elem_of_fmap. exists (w, u). split; [done|].
  apply inactive_connections_elem. by exists md.
Qed.
End sweeping_again.

(** X23. [cleanup_inactive_connections] never raises, and a sweep that
    follows a sweep at the same instant changes nothing: after one
    sweep no connection that still has metadata is older than the
    hour. *)
Theorem X23_sweep_twice_is_sweep_once (s : State) :
  let s' := exec cleanup_inactive_connections s in
  result cleanup_inactive_connections s = Ok () ∧
  exec cleanup_inactive_connections s' = s' ∧
  (∀ w a, age s' w = Some a → (a ≤ 3600 * 1000000)%Z).
Proof.
  intros s'. split.
  { assert (succeeds cleanup_inactive_connections) as H.
    { unfold cleanup_inactive_connections. apply succeeds_try_except.
      intros _. apply succeeds_ret. }
    by destruct (H s) as [[] ?]. }
  pose proof (cleanup_leaves_none_inactive s) as Hnone. fold s' in Hnone.
  split; [by apply cleanup_nothing_to_do|].
  intros w a. unfold age.
  destruct (connection_metadata s' !! w) as [md|] eqn:E; [|done].
  simpl. intros [= <-].
  destruct (decide (one_hour < clock (world s') - md_connected_at md)%Z) as [Hold|Hyoung].
  - assert ((w, md_user_id md) ∈
        inactive_connections (clock (world s')) (connection_metadata s')) as Hin.
    { apply inactive_connections_elem. by exists md. }
    rewrite Hnone in Hin. by apply elem_of_nil in Hin.
  - unfold one_hour in Hyoung. lia.
Qed.

(** ** Users and connections in the report *)

Section dict_shape.
Context {K V : Type} `{EqDecision K}.
Implicit Types d : list (K * V).

Lemma dict_keys_set_elem x k v d :
  x ∈ dict_keys (dict_set k v d) ↔ x = k ∨ x ∈ dict_keys d.
Proof.
  rewrite !dict_keys_get, dict_get_set.
  case_decide; [subst; split; eauto|]. split; [eauto | by intros [?|?]].
Qed.

Lemma dict_keys_del_elem x k d :
  x ∈ dict_keys (dict_del k d) ↔ x ≠ k ∧ x ∈ dict_keys d.
Proof.
  rewrite !dict_keys_get, dict_get_del.
  case_decide; [subst; split; [by intros [? ?] | by intros [? _]]|].
  split; [by intros ? | by intros [_ ?]].
Qed.

Lemma NoDup_dict_set k v d :
  NoDup (dict_keys d) → NoDup (dict_keys (dict_set k v d)).
Proof.
  induction d as [|[k' v'] r IH]; simpl.
  - intros _. apply NoDup_singleton.
  - intros [Hnot Hr]%NoDup_cons. case_decide; simpl.
    + subst. by apply NoDup_cons.
    + apply NoDup_cons. split; [|by apply IH].
      fold (dict_keys (dict_set k v r)). rewrite dict_keys_set_elem.
      by intros [?|?].
Qed.

Lemma NoDup_dict_del k d :
  NoDup (dict_keys d) → NoDup (dict_keys (dict_del k d)).
Proof.
  induction d as [|[k' v'] r IH]; simpl; [done|].
  intros [Hnot Hr]%NoDup_cons. case_decide; simpl; [by apply IH|].
  apply NoDup_cons. split; [|by apply IH].
  fold (dict_keys (dict_del k r)). rewrite dict_keys_del_elem. by intros [_ ?].
Qed.

Lemma NoDup_dict_get k v d :
  NoDup (dict_keys d) → (k, v) ∈ d → dict_get k d = Some v.
Proof.
  induction d as [|[k' v'] r IH]; simpl.
  - by intros _ ?%elem_of_nil.
  - intros [Hnot Hr]%NoDup_cons [[= -> ->]|Hin]%elem_of_cons.
    + by rewrite decide_True.
    + rewrite decide_False; [by apply IH|]. intros ->. apply Hnot.
      apply list_elem_of_fmap. by exists (k', v).
Qed.
End dict_shape.

Section users_once.
Context (env : Env).

Lemma touch_users_once user_id s :
  NoDup (dict_keys (active_connections s)) →
  NoDup (dict_keys (active_connections (touch user_id s))).
Proof. unfold touch. case_match; [done|]. apply NoDup_dict_set. Qed.

Lemma disconnect_users_once user_id websocket s :
  NoDup (dict_keys (active_connections s)) →
  NoDup (dict_keys (active_connections (exec (disconnect user_id websocket) s))).
Proof.
  intros Hs. rewrite disconnect_exec. simpl. rewrite update_session_active.
  assert (NoDup (dict_keys (active_connections
            (exec (disconnect_branch user_id websocket) s)))) as Hb.
  { destruct websocket as [ws|].
    - rewrite disconnect_branch_some. simpl.
      destruct (bool_decide _); simpl;
        [apply NoDup_dict_set|]; by apply touch_users_once.
    - rewrite disconnect_branch_none. simpl. apply NoDup_dict_set.
      destruct (loop_keeps_active (elements (conns_of s user_id)) (touch user_id s))
        as [-> _].
      by apply touch_users_once. }
  unfold drop_empty, exec, bind. rewrite active_getitem_touch.
  destruct (bool_decide _); simpl; [apply NoDup_dict_del|]; by apply touch_users_once.
Qed.

Lemma register_users_once websocket user_id session_data s :
  NoDup (dict_keys (active_connections s)) →
  NoDup (dict_keys (active_connections
    (exec (ws_accept env websocket >> register env websocket user_id session_data) s))).
Proof.
  intros Hs. unfold exec, register, bind, ws_accept.
  destruct (accept_ok env (world s) websocket); [|done].
  rewrite active_getitem_touch. simpl.
  apply NoDup_dict_set. by apply (touch_users_once user_id (set_world _ s)).
Qed.

Lemma users_once_run ops :
  NoDup (dict_keys (active_connections (run_ops env ops init))).
Proof.
  apply (kept_run_ops env (λ s, NoDup (dict_keys (active_connections s)))); try done.
  - intros u w s. apply disconnect_users_once.
  - intros ws u sd s. apply register_users_once.
  - intros s _ _. apply NoDup_nil_2.
  - apply NoDup_nil_2.
Qed.

Lemma sum_list_at_least (l : list nat) :
  Forall (λ x, 1 ≤ x) l → length l ≤ sum_list l.
Proof. induction 1 as [|x l Hx _ IH]; simpl; lia. Qed.

Lemma users_at_most_connections s :
  registry_inv s → NoDup (dict_keys (active_connections s)) →
  length (active_connections s) ≤ count_connections s.
Proof.
  intros [Hne _] Hnd. unfold count_connections.
  rewrite <- (length_fmap snd), <- (length_fmap size).
  apply sum_list_at_least, Forall_fmap, Forall_fmap, Forall_forall.
  intros [u c] Hin. simpl.
  assert (c ≠ ∅) as Hc by (apply (Hne u), NoDup_dict_get; done).
  assert (size c ≠ 0); [|lia]. apply size_non_empty_iff. by intros ?%leibniz_equiv.
Qed.
End users_once.

(** X24. After every sequence of calls the report of
    [get_connection_stats] never shows more active users than active
    connections - every registered user has a connection - and it shows
    no active user exactly when it shows no active connection. *)
Theorem X24_report_users_and_connections (env : Env) (ops : list op) :
  let s := run_ops env ops init in
  (stat "active_users" s ≤ stat "total_active_connections" s)%Z ∧
  (stat "active_users" s = 0 ↔ stat "total_active_connections" s = 0)%Z ∧
  stat "active_users" s = Z.of_nat (length (get_active_users s)).
Proof.
  intros s.
  assert (registry_inv s) as Hinv by apply run_ops_inv, init_inv.
  pose proof (users_at_most_connections s Hinv (users_once_run env ops)) as Hle.
  rewrite stat_active_users_eq, stat_total_active_connections_eq.
  split; [lia|]. split.
  - split; [|lia]. intros Hz.
    assert (active_connections s = []) as Hnil by (apply length_zero_iff_nil; lia).
    unfold count_connections. by rewrite Hnil.
  - unfold get_active_users, dict_keys. by rewrite length_fmap.
Qed.

(** ** The answers of the endpoint *)

Section endpoint_answers.
Context (env : Env) (Hsend : healthy env).

Lemma sent_frames_transports fs w :
  accepted (sent_frames fs w) = accepted w ∧ closed (sent_frames fs w) = closed w.
Proof.
  revert w. induction fs as [|f fs IH]; intros w; simpl; [done|].
  destruct (IH (world_send f.1 f.2 w)) as [-> ->]. done.
Qed.

Lemma replay_loop_transports user_id messages s :
  conns_of s user_id ≠ ∅ →
  let s' := exec (for_each messages (replay env user_id)) s in
  accepted (world s') = accepted (world s) ∧ closed (world s') = closed (world s).
Proof.
  revert s. induction messages as [|message rest IH]; intros s Hne; simpl; [done|].
  rewrite exec_seq by apply replay_succeeds.
  rewrite (replay_healthy env Hsend user_id message s Hne).
  match goal with |- context [exec (for_each rest _) ?s1] =>
    destruct (IH s1) as [-> ->]; [done|]
  end.
  simpl. apply sent_frames_transports.
Qed.

Lemma confirm_and_flush_transports websocket user_id p (h : Exn → M unit) s :
  conns_of s user_id ≠ ∅ →
  let s' := exec (try_except (confirm_and_flush env websocket user_id p) h) s in
  accepted (world s') = accepted (world s) ∧ closed (world s') = closed (world s).
Proof.
  intros Hne s'. unfold s', confirm_and_flush.
  erewrite exec_try_bind_ok by reflexivity.
  erewrite exec_try_bind_ok.
  2:{ apply send_to_connection_ok with (d := connection_confirmed user_id p.2 p.1).
      - simpl. by rewrite lookup_app_r, Nat.sub_diag by lia.
      - apply Hsend. }
  rewrite exec_try_succeeds.
  2:{ unfold _send_offline_messages. apply succeeds_try_except. intros _. apply succeeds_ret. }
  rewrite send_offline_messages_exec. simpl.
  destruct (offline_messages s !! user_id) as [messages|]; simpl; [|done].
  match goal with |- context [exec (for_each messages _) ?s1] =>
    destruct (replay_loop_transports user_id messages s1) as [-> ->]; [done|]
  end.
  done.
Qed.

(** After an accepted handshake the transport is open, after a refused
    one it is closed. *)
Lemma connect_leaves_open websocket user_id session_data s :
  websocket ∉ closed (world s) →
  ws_open (world (exec (connect env websocket user_id session_data) s)) websocket =
    accept_ok env (world s) websocket.
Proof.
  intros Hfresh. destruct (accept_ok env (world s) websocket) eqn:Hacc.
  - destruct (register_accepted env websocket user_id session_data s Hacc)
      as (s1 & Hrun & Hget & _ & _ & _ & _ & _ & Hw).
    rewrite (connect_accepted_exec env websocket user_id session_data s s1 _ Hrun).
    destruct (confirm_and_flush_transports websocket user_id
                (clock (world s), uuid4 env (S (io_calls (world s))))
                (λ _, disconnect user_id (Some websocket)) s1) as [Ha Hc].
    { unfold conns_of. rewrite Hget, decide_True by done. simpl. set_solver. }
    unfold ws_open. rewrite Ha, Hc, Hw. simpl.
    rewrite !bool_decide_eq_true_2; [done..|]. apply elem_of_app. right. left.
  - rewrite (connect_refused_exec env websocket user_id session_data s Hacc).
    unfold ws_open. rewrite disconnect_one_closed.
    rewrite (bool_decide_eq_false_2 (websocket ∉ _)); [apply andb_false_r|].
    intros Hnot. apply Hnot. apply elem_of_app. right. left.
Qed.

Lemma receive_loop_wire websocket incoming s :
  ws_open (world s) websocket = true →
  wire (world (exec (receive_loop env websocket incoming) s)) =
    wire (world s) ++ endpoint_answers env websocket incoming.
Proof.
  revert s. induction incoming as [|text rest IH]; intros s Hopen;
    cbn [receive_loop]; unfold endpoint_answers; cbn [objects_read];
    unfold exec, bind, ws_receive_text; rewrite Hopen.
  - simpl. by rewrite app_nil_r.
  - destruct (json_loads env text) as [[| | | | | |message_data|]|];
      try (simpl; by rewrite app_nil_r).
    cbn [omap list_omap]. fold (endpoint_answers env websocket rest).
    destruct (endpoint_reply message_data) as [reply|]; simpl.
    + unfold ws_send_text. rewrite Hsend.
      etrans; [apply IH; exact Hopen|]. simpl. by rewrite <- app_assoc.
    + unfold ret. etrans; [apply IH; exact Hopen | done].
Qed.

Lemma receive_loop_not_open websocket incoming s :
  ws_open (world s) websocket = false →
  wire (world (exec (receive_loop env websocket incoming) s)) = wire (world s).
Proof.
  intros Hopen. destruct incoming; cbn [receive_loop];
    unfold exec, bind, ws_receive_text; by rewrite Hopen.
Qed.

Lemma endpoint_answers_bare websocket incoming :
  Forall (λ f, f.1 = websocket ∧
               dict_get "timestamp" f.2 = None ∧ dict_get "data" f.2 = None)
    (endpoint_answers env websocket incoming).
Proof.
  unfold endpoint_answers. induction (objects_read env incoming) as [|md l IH]; simpl.
  - constructor.
  - destruct (endpoint_reply md) as [reply|] eqn:E; simpl; [|done].
    constructor; [|done]. simpl. unfold endpoint_reply in E.
    destruct (dict_get "type" md) as [[| | |t| | | |]|]; try done.
    destruct (String.eqb t "ping"); [by injection E as <-|].
    destruct (String.eqb t "voice_start"); [by injection E as <-|done].
Qed.
End endpoint_answers.

(** X25. While every transport takes every frame, the endpoint of
    [main.py] answers the texts of its client itself, up to the first
    text that is no JSON object: a ["ping"] with [{"type": "pong"}], a
    ["voice_start"] with [{"type": "voice_ready"}], anything else with
    nothing.  These are the only frames between the end of [connect]
    and the end of the endpoint, and unlike the manager's own [pong]
    they carry neither a ["timestamp"] nor ["data"].  When the
    handshake was refused the endpoint answers nothing. *)
Theorem X25_endpoint_answers (env : Env) (ws : WebSocket) (u : UserId)
    (incoming : list string) (s : State) :
  healthy env →
  ws ∉ closed (world s) →
  let s1 := exec (connect env ws u None) s in
  let s' := exec (websocket_endpoint env ws u incoming) s in
  frames_since s1 s' =
    (if accept_ok env (world s) ws then endpoint_answers env ws incoming else []) ∧
  Forall (λ f, f.1 = ws ∧ dict_get "timestamp" f.2 = None ∧ dict_get "data" f.2 = None)
    (frames_since s1 s').
Proof.
  intros Hsend Hfresh s1 s'.
  pose proof (connect_leaves_open env Hsend ws u None s Hfresh) as Hopen. fold s1 in Hopen.
  assert (frames_since s1 s' =
    (if accept_ok env (world s) ws then endpoint_answers env ws incoming else [])) as Hf.
  { apply frames_since_app. unfold s'. rewrite websocket_endpoint_exec.
    rewrite disconnect_wire. fold s1.
    destruct (accept_ok env (world s) ws).
    - by apply receive_loop_wire.
    - rewrite app_nil_r. by apply receive_loop_not_open. }
  split; [done|]. rewrite Hf.
  destruct (accept_ok env (world s) ws); [|constructor].
  apply endpoint_answers_bare.
Qed.

Lemma X25_endpoint_answers_witness :
  let s1 := exec (connect tagged_env 7 42 None) init in
  let s' := exec (websocket_endpoint tagged_env 7 42 ["ping"; "voice_start"]) init in
  frames_since s1 s' =
    (if accept_ok tagged_env (world init) 7
     then endpoint_answers tagged_env 7 ["ping"; "voice_start"] else []) ∧
  Forall (λ f, f.1 = 7 ∧ dict_get "timestamp" f.2 = None ∧ dict_get "data" f.2 = None)
    (frames_since s1 s').
Proof.
  apply (X25_endpoint_answers tagged_env 7 42 ["ping"; "voice_start"] init).
  - intros W w d. reflexivity.
  - apply not_elem_of_nil.
Defined.

(** ** Messages wait only for users without a connection *)

Section waiting.
Context (env : Env).

Lemma send_to_connection_registry_queues websocket message s :
  active_connections (exec (_send_to_connection env websocket message) s)
    = active_connections s ∧
  offline_messages (exec (_send_to_connection env websocket message) s)
    = offline_messages s.
Proof.
  by apply (dispatch_send_to_connection env
    (λ s', active_connections s' = active_connections s ∧
           offline_messages s' = offline_messages s)).
Qed.

(** The loop of [send_to_user] takes connections away and leaves the
    queues; when it answers [False], none of the connections it went
    through is left. *)
Lemma send_each_shrinks user_id message l sent s :
  ∃ b s', send_each env user_id message l sent s = (Ok b, s') ∧
    (b = false → sent = false ∧ ∀ w, w ∈ l → w ∉ conns_of s' user_id) ∧
    offline_messages s' = offline_messages s ∧
    ∀ v, conns_of s' v ⊆ conns_of s v.
Proof.
  revert sent s. induction l as [|ws rest IH]; intros sent s.
  - exists sent, s. split; [done|]. split; [|done].
    intros ->. split; [done|]. intros w Hw. by apply elem_of_nil in Hw.
  - destruct (send_to_connection_registry_queues ws message s) as [Ha Ho].
    unfold exec in Ha, Ho. cbn [send_each].
    destruct (_send_to_connection env ws message s) as [[[]|e] s1] eqn:E;
      simpl in Ha, Ho.
    + destruct (IH true s1) as (b & s' & Hrun & Hb & Ho' & Hc').
      exists b, s'. split.
      { erewrite run_bind_ok; [exact Hrun|].
        unfold try_except. by erewrite run_bind_ok by exact E. }
      split. { intros Hf. by destruct (Hb Hf). }
      split; [congruence|].
      intros v. etrans; [apply Hc'|]. unfold conns_of. by rewrite Ha.
    + set (s2 := exec (disconnect user_id (Some ws)) s1).
      destruct (IH sent s2) as (b & s' & Hrun & Hb & Ho' & Hc').
      assert (∀ v, conns_of s2 v ⊆ conns_of s v) as Hc2.
      { intros v. unfold s2. rewrite disconnect_conns.
        assert (conns_of s1 v = conns_of s v) as Hv by (unfold conns_of; by rewrite Ha).
        case_decide; [subst v; simpl; rewrite Hv; set_solver | by rewrite Hv]. }
      assert (ws ∉ conns_of s2 user_id) as Hws.
      { unfold s2. rewrite disconnect_conns, decide_True by done. simpl. set_solver. }
      exists b, s'. split.
      { erewrite run_bind_ok; [exact Hrun|].
        unfold try_except. erewrite run_bind_raise by exact E.
        destruct e; (erewrite run_bind_ok; [reflexivity | apply disconnect_run]). }
      split.
      { intros Hf. destruct (Hb Hf) as [-> Hrest]. split; [done|].
        intros w [->|Hw]%elem_of_cons; [|by apply Hrest].
        intros Hin. by apply Hws, Hc'. }
      split. { rewrite Ho'. unfold s2. by rewrite disconnect_offline. }
      intros v. etrans; [apply Hc' | apply Hc2].
Qed.

(** [send_to_user] takes connections away, and changes no queue but
    that of its user when it leaves the user without a connection. *)
Lemma send_to_user_queues user_id message s :
  (∀ v, conns_of (exec (send_to_user env user_id message) s) v ⊆ conns_of s v) ∧
  (∀ v, v ≠ user_id →
     queue_of (exec (send_to_user env user_id message) s) v = queue_of s v) ∧
  (conns_of (exec (send_to_user env user_id message) s) user_id ≠ ∅ →
     queue_of (exec (send_to_user env user_id message) s) user_id = queue_of s user_id).
Proof.
  destruct (heap s !! message) as [d|] eqn:Hd.
  - unfold exec. rewrite (send_to_user_run env user_id message d s Hd). cbv zeta.
    destruct (send_each_shrinks user_id message (elements (conns_of s user_id)) false
      (set_heap (<[message := stamped (clock (world s)) d]>) s))
      as (b & s1 & -> & Hb & Ho & Hc).
    simpl in Ho.
    change (∀ v, conns_of s1 v ⊆ conns_of s v) in Hc.
    assert (∀ v, queue_of s1 v = queue_of s v) as Hq
      by (intros v; unfold queue_of; by rewrite Ho).
    destruct b; simpl.
    + split; [exact Hc|]. split; [intros; apply Hq|]. intros _. apply Hq.
    + split; [exact Hc|]. split.
      * intros v Hv. unfold queue_of at 1. simpl. rewrite lookup_insert_ne by done.
        apply Hq.
      * intros Hne. exfalso. apply Hne.
        destruct (Hb eq_refl) as [_ Hgone].
        change (conns_of (set_offline _ s1) user_id) with (conns_of s1 user_id).
        apply set_eq. intros w. split; [|set_solver].
        intros Hw. exfalso. apply (Hgone w); [|done].
        apply elem_of_elements, Hc, Hw.
  - unfold exec.
    assert (send_to_user env user_id message s = (Ok false, s)) as ->; [|done].
    unfold send_to_user, try_except, bind, datetime_now, dict_setitem.
    by rewrite Hd.
Qed.

Lemma send_to_user_waiting user_id message :
  preserves queues_of_offline (send_to_user env user_id message).
Proof.
  intros s Hs u Hu.
  destruct (send_to_user_queues user_id message s) as (Hc & Hq & Hq').
  assert (conns_of s u ≠ ∅) as Hu'.
  { intros He. apply Hu. specialize (Hc u). rewrite He in Hc. set_solver. }
  destruct (decide (u = user_id)) as [->|Hne].
  - rewrite Hq' by done. by apply Hs.
  - rewrite Hq by done. by apply Hs.
Qed.

(** The replay of a queue, for the users other than the one that it
    serves. *)
Lemma replay_loop_others user_id (messages : list loc) s :
  (∀ v, conns_of (exec (for_each messages (replay env user_id)) s) v ⊆ conns_of s v) ∧
  (∀ v, v ≠ user_id →
     queue_of (exec (for_each messages (replay env user_id)) s) v = queue_of s v).
Proof.
  revert s. induction messages as [|m rest IH]; intros s; [done|].
  cbn [for_each]. rewrite exec_seq by apply replay_succeeds.
  destruct (IH (exec (replay env user_id m) s)) as [Hc Hq].
  rewrite replay_exec in Hc, Hq. rewrite replay_exec.
  destruct (send_to_user_queues user_id (length (heap s))
    (set_heap (λ h, h ++ [offline_wrapper m]) s)) as (Hc1 & Hq1 & _).
  split.
  - intros v. etrans; [apply Hc | apply Hc1].
  - intros v Hv. rewrite Hq, Hq1 by done. done.
Qed.

(** After the replay the queue of the user is empty. *)
Lemma send_offline_messages_waiting user_id s :
  (∀ v, v ≠ user_id → conns_of s v ≠ ∅ → queue_of s v = []) →
  queues_of_offline (exec (_send_offline_messages env user_id) s).
Proof.
  intros Hs. rewrite send_offline_messages_exec.
  destruct (offline_messages s !! user_id) as [messages|] eqn:E.
  - destruct (replay_loop_others user_id messages s) as [Hc Hq].
    intros u Hu. unfold queue_of. simpl.
    destruct (decide (u = user_id)) as [->|Hne]; [by rewrite lookup_insert_eq|].
    rewrite lookup_insert_ne by done.
    change (queue_of (exec (for_each messages (replay env user_id)) s) u = []).
    rewrite Hq by done. apply Hs; [done|].
    intros He. apply Hu.
    change (conns_of (exec (for_each messages (replay env user_id)) s) u = ∅).
    specialize (Hc u). rewrite He in Hc. set_solver.
  - intros u Hu. destruct (decide (u = user_id)) as [->|Hne]; [|by apply Hs].
    unfold queue_of. by rewrite E.
Qed.

Lemma send_offline_messages_run user_id s :
  _send_offline_messages env user_id s =
    (Ok (), exec (_send_offline_messages env user_id) s).
Proof.
  rewrite (run_eq (_send_offline_messages _ _)). f_equal.
  destruct (succeeds_try_except
    (let! s := get_state in
     match offline_messages s !! user_id with
     | Some messages =>
         for_each messages (λ message,
           let! wrapper := new_dict (offline_wrapper message) in
           let! _ := send_to_user env user_id wrapper in
           ret ()) >>
         modify (set_offline (<[user_id := []]>))
     | None => ret ()
     end) (λ _, ret ()) (λ _, succeeds_ret ()) s) as [[] E].
  exact E.
Qed.

(** [connect]: where a statement before the replay raises, the user
    keeps at most the connections it had; after the replay the queue
    is empty. *)
Lemma connect_waiting websocket user_id session_data :
  preserves queues_of_offline (connect env websocket user_id session_data).
Proof.
  intros s Hs.
  set (I := λ s' : State,
    (∀ v, v ≠ user_id → conns_of s' v ≠ ∅ → queue_of s' v = []) ∧
    (conns_of s' user_id ∖ {[websocket]} ≠ ∅ → queue_of s' user_id = [])).
  assert (∀ s', I s' →
    queues_of_offline (exec (disconnect user_id (Some websocket)) s')) as Hhandler.
  { intros s' [Ho Hu] u Hne. unfold queue_of. rewrite disconnect_offline.
    rewrite disconnect_conns in Hne.
    destruct (decide (user_id = u)) as [<-|Hv]; [by apply Hu | by apply Ho]. }
  assert (I s) as HI.
  { split; [intros v _; apply Hs|]. intros Hne. apply Hs. set_solver. }
  assert (preserves I (ws_accept env websocket >>
    register env websocket user_id session_data)) as Hreg.
  { clear s Hs HI. apply preserves_bind.
    { intros s Hs. unfold exec, ws_accept. by destruct (accept_ok env (world s) websocket). }
    intros _ s Hs. unfold register.
    erewrite exec_bind_ok; cycle 1.
    { erewrite run_bind_ok by apply active_getitem_touch. reflexivity. }
    erewrite exec_bind_ok by reflexivity.
    erewrite exec_bind_ok by reflexivity.
    erewrite exec_bind_ok by reflexivity.
    erewrite exec_bind_ok by reflexivity.
    erewrite exec_bind_ok by reflexivity.
    unfold exec, ret. cbn [snd].
    destruct Hs as [Ho Hu].
    set (reg := set_active (dict_set user_id ({[websocket]} ∪ conns_of s user_id))
                  (touch user_id s)).
    assert (∀ v, conns_of reg v =
      if decide (user_id = v) then {[websocket]} ∪ conns_of s user_id
      else conns_of s v) as Hc.
    { intros v. unfold reg, conns_of at 1. simpl. rewrite dict_get_set.
      case_decide; [done|]. by rewrite <- (touch_conns user_id v s). }
    assert (offline_messages reg = offline_messages s) as Hq
      by (unfold reg; simpl; apply touch_offline).
    split.
    - intros v Hv.
      match goal with |- conns_of ?t v ≠ ∅ → queue_of ?t v = [] =>
        change (conns_of reg v ≠ ∅ → default [] (offline_messages reg !! v) = []) end.
      rewrite Hc, Hq, decide_False by done. by apply Ho.
    - match goal with |- conns_of ?t user_id ∖ _ ≠ ∅ → queue_of ?t user_id = [] =>
        change (conns_of reg user_id ∖ {[websocket]} ≠ ∅ →
                default [] (offline_messages reg !! user_id) = []) end.
      rewrite Hc, Hq, decide_True by done. intros Hne. apply Hu. set_solver. }
  unfold exec. rewrite connect_unfold. unfold try_except.
  specialize (Hreg s HI). unfold exec in Hreg.
  destruct ((ws_accept env websocket >> register env websocket user_id session_data) s)
    as [[p|e] s1] eqn:E1; simpl in Hreg.
  - erewrite run_bind_ok by exact E1. unfold confirm_and_flush.
    erewrite run_bind_ok by reflexivity.
    set (s2 := set_heap _ s1).
    assert (I s2) as HI2 by exact Hreg.
    destruct (send_to_connection_registry_queues websocket (length (heap s1)) s2)
      as [Ha Hq].
    unfold exec in Ha, Hq.
    destruct (_send_to_connection env websocket (length (heap s1)) s2)
      as [[[]|e] s3] eqn:E3; simpl in Ha, Hq.
    + erewrite run_bind_ok by exact E3. rewrite send_offline_messages_run. simpl.
      apply send_offline_messages_waiting. intros v Hv.
      unfold conns_of, queue_of. rewrite Ha, Hq. by apply HI2.
    + erewrite run_bind_raise by exact E3. apply Hhandler.
      unfold I, conns_of, queue_of. rewrite Ha, Hq. exact HI2.
  - erewrite run_bind_raise by exact E1. by apply Hhandler.
Qed.

Lemma queues_of_offline_run ops : queues_of_offline (run_ops env ops init).
Proof.
  apply dispatch_run_ops; try done.
  - intros u w s Hs v Hv. unfold queue_of. rewrite disconnect_offline.
    apply Hs. rewrite disconnect_conns in Hv.
    case_decide; [subst v|done].
    destruct w; simpl in Hv; [set_solver | done].
  - apply send_to_user_waiting.
  - apply connect_waiting.
Qed.
End waiting.

(** X26.  After every sequence of calls, a user that has a registered
    connection has no message in its offline queue: the queues hold
    messages only for users without a connection. *)
Theorem X26_queued_messages_wait_for_offline_users (env : Env) (ops : list op)
    (user_id : UserId) :
  let s := run_ops env ops init in
  0 < get_user_connection_count user_id s → queue_of s user_id = [].
Proof.
  intros s Hn. apply (queues_of_offline_run env ops).
  intros He. unfold get_user_connection_count in Hn. fold s in He.
  rewrite He, size_empty in Hn. lia.
Qed.

Lemma X26_queued_messages_wait_for_offline_users_witness :
  let ops := [NewDict [("type", VStr "note")]; SendToUser 42 0; Connect 7 42 None] in
  queue_of (run_ops quiet_env (take 2 ops) init) 42 = [0] ∧
  0 < get_user_connection_count 42 (run_ops quiet_env ops init) ∧
  queue_of (run_ops quiet_env ops init) 42 = [].
Proof.
  split; [by vm_compute|]. split; [vm_compute; lia|].
  apply (X26_queued_messages_wait_for_offline_users quiet_env
    [NewDict [("type", VStr "note")]; SendToUser 42 0; Connect 7 42 None] 42).
  vm_compute. lia.
Defined.

(** ** Whom a broadcast reaches *)

Section aim.
Context (env : Env).

Lemma aimed_at_delivery_only w0 allowed : delivery_only (aimed_at w0 allowed).
Proof. intros s s' _ _ _ Hw (fs & H1 & H2). exists fs. split; [congruence | done]. Qed.

Lemma send_to_connection_aimed w0 allowed websocket message :
  websocket ∈ allowed →
  preserves (aimed_at w0 allowed) (_send_to_connection env websocket message).
Proof.
  intros Hin s (fs & Hw & Hfs).
  unfold exec, _send_to_connection, try_except, bind, json_dumps, ws_send_text.
  destruct (heap s !! message) as [d|]; [|by exists fs].
  destruct (send_ok env (world s) websocket d); [|by exists fs].
  exists (fs ++ [(websocket, d)]). simpl. rewrite Hw, app_assoc.
  split; [done|]. apply Forall_app. split; [done|]. by apply Forall_singleton.
Qed.

Lemma broadcast_each_aimed w0 allowed user_id message connections_copy :
  (∀ w, w ∈ connections_copy → w ∈ allowed) →
  preserves (aimed_at w0 allowed) (broadcast_each env user_id message connections_copy).
Proof.
  intros Hin. unfold broadcast_each.
  induction connections_copy as [|w ws IH]; [apply preserves_ret|].
  cbn [for_each]. apply preserves_bind; [|intros _; apply IH; set_solver].
  apply preserves_try_except.
  - apply preserves_bind; [apply send_to_connection_aimed, Hin; set_solver | intros _].
    apply preserves_modify. intros s Hs.
    by eapply (aimed_at_delivery_only w0 allowed); [..|exact Hs].
  - intros e. destruct e; apply disconnect_delivery_only, aimed_at_delivery_only.
Qed.

Lemma broadcast_items_aimed w0 allowed used items message exclude_user :
  (∀ w, w ∈ recipients exclude_user items → w ∈ allowed) →
  preserves (aimed_at w0 allowed) (broadcast_items env used items message exclude_user).
Proof.
  induction items as [|[user_id connections] rest IH]; intros Hin; simpl.
  - apply preserves_bind; [by pres_prim | intros; apply preserves_ret].
  - apply preserves_bind; [by pres_prim | intros _].
    unfold recipients in Hin. simpl in Hin. fold (recipients exclude_user rest) in Hin.
    destruct (truthy exclude_user && bool_decide (exclude_user = Some user_id)).
    + by apply IH.
    + apply preserves_bind; [|intros _; apply IH; intros w Hw; apply Hin; set_solver].
      apply broadcast_each_aimed. intros w Hw. apply Hin. set_solver.
Qed.

(** Whatever the transports do, a broadcast sends only to connections
    of the entries that its test does not skip. *)
Lemma broadcast_to_all_aimed message exclude_user d s :
  heap s !! message = Some d →
  Forall (λ f, f.1 ∈ recipients exclude_user (active_connections s))
    (frames_since s (exec (broadcast_to_all env message exclude_user) s)).
Proof.
  intros Hd. rewrite (broadcast_to_all_unfold env message exclude_user d s Hd). cbv zeta.
  set (s0 := set_heap _ s).
  destruct (preserves_try_except
    (aimed_at (wire (world s)) (recipients exclude_user (active_connections s)))
    (broadcast_items env (length (active_connections s)) (active_connections s)
       message exclude_user) (λ _, ret ())) with (s := s0) as (fs & Hw & Hfs).
  - by apply broadcast_items_aimed.
  - intros _. apply preserves_ret.
  - exists []. by rewrite app_nil_r.
  - by rewrite (frames_since_app s _ fs Hw).
Qed.

(** When the transports of the connections it sends to take the
    frame, the loop sends it to each of them, in order. *)
Lemma broadcast_each_taken user_id message d connections_copy s :
  heap s !! message = Some d →
  (∀ W w, w ∈ connections_copy → send_ok env W w d = true) →
  broadcast_each env user_id message connections_copy s =
    (Ok (), delivered d connections_copy s).
Proof.
  intros Hd. revert s Hd.
  induction connections_copy as [|w ws IH]; intros s Hd Htake; [done|].
  unfold broadcast_each in *. simpl.
  unfold bind at 1, try_except, bind at 1.
  rewrite (send_to_connection_ok env w message d s Hd) by (apply Htake; set_solver).
  simpl. rewrite IH; [done..|]. intros W w' Hw'. apply Htake. set_solver.
Qed.

Lemma broadcast_items_taken used items message exclude_user d s :
  heap s !! message = Some d →
  length (active_connections s) = used →
  (∀ W w, w ∈ recipients exclude_user items → send_ok env W w d = true) →
  broadcast_items env used items message exclude_user s =
    (Ok (), delivered d (recipients exclude_user items) s).
Proof.
  intros Hd Hused. revert s Hd Hused.
  induction items as [|[user_id connections] rest IH]; intros s Hd Hused Htake; simpl.
  - unfold bind, check_dict_size. by rewrite bool_decide_eq_true_2.
  - unfold bind at 1, check_dict_size. rewrite bool_decide_eq_true_2 by done.
    unfold recipients in Htake |- *. simpl in Htake |- *.
    fold (recipients exclude_user rest) in Htake |- *.
    destruct (truthy exclude_user && bool_decide (exclude_user = Some user_id)).
    + by apply IH.
    + unfold bind. rewrite (broadcast_each_taken _ _ d) by
        (try done; intros W w Hw; apply Htake; set_solver).
      rewrite delivered_app. apply IH.
      * by rewrite delivered_heap.
      * by rewrite delivered_active.
      * intros W w Hw. apply Htake. set_solver.
Qed.

Lemma broadcast_to_all_taken message exclude_user d s :
  heap s !! message = Some d →
  (∀ W w, w ∈ recipients exclude_user (active_connections s) →
     send_ok env W w (stamped (clock (world s)) d) = true) →
  frames_since s (exec (broadcast_to_all env message exclude_user) s) =
    frames_to (recipients exclude_user (active_connections s))
      (stamped (clock (world s)) d).
Proof.
  intros Hd Htake. rewrite (broadcast_to_all_unfold env message exclude_user d s Hd).
  cbv zeta. apply frames_since_app.
  unfold exec, try_except.
  rewrite (broadcast_items_taken _ _ _ _ (stamped (clock (world s)) d)).
  - simpl. by rewrite delivered_wire.
  - simpl. apply list_lookup_insert_eq. by eapply lookup_lt_Some.
  - done.
  - exact Htake.
Qed.

Lemma recipients_nonzero (X : UserId) items :
  X ≠ 0%Z →
  recipients (Some X) items =
    flat_map (λ p, if decide (p.1 = X) then [] else elements p.2) items.
Proof.
  intros HX. unfold recipients. apply flat_map_ext. intros [u c]. simpl.
  unfold truthy. rewrite bool_decide_eq_true_2 by done. simpl.
  destruct (decide (u = X)) as [->|Hne].
  - by rewrite bool_decide_eq_true_2.
  - rewrite bool_decide_eq_false_2; [done|]. by intros [= ->].
Qed.
End aim.

(** X27.  A broadcast that excludes a user [X] other than 0, whatever
    the transports do: every frame it sends carries the stamped message
    and goes to a connection registered for a user other than [X], so a
    connection registered for [X] alone gets none.  When the transports
    of the other users' connections take the frame, the stamped message
    goes once to each connection of each other entry of the registry,
    in the registry's order: every connection of every other user gets
    it. *)
Theorem X27_broadcast_excludes_nonzero_user (env : Env) (X : UserId) (message : loc)
    (d : PyDict) (s : State) :
  heap s !! message = Some d →
  X ≠ 0%Z →
  let s' := exec (broadcast_to_all env message (Some X)) s in
  let d' := stamped (clock (world s)) d in
  let others := flat_map (λ p, if decide (p.1 = X) then [] else elements p.2)
                  (active_connections s) in
  (∀ w f, (w, f) ∈ frames_since s s' →
     f = d' ∧ ∃ u c, u ≠ X ∧ (u, c) ∈ active_connections s ∧ w ∈ c) ∧
  (∀ w, (∀ u c, (u, c) ∈ active_connections s → w ∈ c → u = X) →
     ∀ f, (w, f) ∉ frames_since s s') ∧
  ((∀ W w, w ∈ others → send_ok env W w d' = true) →
     frames_since s s' = frames_to others d' ∧
     ∀ u w, u ≠ X → w ∈ conns_of s u → (w, d') ∈ frames_since s s').
Proof.
  intros Hd HX s' d' others.
  assert (∀ w, w ∈ others ↔ ∃ u c, u ≠ X ∧ (u, c) ∈ active_connections s ∧ w ∈ c)
    as Hothers.
  { intros w. unfold others. split.
    - intros Hw. apply list_elem_of_In, in_flat_map in Hw as ([u c] & Huc & Hw).
      apply list_elem_of_In in Huc, Hw. simpl in Hw.
      destruct (decide (u = X)); [by apply elem_of_nil in Hw|].
      exists u, c. split; [done|]. split; [done|]. by apply elem_of_elements.
    - intros (u & c & Hu & Huc & Hw).
      apply list_elem_of_In, in_flat_map. exists (u, c).
      split; [by apply list_elem_of_In|]. simpl.
      rewrite decide_False by done. by apply list_elem_of_In, elem_of_elements. }
  assert (∀ w f, (w, f) ∈ frames_since s s' →
            f = d' ∧ ∃ u c, u ≠ X ∧ (u, c) ∈ active_connections s ∧ w ∈ c) as Hin.
  { intros w f Hf. split.
    - destruct (broadcast_to_all_spec env message (Some X) d s Hd) as (_ & fs & Hw & Hfs).
      fold s' in Hw. rewrite (frames_since_app s s' fs Hw) in Hf.
      by apply (proj1 (Forall_forall _ _) Hfs (w, f)).
    - apply Hothers.
      pose proof (broadcast_to_all_aimed env message (Some X) d s Hd) as Haim.
      fold s' in Haim. rewrite (recipients_nonzero X _ HX) in Haim.
      by apply (proj1 (Forall_forall _ _) Haim (w, f)). }
  split; [exact Hin|]. split.
  - intros w Honly f Hf. apply Hin in Hf as (_ & u & c & Hu & Huc & Hw).
    apply Hu. by eapply Honly.
  - intros Htake.
    assert (frames_since s s' = frames_to others d') as Hframes.
    { unfold s'. rewrite (broadcast_to_all_taken env message (Some X) d s Hd).
      - by rewrite (recipients_nonzero X _ HX).
      - rewrite (recipients_nonzero X _ HX). exact Htake. }
    split; [exact Hframes|].
    intros u w Hu Hw. rewrite Hframes. unfold frames_to.
    apply list_elem_of_fmap. exists w. split; [done|]. apply Hothers.
    unfold conns_of in Hw.
    destruct (dict_get u (active_connections s)) as [c|] eqn:E;
      [|by apply not_elem_of_empty in Hw].
    exists u, c. split; [done|]. split; [by apply dict_get_elem_of | done].
Qed.

Lemma X27_broadcast_excludes_nonzero_user_witness :
  let s' := exec (broadcast_to_all quiet_env 2 (Some 5%Z)) two_users in
  let d' := stamped (clock (world two_users)) [("type", VStr "note")] in
  let others := flat_map (λ p, if decide (p.1 = 5%Z) then [] else elements p.2)
                  (active_connections two_users) in
  (∀ w f, (w, f) ∈ frames_since two_users s' →
     f = d' ∧ ∃ u c, u ≠ 5%Z ∧ (u, c) ∈ active_connections two_users ∧ w ∈ c) ∧
  (∀ w, (∀ u c, (u, c) ∈ active_connections two_users → w ∈ c → u = 5%Z) →
     ∀ f, (w, f) ∉ frames_since two_users s') ∧
  ((∀ W w, w ∈ others → send_ok quiet_env W w d' = true) →
     frames_since two_users s' = frames_to others d' ∧
     ∀ u w, u ≠ 5%Z → w ∈ conns_of two_users u → (w, d') ∈ frames_since two_users s').
Proof.
  apply (X27_broadcast_excludes_nonzero_user quiet_env 5 2 [("type", VStr "note")]
           two_users).
  - reflexivity.
  - lia.
Defined.
